(** * The tenant provisioning tool: tier table, manifest renderers, tenant store

    A shallow embedding of [tools/provision-tenant.py] and the properties of
    its three operations [create_tenant], [delete_tenant] and [list_tenants].

    Modelling choices.
    - A Python [str] is a [string] of bytes (its UTF-8 encoding); the byte
      order on strings is the code point order Python sorts by.
    - The working directory is a finite map from component lists to entries
      (a regular file with its content, or a directory).  The map stands for
      an ideal POSIX tree: no symbolic links, no permissions, no limit on
      name length or disk space, every stored content is decodable text.
    - Each [pathlib]/[shutil] call is modelled by its documented behaviour on
      such a tree; the subclasses of [OSError] it may raise are all modelled
      by [OSError].
    - [pathlib] keeps a [..] component in a path and the kernel resolves it;
      the map has no parent links and looks such a path up as it is
      written, so statements that take a tenant path to be absent, or that
      let the store write or remove entries, are about tenant names that
      are one valid file name ([valid_name]).
    - Standard output is the list of chunks written, standard input the list
      of lines still to be read. *)

From Stdlib Require Import Ascii.
From stdpp Require Import gmap strings list fin_maps pretty sorting.

(** ** Strings as Python uses them *)

Module Str.

Definition nl : ascii := "010"%char.
Definition dq : string := String "034"%char EmptyString.

(** [s.startswith(p)] *)
Fixpoint startswith (p s : string) : bool :=
  match p with
  | EmptyString => true
  | String a p' =>
      match s with
      | EmptyString => false
      | String b s' => Ascii.eqb a b && startswith p' s'
      end
  end.

(** [p in s]: [p] occurs in [s] at some offset *)
Fixpoint contains (p s : string) : bool :=
  startswith p s ||
  match s with
  | EmptyString => false
  | String _ s' => contains p s'
  end.

(** [c in s] for one byte *)
Fixpoint has_char (c : ascii) (s : string) : bool :=
  match s with
  | EmptyString => false
  | String b s' => Ascii.eqb c b || has_char c s'
  end.

Definition is_upper (c : ascii) : bool :=
  let n := N_of_ascii c in (65 <=? n)%N && (n <=? 90)%N.

Definition lower_char (c : ascii) : ascii :=
  if is_upper c then ascii_of_N (N_of_ascii c + 32) else c.

(** [s.lower()] on the ASCII letters.  The bytes of a character outside
    ASCII are left as they are; no such character lower-cases to a letter of
    the token the result is compared with. *)
Fixpoint lower (s : string) : string :=
  match s with
  | EmptyString => EmptyString
  | String c s' => String (lower_char c) (lower s')
  end.

(** [s.split(sep)] for a one-byte separator *)
Fixpoint split_on (sep : ascii) (s : string) : list string :=
  match s with
  | EmptyString => [EmptyString]
  | String c s' =>
      if Ascii.eqb c sep then EmptyString :: split_on sep s'
      else match split_on sep s' with
           | [] => [String c EmptyString]
           | w :: ws => String c w :: ws
           end
  end.

End Str.

Import Str.

(** ** Tier Table *)

Record profile := Profile {
  replicas : Z;
  memory_request : string;
  memory_limit : string;
  cpu_request : string;
  cpu_limit : string
}.

Definition TIERS : gmap string profile :=
  <["small" := Profile 1 "128Mi" "256Mi" "100m" "200m"]>
  (<["standard" := Profile 2 "256Mi" "512Mi" "200m" "400m"]>
  (<["large" := Profile 3 "512Mi" "1Gi" "500m" "1000m"]> ∅)).

(** ** Manifest Renderer *)

Definition create_namespace_yaml (tenant_name : string) : string :=
"---
apiVersion: v1
kind: Namespace
metadata:
  name: tenant-" +:+ tenant_name +:+ "
  labels:
    tenant: " +:+ tenant_name +:+ "
".

Definition deployment_text (tenant_name : string) (config : profile) : string :=
"---
apiVersion: apps/v1
kind: Deployment
metadata:
  name: nginx-deployment
  namespace: tenant-" +:+ tenant_name +:+ "
  labels:
    app: web
    tenant: " +:+ tenant_name +:+ "
spec:
  replicas: " +:+ pretty (replicas config) +:+ "
  selector:
    matchLabels:
      app: web
  template:
    metadata:
      labels:
        app: web
        tenant: " +:+ tenant_name +:+ "
    spec:
      containers:
      - name: nginx
        image: nginx:1.21
        ports:
        - containerPort: 80
        resources:
          requests:
            memory: " +:+ dq +:+ memory_request config +:+ dq +:+ "
            cpu: " +:+ dq +:+ cpu_request config +:+ dq +:+ "
          limits:
            memory: " +:+ dq +:+ memory_limit config +:+ dq +:+ "
            cpu: " +:+ dq +:+ cpu_limit config +:+ dq +:+ "
".

(** [config = TIERS[tier]] raises [KeyError] for a tier that is not in the
    table: the result is [None]. *)
Definition create_deployment_yaml (tenant_name tier : string) : option string :=
  config ← TIERS !! tier;
  Some (deployment_text tenant_name config).

Definition create_service_yaml (tenant_name : string) : string :=
"---
apiVersion: v1
kind: Service
metadata:
  name: nginx-service
  namespace: tenant-" +:+ tenant_name +:+ "
  labels:
    app: web
    tenant: " +:+ tenant_name +:+ "
spec:
  type: ClusterIP
  selector:
    app: web
  ports:
  - port: 80
    targetPort: 80
    protocol: TCP
".

Definition create_configmap_yaml (tenant_name : string) : string :=
"---
apiVersion: v1
kind: ConfigMap
metadata:
  name: app-config
  namespace: tenant-" +:+ tenant_name +:+ "
  labels:
    tenant: " +:+ tenant_name +:+ "
data:
  database_host: " +:+ dq +:+ "postgres.example.com" +:+ dq +:+ "
  database_port: " +:+ dq +:+ "5432" +:+ dq +:+ "
  app_mode: " +:+ dq +:+ "production" +:+ dq +:+ "
  log_level: " +:+ dq +:+ "info" +:+ dq +:+ "
".

Definition create_argocd_application_yaml (tenant_name : string) : string :=
"---
apiVersion: argoproj.io/v1alpha1
kind: Application
metadata:
  name: " +:+ tenant_name +:+ "-tenant
  namespace: argocd
  labels:
    tenant: " +:+ tenant_name +:+ "
  finalizers:
    - resources-finalizer.argocd.argoproj.io
spec:
  project: default
  source:
    repoURL: https://github.com/moahmed90/multi-tenant-platform
    targetRevision: main
    path: gitops/tenants/" +:+ tenant_name +:+ "
  destination:
    server: https://kubernetes.default.svc
    namespace: tenant-" +:+ tenant_name +:+ "
  syncPolicy:
    automated:
      prune: true
      selfHeal: true
    syncOptions:
      - CreateNamespace=true
  ignoreDifferences:
    - group: apps
      kind: Deployment
      jsonPointers:
        - /spec/replicas
".

(** ** Tenant Store: the file tree *)

Inductive entry := File (content : string) | Dir.

#[global] Instance entry_eq_dec : EqDecision entry.
Proof. solve_decision. Defined.

Module FS.

(** [Path(s)]: the components of a relative path; [pathlib] drops empty and
    [.] components. *)
Definition Path (s : string) : list string :=
  filter (λ c, c ≠ "" ∧ c ≠ ".") (split_on "/" s).

(** [p / s] *)
Definition join (p : list string) (s : string) : list string := p ++ Path s.

(** [p.parent] *)
Definition parent (p : list string) : list string := take (length p - 1) p.

(** [p.name] *)
Definition name (p : list string) : string := default "" (last p).

(** The entry a path leads to; the empty path is the working directory.
    Every component is looked up as a name, [..] included: the lookup is
    the kernel's for paths without a [..] component, which the paths built
    from a [valid_name] are. *)
Definition stat (fs : gmap (list string) entry) (p : list string) : option entry :=
  match p with
  | [] => Some Dir
  | _ => fs !! p
  end.

(** [mkdir(parents=True, exist_ok=True)] walks the path from the working
    directory, creates the directories that are missing and fails on a
    component that is a regular file. *)
Fixpoint mkdirs (fs : gmap (list string) entry) (done todo : list string)
  : option (gmap (list string) entry) :=
  match todo with
  | [] => Some fs
  | c :: todo' =>
      let d := done ++ [c] in
      match fs !! d with
      | Some (File _) => None
      | Some Dir => mkdirs fs d todo'
      | None => mkdirs (<[d := Dir]> fs) d todo'
      end
  end.

(** The name of [k] inside [p], when [k] is an entry of the directory [p]. *)
Fixpoint child_of (p k : list string) : option string :=
  match p, k with
  | [], [n] => Some n
  | a :: p', b :: k' => if decide (a = b) then child_of p' k' else None
  | _, _ => None
  end.

(** The entries of the directory [p], in the order the map lists them. *)
Definition listdir (fs : gmap (list string) entry) (p : list string) : list (list string) :=
  (λ n, p ++ [n]) <$> omap (child_of p) (map_to_list fs).*1.

(** The order of [PurePath.__lt__]: component by component, each by code point. *)
Fixpoint path_leb (p q : list string) : bool :=
  match p, q with
  | [], _ => true
  | _ :: _, [] => false
  | a :: p', b :: q' =>
      match String.compare a b with
      | Lt => true
      | Gt => false
      | Eq => path_leb p' q'
      end
  end.

Definition path_le (p q : list string) : Prop := path_leb p q = true.

#[global] Instance path_le_dec : RelDecision path_le.
Proof. intros p q. unfold path_le. apply _. Defined.

(** [sorted(paths)] *)
Definition sorted (ps : list (list string)) : list (list string) :=
  merge_sort path_le ps.

End FS.

Import FS.

(** ** The process: files, console, exceptions *)

Record world := World {
  files : gmap (list string) entry;
  stdin : list string;
  stdout : list string
}.

Inductive exn := OSError | EOFError | KeyError.

Inductive outcome (A : Type) := Return (a : A) | Raise (e : exn).
Arguments Return {A} a.
Arguments Raise {A} e.

Definition M (A : Type) : Type := world → outcome A * world.

#[global] Instance M_ret : MRet M := λ A a w, (Return a, w).

#[global] Instance M_bind : MBind M := λ A B f m w,
  match m w with
  | (Return a, w') => f a w'
  | (Raise e, w') => (Raise e, w')
  end.

Definition raise {A} (e : exn) : M A := λ w, (Raise e, w).

Definition get_files : M (gmap (list string) entry) := λ w, (Return (files w), w).

Definition put_files (fs : gmap (list string) entry) : M unit :=
  λ w, (Return tt, World fs (stdin w) (stdout w)).

Definition write (s : string) : M unit :=
  λ w, (Return tt, World (files w) (stdin w) (stdout w ++ [s])).

(** [print(s)] *)
Definition print (s : string) : M unit := write (s +:+ "
").

Definition read_line : M string :=
  λ w, match stdin w with
       | [] => (Raise EOFError, w)
       | line :: rest => (Return line, World (files w) rest (stdout w))
       end.

(** [input(prompt)]: the prompt is written, then one line is read; at the
    end of the input [EOFError] is raised. *)
Definition input (prompt : string) : M string :=
  write prompt ;; read_line.

(** [p.exists()] *)
Definition path_exists (p : list string) : M bool :=
  fs ← get_files; mret (bool_decide (is_Some (stat fs p))).

(** [p.is_dir()] *)
Definition is_dir (p : list string) : M bool :=
  fs ← get_files; mret (bool_decide (stat fs p = Some Dir)).

(** [p.mkdir(parents=True, exist_ok=True)] *)
Definition mkdir (p : list string) : M unit :=
  fs ← get_files;
  match mkdirs fs [] p with
  | Some fs' => put_files fs'
  | None => raise OSError
  end.

(** [p.write_text(text)]: the parent has to be a directory and [p] must not
    be one; the file is created or replaced. *)
Definition write_text (p : list string) (text : string) : M unit :=
  fs ← get_files;
  if decide (p ≠ [] ∧ stat fs (parent p) = Some Dir ∧ fs !! p ≠ Some Dir)
  then put_files (<[p := File text]> fs)
  else raise OSError.

(** [p.read_text()] *)
Definition read_text (p : list string) : M string :=
  fs ← get_files;
  match stat fs p with
  | Some (File text) => mret text
  | _ => raise OSError
  end.

(** [p.iterdir()], consumed at once *)
Definition iterdir (p : list string) : M (list (list string)) :=
  fs ← get_files;
  match stat fs p with
  | Some Dir => mret (listdir fs p)
  | _ => raise OSError
  end.

(** [shutil.rmtree(p)]: [p] has to be a directory; it goes with everything
    below it.  The program calls it on paths of two components or more. *)
Definition rmtree (p : list string) : M unit :=
  fs ← get_files;
  match stat fs p with
  | Some Dir => put_files (filter (λ kv, ¬ p `prefix_of` kv.1) fs)
  | _ => raise OSError
  end.

(** [p.unlink()] *)
Definition unlink (p : list string) : M unit :=
  fs ← get_files;
  match fs !! p with
  | Some (File _) => put_files (delete p fs)
  | _ => raise OSError
  end.

(** [d[k]] on the result of a lookup *)
Definition getitem {A} (o : option A) : M A :=
  match o with
  | Some a => mret a
  | None => raise KeyError
  end.

(** [if b: body] *)
Definition when (b : bool) (body : M unit) : M unit :=
  if b then body else mret tt.

(** [for x in xs: body(x)] *)
Fixpoint for_each {A} (xs : list A) (body : A → M unit) : M unit :=
  match xs with
  | [] => mret tt
  | x :: xs' => body x ;; for_each xs' body
  end.

(** ** Tenant Store: the three operations *)

Definition create_tenant (name tier : string) : M unit :=
  print ("🚀 Provisioning tenant: " +:+ name +:+ " (tier: " +:+ tier +:+ ")") ;;
  let tenant_dir := Path ("gitops/tenants/" +:+ name) in
  mkdir tenant_dir ;;
  write_text (join tenant_dir "namespace.yaml") (create_namespace_yaml name) ;;
  deployment ← getitem (create_deployment_yaml name tier);
  write_text (join tenant_dir "deployment.yaml") deployment ;;
  write_text (join tenant_dir "service.yaml") (create_service_yaml name) ;;
  write_text (join tenant_dir "configmap.yaml") (create_configmap_yaml name) ;;
  print ("  ✅ Created Kubernetes manifests in gitops/tenants/" +:+ name +:+ "/") ;;
  let argocd_dir := Path "gitops/argocd" in
  mkdir argocd_dir ;;
  write_text (join argocd_dir ("application-" +:+ name +:+ ".yaml"))
             (create_argocd_application_yaml name) ;;
  print ("  ✅ Created ArgoCD application: gitops/argocd/application-" +:+ name +:+ ".yaml") ;;
  print "
📝 Tenant Created Successfully!" ;;
  print ("   Name: " +:+ name) ;;
  print ("   Tier: " +:+ tier) ;;
  config ← getitem (TIERS !! tier);
  print ("   Replicas: " +:+ pretty (replicas config)) ;;
  print ("   Resources: " +:+ memory_limit config +:+ " RAM, " +:+ cpu_limit config +:+ " CPU") ;;
  print "
🔄 Next steps:" ;;
  print ("   1. Review files: ls -la gitops/tenants/" +:+ name +:+ "/") ;;
  print "   2. Commit: git add gitops/" ;;
  print "   3. Push: git push" ;;
  print "   4. ArgoCD will auto-deploy!".

Definition delete_tenant (name : string) : M unit :=
  print ("🗑️  Deleting tenant: " +:+ name) ;;
  let tenant_dir := Path ("gitops/tenants/" +:+ name) in
  let argocd_file := Path ("gitops/argocd/application-" +:+ name +:+ ".yaml") in
  found ← path_exists tenant_dir;
  if negb found then
    print ("  ❌ Tenant '" +:+ name +:+ "' not found")
  else
    print "  This will delete:" ;;
    print ("   - gitops/tenants/" +:+ name +:+ "/") ;;
    print ("   - gitops/argocd/application-" +:+ name +:+ ".yaml") ;;
    confirm ← input "
  Are you sure? (yes/no): ";
    if negb (bool_decide (lower confirm = "yes")) then
      print "  ❌ Cancelled"
    else
      (still_there ← path_exists tenant_dir;
       when still_there (
         rmtree tenant_dir ;;
         print "  ✅ Deleted tenant directory")) ;;
      (application_there ← path_exists argocd_file;
       when application_there (
         unlink argocd_file ;;
         print "  ✅ Deleted ArgoCD application")) ;;
      print "
📝 Next steps:" ;;
      print "   1. Commit: git add -A" ;;
      print ("   2. Commit: git commit -m 'Remove tenant " +:+ name +:+ "'") ;;
      print "   3. Push: git push".

(** The tier [list_tenants] reads off the text of a deployment manifest. *)
Definition tier_of_text (content : string) : string :=
  if contains "replicas: 1" content then "small"
  else if contains "replicas: 3" content then "large"
  else "standard".

(** The body of the loop of [list_tenants]. *)
Definition list_entry (tenant_dir : list string) : M unit :=
  d ← is_dir tenant_dir;
  when (d && negb (startswith "." (FS.name tenant_dir))) (
    print ("  • " +:+ FS.name tenant_dir) ;;
    let deployment_file := join tenant_dir "deployment.yaml" in
    present ← path_exists deployment_file;
    when present (
      content ← read_text deployment_file;
      let tier := tier_of_text content in
      print ("    Tier: " +:+ tier))).

Definition list_tenants : M unit :=
  print "📋 Provisioned Tenants:
" ;;
  let tenants_dir := Path "gitops/tenants" in
  found ← path_exists tenants_dir;
  if negb found then
    print "  No tenants found"
  else
    entries ← iterdir tenants_dir;
    for_each (sorted entries) list_entry.

(** ** Vocabulary of the statements *)

(** A tenant name that is one file name: not empty, not [.] or [..], without
    a separator and without a NUL byte. *)
Definition valid_name (s : string) : bool :=
  bool_decide (s ≠ "" ∧ s ≠ "." ∧ s ≠ "..")
  && negb (has_char "/" s) && negb (has_char "000" s).

(** The paths [create_tenant] and [delete_tenant] build from a name. *)
Definition tenant_dir (name : string) : list string :=
  Path ("gitops/tenants/" +:+ name).

Definition argocd_file (name : string) : list string :=
  Path ("gitops/argocd/application-" +:+ name +:+ ".yaml").

Definition manifest (name file : string) : list string :=
  join (tenant_dir name) file.

Definition is_file (fs : gmap (list string) entry) (p : list string) : bool :=
  match fs !! p with
  | Some (File _) => true
  | _ => false
  end.

Definition is_directory (fs : gmap (list string) entry) (p : list string) : bool :=
  bool_decide (fs !! p = Some Dir).

(** Nothing in the tree stands in the way of [create_tenant name]: no
    regular file where a directory is needed, no directory where a manifest
    is written. *)
Definition can_create (fs : gmap (list string) entry) (name : string) : bool :=
  forallb (λ d, negb (is_file fs d))
    [["gitops"]; ["gitops"; "tenants"]; tenant_dir name; ["gitops"; "argocd"]]
  && forallb (λ f, negb (is_directory fs f))
    [manifest name "namespace.yaml"; manifest name "deployment.yaml";
     manifest name "service.yaml"; manifest name "configmap.yaml";
     argocd_file name].

(** No directory sits where [list_tenants] reads a deployment manifest. *)
Definition manifests_readable (fs : gmap (list string) entry) : Prop :=
  ∀ n, fs !! ["gitops"; "tenants"; n; "deployment.yaml"] ≠ Some Dir.

(** The three profiles of the table. *)
Definition small_profile : profile := Profile 1 "128Mi" "256Mi" "100m" "200m".
Definition standard_profile : profile := Profile 2 "256Mi" "512Mi" "200m" "400m".
Definition large_profile : profile := Profile 3 "512Mi" "1Gi" "500m" "1000m".

(** The lines of [list_tenants]. *)
Definition header : string := "📋 Provisioned Tenants:

".

Definition no_tenants : string := "  No tenants found
".

Definition bullet (n : string) : string := ("  • " +:+ n) +:+ "
".

Definition tier_line (t : string) : string := ("    Tier: " +:+ t) +:+ "
".

(** The lines of [delete_tenant] that tell how it ended early. *)
Definition deleting_line (n : string) : string := ("🗑️  Deleting tenant: " +:+ n) +:+ "
".

Definition not_found_line (n : string) : string :=
  ("  ❌ Tenant '" +:+ n +:+ "' not found") +:+ "
".

Definition cancelled_line : string := "  ❌ Cancelled
".

(** [out] names the tenant [n] and gives [t] as its tier. *)
Definition reports (out : list string) (n t : string) : Prop :=
  ∃ pre post, out = pre ++ bullet n :: tier_line t :: post.

(** [out] names the tenant [n] and gives no tier for it. *)
Definition reports_untiered (out : list string) (n : string) : Prop :=
  ∃ pre post, out = pre ++ bullet n :: post ∧
    (post = [] ∨ ∃ m post', post = bullet m :: post').

(** What [m] writes to standard output when run in [w]. *)
Definition output_of {A} (m : M A) (w : world) : list string :=
  drop (length (stdout w)) (stdout (m w).2).

(** The lines [list_tenants] prints for one entry of the tenants directory. *)
Definition entry_lines (fs : gmap (list string) entry) (tenant_dir : list string)
  : list string :=
  if bool_decide (stat fs tenant_dir = Some Dir)
     && negb (startswith "." (FS.name tenant_dir))
  then bullet (FS.name tenant_dir) ::
       match fs !! join tenant_dir "deployment.yaml" with
       | Some (File content) => [tier_line (tier_of_text content)]
       | _ => []
       end
  else [].

(** The directories [mkdirs] walks through. *)
Fixpoint dirs_of (done todo : list string) : list (list string) :=
  match todo with
  | [] => []
  | c :: todo' => (done ++ [c]) :: dirs_of (done ++ [c]) todo'
  end.

Definition dir_map (ds : list (list string)) : gmap (list string) entry :=
  list_to_map ((λ d, (d, Dir)) <$> ds).

(** The tree [create_tenant] leaves: the five manifests over the four
    directories over what was there. *)
Definition manifests (name : string) (config : profile) : gmap (list string) entry :=
  list_to_map
    [(manifest name "namespace.yaml", File (create_namespace_yaml name));
     (manifest name "deployment.yaml", File (deployment_text name config));
     (manifest name "service.yaml", File (create_service_yaml name));
     (manifest name "configmap.yaml", File (create_configmap_yaml name));
     (argocd_file name, File (create_argocd_application_yaml name))].

Definition tenant_dirs (name : string) : list (list string) :=
  [["gitops"]; ["gitops"; "tenants"]; tenant_dir name; ["gitops"; "argocd"]].

Definition created (name : string) (config : profile)
    (fs : gmap (list string) entry) : gmap (list string) entry :=
  manifests name config ∪ (dir_map (tenant_dirs name) ∪ fs).

(** The tree a confirmed [delete_tenant] leaves. *)
Definition deleted (name : string) (fs : gmap (list string) entry)
  : gmap (list string) entry :=
  delete (argocd_file name) (filter (λ kv, ¬ tenant_dir name `prefix_of` kv.1) fs).

(** *** Searching a text with holes *)

Definition head_is (c : ascii) (s : string) : bool :=
  match s with
  | String c' _ => Ascii.eqb c c'
  | EmptyString => false
  end.

(** [p] and [s] differ at an offset that both have. *)
Fixpoint mismatch (p s : string) : bool :=
  match p, s with
  | String x p', String y s' => if Ascii.eqb x y then mismatch p' s' else true
  | _, _ => false
  end.

(** [p] cannot start inside [s], whatever follows [s]. *)
Fixpoint cannot_start (p s : string) : bool :=
  match s with
  | EmptyString => true
  | String _ s' => mismatch p s && cannot_start p s'
  end.

(** *** Resource quantities

    The program never reads the quantity strings of a profile.  To state
    that a request does not exceed its limit they are read as Kubernetes
    does: decimal digits followed by no suffix, [m] (thousandths), [Ki],
    [Mi] or [Gi] (powers of 1024).  The value is in thousandths of the
    unit. *)

Definition digit (c : ascii) : option N :=
  let n := N_of_ascii c in
  if (48 <=? n)%N && (n <=? 57)%N then Some (n - 48)%N else None.

Fixpoint read_number (acc : option N) (s : string) : option N * string :=
  match s with
  | EmptyString => (acc, EmptyString)
  | String c s' =>
      match digit c with
      | Some d => read_number (Some (10 * default 0 acc + d)%N) s'
      | None => (acc, s)
      end
  end.

Definition multiplier (suffix : string) : option N :=
  if decide (suffix = "") then Some 1000%N
  else if decide (suffix = "m") then Some 1%N
  else if decide (suffix = "Ki") then Some (1024 * 1000)%N
  else if decide (suffix = "Mi") then Some (1024 * 1024 * 1000)%N
  else if decide (suffix = "Gi") then Some (1024 * 1024 * 1024 * 1000)%N
  else None.

Definition quantity (s : string) : option N :=
  match read_number None s with
  | (Some n, suffix) => (λ k, n * k)%N <$> multiplier suffix
  | (None, _) => None
  end.

Definition within (request limit : string) : Prop :=
  ∃ r l, quantity request = Some r ∧ quantity limit = Some l ∧ (r ≤ l)%N.

(** How often a line occurs in what was printed. *)
Definition occurrences (line : string) (out : list string) : nat :=
  length (filter (λ s, s = line) out).

(** *** Trees and processes the statements are tried on *)

(** An empty working directory, nothing to read, nothing printed yet. *)
Definition empty_dir : world := World ∅ [] [].

Definition gitops_dirs : gmap (list string) entry :=
  dir_map [["gitops"]; ["gitops"; "tenants"]; ["gitops"; "argocd"]].

(** An ArgoCD application file without a tenant directory for it. *)
Definition stray_application : world :=
  World (<[["gitops"; "argocd"; "application-ghost.yaml"] := File "kind: Application"]>
           gitops_dirs) ["yes"] [].

(** The tree [create_tenant "acme" "small"] leaves in an empty directory. *)
Definition acme_files : gmap (list string) entry :=
  created "acme" small_profile ∅.

(** A tenant directory without a deployment manifest. *)
Definition bare_tenant : world :=
  World (<[["gitops"; "tenants"; "acme"] := Dir]> gitops_dirs) [] [].

(** *** What the operations touch and keep, and more trees *)

(** [m] changes no entry outside [S], however it ends. *)
Definition touches_only {A} (S : list string → Prop) (m : M A) : Prop :=
  ∀ w q, ¬ S q → files (m w).2 !! q = files w !! q.

(** The paths [create_tenant] may write. *)
Definition create_footprint (name : string) : list (list string) :=
  dirs_of [] (tenant_dir name)
  ++ [manifest name "namespace.yaml"; manifest name "deployment.yaml";
      manifest name "service.yaml"; manifest name "configmap.yaml"]
  ++ dirs_of [] ["gitops"; "argocd"]
  ++ [join ["gitops"; "argocd"] ("application-" +:+ name +:+ ".yaml")].

(** Two tenants side by side in one tree. *)
Definition acme_and_globex : world :=
  World (created "globex" large_profile acme_files) ["yes"] [].

(** Nothing stands in the way of the tenant directory and its four
    manifests. *)
Definition can_write_manifests (fs : gmap (list string) entry) (name : string) : bool :=
  forallb (λ d, negb (is_file fs d))
    [["gitops"]; ["gitops"; "tenants"]; tenant_dir name]
  && forallb (λ f, negb (is_directory fs f))
    [manifest name "namespace.yaml"; manifest name "deployment.yaml";
     manifest name "service.yaml"; manifest name "configmap.yaml"].

(** A regular file where the ArgoCD directory should be. *)
Definition argocd_blocked : world :=
  World (<[["gitops"; "argocd"] := File "not a directory"]>
           (dir_map [["gitops"]])) [] [].

(** The tenant [acme] with a directory where its ArgoCD application file
    should be. *)
Definition application_is_directory : world :=
  World (<[["gitops"; "argocd"; "application-acme.yaml"] := Dir]> acme_files)
    ["yes"] [].

(** A regular file where the directory of the tenant [acme] should be. *)
Definition tenant_is_file : world :=
  World (<[["gitops"; "tenants"; "acme"] := File "not a directory"]> gitops_dirs)
    ["yes"] [].

(** The confirmations that lower-case to [yes]. *)
Definition yes_spellings : list string :=
  ["yes"; "yeS"; "yEs"; "yES"; "Yes"; "YeS"; "YEs"; "YES"].

(** The entry [n] of the tenants directory is a directory whose name does
    not start with a dot. *)
Definition visible_tenant (fs : gmap (list string) entry) (n : string) : Prop :=
  fs !! ["gitops"; "tenants"; n] = Some Dir ∧ startswith "." n = false.

(** A tenants directory with a hidden directory and a regular file beside
    the tenant [acme]. *)
Definition mixed_entries : world :=
  World (<[["gitops"; "tenants"; ".git"] := Dir]>
         (<[["gitops"; "tenants"; "README.md"] := File "notes"]> acme_files))
    [] [].

(** A tenants directory with nothing to report in it. *)
Definition nothing_visible : world :=
  World (<[["gitops"; "tenants"; ".git"] := Dir]>
         (<[["gitops"; "tenants"; "README.md"] := File "notes"]> gitops_dirs))
    [] [].

(** A regular file where the tenants directory should be. *)
Definition tenants_is_file : world :=
  World (<[["gitops"; "tenants"] := File "not a directory"]>
         (dir_map [["gitops"]])) [] [].

(** The tenant [acme] with a directory where its deployment manifest
    should be. *)
Definition manifest_is_directory : world :=
  World (<[["gitops"; "tenants"; "acme"; "deployment.yaml"] := Dir]> acme_files)
    [] [].

(** Every entry of the tree sits in a directory. *)
Definition well_formed (fs : gmap (list string) entry) : Prop :=
  ∀ p, is_Some (fs !! p) → stat fs (parent p) = Some Dir.

(** [m] keeps the property [I] of the tree, however it ends. *)
Definition keeps {A : Type} (I : gmap (list string) entry → Prop) (m : M A) : Prop :=
  ∀ w, I (files w) → I (files (m w).2).

(** Three tenants, created out of order. *)
Definition three_tenants : world :=
  World (created "globex" large_profile
           (created "acme" small_profile
              (created "initech" standard_profile ∅))) [] [].

(** The directories [create_tenant] makes for all tenants together. *)
Definition shared_dirs : list (list string) :=
  [["gitops"]; ["gitops"; "tenants"]; ["gitops"; "argocd"]].

(** * Proofs *)

(** ** Occurrences of a text in a text *)

Section search.
Implicit Types p s a b : string.

Lemma append_cons x a s : String x a +:+ s = String x (a +:+ s).
Proof. done. Qed.

Lemma app_assoc_string a b s : a +:+ (b +:+ s) = (a +:+ b) +:+ s.
Proof. induction a as [|x a IH]; [done|]. by rewrite !append_cons, IH. Qed.

Lemma startswith_app p s : startswith p (p +:+ s) = true.
Proof.
  induction p as [|x p IH]; [done|].
  rewrite append_cons. simpl. by rewrite Ascii.eqb_refl.
Qed.

Lemma startswith_app_l p a b : startswith p a = true → startswith p (a +:+ b) = true.
Proof.
  revert a. induction p as [|x p IH]; intros [|y a]; try done.
  rewrite append_cons. simpl. intros [-> ?]%andb_true_iff. by rewrite IH.
Qed.

Lemma contains_cons p x s :
  contains p (String x s) = startswith p (String x s) || contains p s.
Proof. done. Qed.

Lemma contains_startswith p s : startswith p s = true → contains p s = true.
Proof. intros H. destruct s; simpl; by rewrite H. Qed.

Lemma contains_app_r p a b : contains p b = true → contains p (a +:+ b) = true.
Proof.
  intros Hb. induction a as [|x a IH]; [done|].
  change (String x a +:+ b) with (String x (a +:+ b)).
  rewrite contains_cons, IH. apply orb_true_r.
Qed.

Lemma contains_app_l p a b : contains p a = true → contains p (a +:+ b) = true.
Proof.
  induction a as [|x a IH].
  - simpl. rewrite orb_false_r. destruct p; [|done]. intros _.
    by apply contains_startswith.
  - change (String x a +:+ b) with (String x (a +:+ b)).
    rewrite !contains_cons. intros [H|H]%orb_true_iff.
    + apply (startswith_app_l _ _ b) in H. rewrite append_cons in H.
      by rewrite H.
    + rewrite IH by done. apply orb_true_r.
Qed.

(** The text itself occurs wherever it is pasted. *)
Lemma contains_pasted p a b : contains p (a +:+ p +:+ b) = true.
Proof. apply contains_app_r, contains_startswith, startswith_app. Qed.

(** A byte that is not in [p] cuts every text into two parts that are
    searched on their own. *)
Lemma startswith_cut c p a b :
  has_char c p = false → startswith p (a +:+ String c b) = startswith p a.
Proof.
  revert a. induction p as [|x p IH]; intros a Hc; [done|].
  simpl in Hc. apply orb_false_elim in Hc as [Hx Hp].
  destruct a as [|y a].
  - simpl. by rewrite Ascii.eqb_sym, Hx.
  - rewrite append_cons. simpl. by rewrite IH.
Qed.

Lemma contains_cut c p a b :
  has_char c p = false →
  contains p (a +:+ String c b) = contains p a || contains p (String c b).
Proof.
  intros Hc. induction a as [|y a IH].
  - by destruct p.
  - change (String y a +:+ String c b) with (String y (a +:+ String c b)).
    rewrite (contains_cons p y), IH, (contains_cons p y a).
    change (String y (a +:+ String c b)) with (String y a +:+ String c b).
    rewrite startswith_cut by done. by rewrite !orb_assoc.
Qed.


Lemma contains_before c p a s :
  head_is c s = true → has_char c p = false →
  contains p (a +:+ s) = contains p a || contains p s.
Proof.
  destruct s as [|c' s]; [done|]. simpl. intros ->%Ascii.eqb_eq.
  apply contains_cut.
Qed.



Lemma mismatch_startswith p s b :
  mismatch p s = true → startswith p (s +:+ b) = false.
Proof.
  revert s. induction p as [|x p IH]; intros [|y s]; try done.
  rewrite append_cons. simpl.
  destruct (Ascii.eqb x y); [|done]. intros H. by rewrite IH.
Qed.

Lemma contains_skip p s b :
  cannot_start p s = true → contains p (s +:+ b) = contains p b.
Proof.
  induction s as [|y s IH]; [done|].
  intros [Hm Hs]%andb_true_iff.
  change (String y s +:+ b) with (String y (s +:+ b)).
  rewrite contains_cons.
  change (String y (s +:+ b)) with (String y s +:+ b).
  by rewrite mismatch_startswith, IH.
Qed.

Lemma has_char_app c a b : has_char c (a +:+ b) = has_char c a || has_char c b.
Proof.
  induction a as [|x a IH]; [done|].
  rewrite append_cons. simpl. by rewrite IH, orb_assoc.
Qed.

End search.

(** Searching a marker in a text with a hole: the literal parts are
    skipped or evaluated, the hole is cut off at the line end after it. *)
Ltac closed_in n t :=
  lazymatch t with
  | context [n] => fail
  | _ => idtac
  end.

Ltac scan_step n :=
  match goal with
  | |- context [contains ?p (String.append n ?r)] =>
      rewrite (contains_before nl p n r) by reflexivity
  | |- context [contains ?p (String.append ?a (String.append ?b ?r))] =>
      closed_in n a; closed_in n b;
      rewrite (app_assoc_string a b r)
  | |- context [contains ?p (String.append ?a ?r)] =>
      closed_in n a;
      rewrite (contains_skip p a r) by (vm_compute; reflexivity)
  | |- context [contains ?p ?t] =>
      closed_in n t;
      let v := eval vm_compute in (contains p t) in
      change (contains p t) with v
  end.

Ltac scan n := repeat scan_step n.

(** Finding a marker in the literal parts of a text with a hole. *)
Ltac find_step n :=
  match goal with
  | |- contains ?p (String.append ?a (String.append ?b ?r)) = true =>
      closed_in n a; closed_in n b;
      rewrite (app_assoc_string a b r)
  | |- contains ?p (String.append ?a ?r) = true =>
      closed_in n a;
      apply contains_app_l; vm_compute; reflexivity
  | |- contains ?p (String.append ?a ?r) = true =>
      apply contains_app_r
  end.

Ltac find n := repeat find_step n.

(** ** The tier read off a rendered deployment manifest *)

Section tiers.
Implicit Types n tier : string.

Lemma TIERS_lookup tier config :
  TIERS !! tier = Some config ↔
  tier = "small" ∧ config = small_profile
  ∨ tier = "standard" ∧ config = standard_profile
  ∨ tier = "large" ∧ config = large_profile.
Proof.
  unfold TIERS. rewrite !lookup_insert_Some, lookup_empty.
  unfold small_profile, standard_profile, large_profile.
  split.
  { intros [[<- <-]|[_ [[<- <-]|[_ [[<- <-]|[_ ?]]]]]]; [auto..|done]. }
  intros [[-> ->]|[[-> ->]|[-> ->]]]; [by left| |].
  - right. split; [done|]. by left.
  - right. split; [done|]. right. split; [done|]. by left.
Qed.

Lemma small_text_small_marker n :
  contains "replicas: 1" (deployment_text n small_profile) = true.
Proof.
  unfold deployment_text, small_profile;
    cbn [replicas memory_request memory_limit cpu_request cpu_limit].
  find n.
Qed.

Lemma standard_text_small_marker n :
  contains "replicas: 1" (deployment_text n standard_profile)
  = contains "replicas: 1" n.
Proof.
  unfold deployment_text, standard_profile;
    cbn [replicas memory_request memory_limit cpu_request cpu_limit].
  scan n. by rewrite !orb_false_r, !orb_diag.
Qed.

Lemma standard_text_large_marker n :
  contains "replicas: 3" (deployment_text n standard_profile)
  = contains "replicas: 3" n.
Proof.
  unfold deployment_text, standard_profile;
    cbn [replicas memory_request memory_limit cpu_request cpu_limit].
  scan n. by rewrite !orb_false_r, !orb_diag.
Qed.

Lemma large_text_small_marker n :
  contains "replicas: 1" (deployment_text n large_profile)
  = contains "replicas: 1" n.
Proof.
  unfold deployment_text, large_profile;
    cbn [replicas memory_request memory_limit cpu_request cpu_limit].
  scan n. by rewrite !orb_false_r, !orb_diag.
Qed.

Lemma large_text_large_marker n :
  contains "replicas: 3" (deployment_text n large_profile) = true.
Proof.
  unfold deployment_text, large_profile;
    cbn [replicas memory_request memory_limit cpu_request cpu_limit].
  find n.
Qed.

Lemma tier_of_small_text n :
  tier_of_text (deployment_text n small_profile) = "small".
Proof. unfold tier_of_text. by rewrite small_text_small_marker. Qed.

Lemma tier_of_large_text n :
  tier_of_text (deployment_text n large_profile)
  = if contains "replicas: 1" n then "small" else "large".
Proof.
  unfold tier_of_text.
  by rewrite large_text_small_marker, large_text_large_marker.
Qed.

Lemma tier_of_standard_text n :
  tier_of_text (deployment_text n standard_profile)
  = if contains "replicas: 1" n then "small"
    else if contains "replicas: 3" n then "large" else "standard".
Proof.
  unfold tier_of_text.
  by rewrite standard_text_small_marker, standard_text_large_marker.
Qed.

End tiers.

(** ** Paths *)

Section paths.
Implicit Types s name : string.

Lemma split_on_absent c s : has_char c s = false → split_on c s = [s].
Proof.
  induction s as [|x s IH]; [done|]. simpl.
  intros [Hx Hs]%orb_false_elim. rewrite Ascii.eqb_sym, Hx, IH; done.
Qed.

Lemma Path_single s :
  s ≠ "" → s ≠ "." → has_char "/" s = false → Path s = [s].
Proof.
  intros ? ? Hs. unfold Path. rewrite split_on_absent by done.
  by rewrite filter_cons_True.
Qed.

Lemma valid_name_spec name :
  valid_name name = true ↔
  (name ≠ "" ∧ name ≠ "." ∧ name ≠ "..") ∧ has_char "/" name = false
  ∧ has_char "000" name = false.
Proof.
  unfold valid_name.
  rewrite !andb_true_iff, !negb_true_iff, bool_decide_eq_true. tauto.
Qed.

Lemma tenant_dir_valid name :
  valid_name name = true → tenant_dir name = ["gitops"; "tenants"; name].
Proof.
  intros ((? & ? & ?) & Hs & _)%valid_name_spec.
  unfold tenant_dir, Path.
  change (split_on "/" ("gitops/tenants/" +:+ name))
    with ("gitops" :: "tenants" :: split_on "/" name).
  rewrite split_on_absent by done.
  rewrite !filter_cons_True; done.
Qed.

Lemma application_name_single name :
  valid_name name = true →
  Path ("application-" +:+ name +:+ ".yaml") = ["application-" +:+ name +:+ ".yaml"].
Proof.
  intros (_ & Hs & _)%valid_name_spec.
  apply Path_single; [done|done|].
  rewrite !has_char_app, Hs. done.
Qed.

Lemma argocd_file_valid name :
  valid_name name = true →
  argocd_file name = ["gitops"; "argocd"; "application-" +:+ name +:+ ".yaml"].
Proof.
  intros Hv. pose proof (application_name_single name Hv) as Ha.
  unfold argocd_file, Path in *.
  change (split_on "/" ("gitops/argocd/application-" +:+ name +:+ ".yaml"))
    with ("gitops" :: "argocd" :: split_on "/" ("application-" +:+ name +:+ ".yaml")).
  rewrite !filter_cons_True by done. by rewrite Ha.
Qed.

Lemma manifest_valid name file :
  valid_name name = true → Path file = [file] →
  manifest name file = ["gitops"; "tenants"; name; file].
Proof.
  intros Hv Hf. unfold manifest, join. by rewrite tenant_dir_valid, Hf.
Qed.

Lemma parent_snoc (p : list string) c : parent (p ++ [c]) = p.
Proof.
  unfold parent. rewrite length_app. simpl.
  replace (length p + 1 - 1) with (length p) by lia.
  by rewrite take_app_length.
Qed.

End paths.

(** ** Running the process *)

Section running.
Context {A B : Type}.
Implicit Types w : world.

Lemma run_bind (m : M A) (f : A → M B) w a w' r :
  m w = (Return a, w') → f a w' = r → (m ≫= f) w = r.
Proof. intros Hm <-. unfold mbind, M_bind. by rewrite Hm. Qed.

Lemma run_bind_raise (m : M A) (f : A → M B) w e w' :
  m w = (Raise e, w') → (m ≫= f) w = (Raise e, w').
Proof. intros Hm. unfold mbind, M_bind. by rewrite Hm. Qed.

End running.

Lemma run_print s w :
  print s w = (Return tt, World (files w) (stdin w) (stdout w ++ [s +:+ "
"])).
Proof. done. Qed.

Lemma run_path_exists p w :
  path_exists p w = (Return (bool_decide (is_Some (stat (files w) p))), w).
Proof. done. Qed.

Lemma run_is_dir p w :
  is_dir p w = (Return (bool_decide (stat (files w) p = Some Dir)), w).
Proof. done. Qed.

Lemma run_getitem {A} (a : A) w : getitem (Some a) w = (Return a, w).
Proof. done. Qed.

Lemma run_write_text p text w :
  p ≠ [] → stat (files w) (parent p) = Some Dir → files w !! p ≠ Some Dir →
  write_text p text w
  = (Return tt, World (<[p := File text]> (files w)) (stdin w) (stdout w)).
Proof.
  intros. unfold write_text. eapply run_bind; [done|].
  by rewrite decide_True.
Qed.

Lemma dir_map_lookup (ds : list (list string)) (q : list string) :
  dir_map ds !! q = if decide (q ∈ ds) then Some Dir else None.
Proof.
  unfold dir_map. induction ds as [|d ds IH].
  - rewrite fmap_nil, list_to_map_nil, lookup_empty.
    destruct (decide (q ∈ [])) as [H|]; [by apply elem_of_nil in H|done].
  - rewrite fmap_cons, list_to_map_cons.
    destruct (decide (q ∈ d :: ds)) as [Hin|Hout].
    + destruct (decide (d = q)) as [->|Hne]; [by rewrite lookup_insert_eq|].
      rewrite lookup_insert_ne, IH by done.
      apply elem_of_cons in Hin as [->|Hin]; [done|].
      by rewrite decide_True.
    + rewrite not_elem_of_cons in Hout. destruct Hout as [Hne Hout].
      rewrite lookup_insert_ne, IH by done. by rewrite decide_False.
Qed.

Lemma lookup_with_dirs (ds : list (list string)) (fs : gmap (list string) entry) (q : list string) :
  (dir_map ds ∪ fs) !! q = if decide (q ∈ ds) then Some Dir else fs !! q.
Proof.
  rewrite lookup_union, dir_map_lookup.
  destruct (decide (q ∈ ds)); [by destruct (fs !! q)|].
  by rewrite (left_id_L None _).
Qed.

Lemma with_dirs_cons_present (d : list string) (ds : list (list string)) (fs : gmap (list string) entry) :
  fs !! d = Some Dir → dir_map (d :: ds) ∪ fs = dir_map ds ∪ fs.
Proof.
  intros Hd. apply map_eq. intros q. rewrite !lookup_with_dirs.
  destruct (decide (q ∈ ds)) as [Hin|Hout].
  - by rewrite decide_True by (apply elem_of_cons; by right).
  - destruct (decide (q = d)) as [->|Hne].
    + by rewrite decide_True by apply list_elem_of_here.
    + by rewrite decide_False by (rewrite not_elem_of_cons; done).
Qed.

Lemma with_dirs_cons_absent (d : list string) (ds : list (list string)) (fs : gmap (list string) entry) :
  dir_map (d :: ds) ∪ fs = dir_map ds ∪ <[d := Dir]> fs.
Proof.
  apply map_eq. intros q. rewrite !lookup_with_dirs.
  destruct (decide (q ∈ ds)) as [Hin|Hout].
  - by rewrite decide_True by (apply elem_of_cons; by right).
  - destruct (decide (q = d)) as [->|Hne].
    + rewrite decide_True by apply list_elem_of_here.
      by rewrite lookup_insert_eq.
    + rewrite decide_False by (rewrite not_elem_of_cons; done).
      by rewrite lookup_insert_ne.
Qed.

Lemma mkdirs_clear (fs : gmap (list string) entry) done todo :
  (∀ d, d ∈ dirs_of done todo → is_file fs d = false) →
  mkdirs fs done todo = Some (dir_map (dirs_of done todo) ∪ fs).
Proof.
  revert fs done. induction todo as [|c todo IH]; intros fs dn Hclear.
  - simpl. unfold dir_map. by rewrite fmap_nil, list_to_map_nil, (left_id_L ∅ _).
  - assert (Hc : is_file fs (dn ++ [c]) = false)
      by (apply Hclear, list_elem_of_here).
    unfold is_file in Hc. cbn [mkdirs dirs_of].
    destruct (fs !! (dn ++ [c])) as [[t|]|] eqn:Hd; [done| |].
    + rewrite IH by (intros d Hin; apply Hclear, elem_of_cons; by right).
      by rewrite with_dirs_cons_present.
    + rewrite IH; [by rewrite with_dirs_cons_absent|].
      intros d Hin. unfold is_file.
      destruct (decide (d = dn ++ [c])) as [->|].
      * by rewrite lookup_insert_eq.
      * rewrite lookup_insert_ne by done.
        apply Hclear, elem_of_cons. by right.
Qed.

Lemma run_mkdir p w :
  (∀ d, d ∈ dirs_of [] p → is_file (files w) d = false) →
  mkdir p w
  = (Return tt, World (dir_map (dirs_of [] p) ∪ files w) (stdin w) (stdout w)).
Proof.
  intros Hclear. unfold mkdir. eapply run_bind; [done|].
  simpl. by rewrite mkdirs_clear.
Qed.

Lemma created_lookup name config fs q :
  created name config fs !! q =
  match manifests name config !! q with
  | Some e => Some e
  | None => if decide (q ∈ tenant_dirs name) then Some Dir else fs !! q
  end.
Proof.
  unfold created. rewrite lookup_union, lookup_with_dirs.
  destruct (manifests name config !! q); [|by rewrite (left_id_L None _)].
  by destruct (decide _), (fs !! q).
Qed.

Ltac not_among :=
  let H := fresh in
  rewrite ?elem_of_cons, ?elem_of_nil; intros H;
  decompose [or] H; congruence.

Ltac among := rewrite ?elem_of_cons; tauto.

Ltac look :=
  repeat first
    [ rewrite lookup_insert_eq
    | rewrite lookup_insert_ne by congruence
    | rewrite lookup_with_dirs
    | rewrite decide_True by among
    | rewrite decide_False by not_among ].

Lemma create_tenant_files name tier config w :
  valid_name name = true → TIERS !! tier = Some config →
  can_create (files w) name = true →
  ∃ out, create_tenant name tier w
    = (Return tt, World (created name config (files w)) (stdin w) (stdout w ++ out)).
Proof.
  intros Hv Ht Hc. destruct w as [fs i o]. simpl in *.
  unfold can_create in Hc. 
  pose proof (tenant_dir_valid name Hv) as HT.
  pose proof (argocd_file_valid name Hv) as HA.
  pose proof (application_name_single name Hv) as HAN.
  unfold manifest, join in Hc. rewrite HT, HA in Hc.
  change (Path "namespace.yaml") with ["namespace.yaml"] in Hc.
  change (Path "deployment.yaml") with ["deployment.yaml"] in Hc.
  change (Path "service.yaml") with ["service.yaml"] in Hc.
  change (Path "configmap.yaml") with ["configmap.yaml"] in Hc.
  cbn [app forallb] in Hc.
  rewrite !andb_true_iff, !negb_true_iff in Hc.
  destruct Hc as ((Hg & Hgt & HgT & Hga & _) & Hns & Hdep & Hsvc & Hcm & Haf & _).
  unfold is_directory in *. rewrite bool_decide_eq_false in Hns, Hdep, Hsvc, Hcm, Haf.
  eexists. unfold create_tenant.
  change (Path ("gitops/tenants/" +:+ name)) with (tenant_dir name). rewrite HT.
  unfold join. rewrite HAN.
  change (Path "namespace.yaml") with ["namespace.yaml"].
  change (Path "deployment.yaml") with ["deployment.yaml"].
  change (Path "service.yaml") with ["service.yaml"].
  change (Path "configmap.yaml") with ["configmap.yaml"].
  change (Path "gitops/argocd") with ["gitops"; "argocd"].
  cbn [app].
  eapply run_bind; [apply run_print|]. 
  eapply run_bind.
  { apply run_mkdir. cbn [files dirs_of app]. intros d Hd.
    repeat (apply elem_of_cons in Hd as [->|Hd]); try done.
    by apply elem_of_nil in Hd. }
  cbn [files stdin stdout dirs_of app].
  eapply run_bind.
  { apply run_write_text; cbn [files parent length Nat.sub take stat]; [done| |].
    - by look.
    - by look. }
  cbn [files stdin stdout].
  unfold create_deployment_yaml. rewrite Ht. cbn [mbind option_bind].
  eapply run_bind; [apply run_getitem|].
  eapply run_bind.
  { apply run_write_text; cbn [files parent length Nat.sub take stat]; [done| |].
    - by look.
    - by look. }
  cbn [files stdin stdout].
  eapply run_bind.
  { apply run_write_text; cbn [files parent length Nat.sub take stat]; [done| |].
    - by look.
    - by look. }
  cbn [files stdin stdout].
  eapply run_bind.
  { apply run_write_text; cbn [files parent length Nat.sub take stat]; [done| |].
    - by look.
    - by look. }
  cbn [files stdin stdout].
  eapply run_bind; [apply run_print|]. cbn [files stdin stdout].
  eapply run_bind.
  { apply run_mkdir. cbn [files dirs_of app]. intros d Hd. unfold is_file.
    repeat (apply elem_of_cons in Hd as [->|Hd]).
    - by look.
    - look. apply Hga.
    - by apply elem_of_nil in Hd. }
  cbn [files stdin stdout dirs_of app].
  eapply run_bind.
  { apply run_write_text; cbn [files parent length Nat.sub take stat]; [done| |].
    - by look.
    - by look. }
  cbn [files stdin stdout].
  do 4 (eapply run_bind; [apply run_print|]; cbn [files stdin stdout]).
  eapply run_bind; [apply run_getitem|].
  do 6 (eapply run_bind; [apply run_print|]; cbn [files stdin stdout]).
  rewrite run_print. cbn [files stdin stdout].
  rewrite <- !(assoc_L (++)). f_equal. f_equal.
  apply map_eq. intros q. rewrite created_lookup.
  unfold manifests, manifest, join, tenant_dirs. rewrite HT, HA.
  change (Path "namespace.yaml") with ["namespace.yaml"].
  change (Path "deployment.yaml") with ["deployment.yaml"].
  change (Path "service.yaml") with ["service.yaml"].
  change (Path "configmap.yaml") with ["configmap.yaml"].
  cbn [app]. rewrite !list_to_map_cons, list_to_map_nil.
  destruct (decide (q = ["gitops"; "argocd"; "application-" +:+ name +:+ ".yaml"])) as [->|];
    [by look|].
  destruct (decide (q = ["gitops"; "tenants"; name; "configmap.yaml"])) as [->|];
    [by look|].
  destruct (decide (q = ["gitops"; "tenants"; name; "service.yaml"])) as [->|];
    [by look|].
  destruct (decide (q = ["gitops"; "tenants"; name; "deployment.yaml"])) as [->|];
    [by look|].
  destruct (decide (q = ["gitops"; "tenants"; name; "namespace.yaml"])) as [->|];
    [by look|].
  destruct (decide (q = ["gitops"])) as [->|]; [by look|].
  destruct (decide (q = ["gitops"; "tenants"])) as [->|]; [by look|].
  destruct (decide (q = ["gitops"; "tenants"; name])) as [->|]; [by look|].
  destruct (decide (q = ["gitops"; "argocd"])) as [->|]; [by look|].
  look. by rewrite lookup_empty.
Qed.

(** ** The tree after [create_tenant] *)

Section created.
Implicit Types (name : string) (config : profile)
  (fs : gmap (list string) entry) (q : list string).

Lemma manifests_valid name config :
  valid_name name = true →
  manifests name config =
  <[["gitops"; "tenants"; name; "namespace.yaml"] := File (create_namespace_yaml name)]>
  (<[["gitops"; "tenants"; name; "deployment.yaml"] := File (deployment_text name config)]>
  (<[["gitops"; "tenants"; name; "service.yaml"] := File (create_service_yaml name)]>
  (<[["gitops"; "tenants"; name; "configmap.yaml"] := File (create_configmap_yaml name)]>
  (<[["gitops"; "argocd"; "application-" +:+ name +:+ ".yaml"]
       := File (create_argocd_application_yaml name)]> ∅)))).
Proof.
  intros Hv. unfold manifests.
  rewrite !(manifest_valid name _ Hv) by done.
  by rewrite (argocd_file_valid name Hv).
Qed.

Lemma tenant_dirs_valid name :
  valid_name name = true →
  tenant_dirs name =
  [["gitops"]; ["gitops"; "tenants"]; ["gitops"; "tenants"; name]; ["gitops"; "argocd"]].
Proof. intros Hv. unfold tenant_dirs. by rewrite tenant_dir_valid. Qed.

Lemma manifests_same_paths name config config' q :
  manifests name config !! q = None → manifests name config' !! q = None.
Proof.
  unfold manifests. rewrite !list_to_map_cons, !list_to_map_nil.
  rewrite !lookup_insert. by repeat destruct (decide _).
Qed.

Lemma manifests_only_files name config q e :
  manifests name config !! q = Some e → ∃ text, e = File text.
Proof.
  unfold manifests. rewrite !list_to_map_cons, !list_to_map_nil.
  rewrite !lookup_insert, lookup_empty.
  repeat destruct (decide _); intros ?; simplify_eq; eauto.
Qed.

(** Creating over what an earlier [create_tenant] of the same name left
    gives what creating alone gives. *)
Lemma created_overwrite name config config' fs :
  created name config' (created name config fs) = created name config' fs.
Proof.
  apply map_eq. intros q. rewrite !created_lookup.
  destruct (manifests name config' !! q) eqn:Hq; [done|].
  destruct (decide (q ∈ tenant_dirs name)); [done|].
  by rewrite (manifests_same_paths name config' config q Hq).
Qed.

Lemma created_manifest name config fs q e :
  manifests name config !! q = Some e → created name config fs !! q = Some e.
Proof. intros Hq. by rewrite created_lookup, Hq. Qed.

Lemma created_dir name config fs q :
  valid_name name = true → q ∈ tenant_dirs name →
  created name config fs !! q = Some Dir.
Proof.
  intros Hv Hq. rewrite created_lookup, decide_True by done.
  rewrite tenant_dirs_valid in Hq by done.
  rewrite manifests_valid by done.
  repeat (apply elem_of_cons in Hq as [->|Hq]); [by look..|].
  by apply elem_of_nil in Hq.
Qed.

Lemma created_other name config fs q :
  manifests name config !! q = None → q ∉ tenant_dirs name →
  created name config fs !! q = fs !! q.
Proof. intros Hq Hd. by rewrite created_lookup, Hq, decide_False. Qed.

Lemma can_create_created name config fs :
  valid_name name = true → can_create (created name config fs) name = true.
Proof.
  intros Hv. unfold can_create. apply andb_true_iff. split.
  - apply forallb_forall. intros d Hd%list_elem_of_In.
    unfold is_file.
    by rewrite (created_dir name config fs d Hv Hd).
  - apply forallb_forall. intros f Hf%list_elem_of_In.
    unfold is_directory. apply negb_true_iff, bool_decide_eq_false.
    rewrite created_lookup.
    rewrite !(manifest_valid name _ Hv), (argocd_file_valid name Hv) in Hf by done.
    rewrite manifests_valid by done.
    repeat (apply elem_of_cons in Hf as [->|Hf]); [by look..|].
    by apply elem_of_nil in Hf.
Qed.

Lemma readable_created name config fs :
  valid_name name = true → manifests_readable fs →
  manifests_readable (created name config fs).
Proof.
  intros Hv Hr n. rewrite created_lookup.
  destruct (manifests name config !! _) as [e|] eqn:Hm.
  - apply manifests_only_files in Hm as [text ->]. done.
  - rewrite decide_False; [apply Hr|].
    rewrite tenant_dirs_valid by done. not_among.
Qed.

End created.

(** ** Listing a directory *)

Section listing.
Implicit Types (fs : gmap (list string) entry) (p q k : list string) (n : string).

Lemma child_of_Some p k n : child_of p k = Some n ↔ k = p ++ [n].
Proof.
  revert k. induction p as [|a p IH]; intros k.
  - destruct k as [|b [|c k]]; simpl; split; intros H; by simplify_eq.
  - destruct k as [|b k]; simpl; [split; intros H; by simplify_eq|].
    destruct (decide (a = b)) as [->|Hne].
    + rewrite IH. split; intros H; by simplify_eq.
    + split; intros H; by simplify_eq.
Qed.

Lemma elem_of_listdir fs p q :
  q ∈ listdir fs p ↔ ∃ n, q = p ++ [n] ∧ is_Some (fs !! q).
Proof.
  unfold listdir. rewrite list_elem_of_fmap. split.
  - intros (n & -> & Hn). exists n. split; [done|].
    apply list_elem_of_omap in Hn as (k & Hk & Hc).
    apply child_of_Some in Hc as ->.
    apply list_elem_of_fmap in Hk as ([k e] & -> & Hke).
    apply elem_of_map_to_list in Hke. by exists e.
  - intros (n & -> & [e He]). exists n. split; [done|].
    apply list_elem_of_omap. exists (p ++ [n]). split; [|by apply child_of_Some].
    apply list_elem_of_fmap. exists (p ++ [n], e). split; [done|].
    by apply elem_of_map_to_list.
Qed.

Lemma elem_of_sorted (l : list (list string)) q : q ∈ sorted l ↔ q ∈ l.
Proof. unfold sorted. by rewrite merge_sort_Permutation. Qed.

Lemma name_snoc p n : FS.name (p ++ [n]) = n.
Proof. unfold FS.name. by rewrite last_snoc. Qed.

End listing.

(** ** Loops that only print *)

Section loops.
Context {A : Type}.
Implicit Types (fs : gmap (list string) entry) (l : list A) (i o : list string).

Lemma for_each_lines (body : A → M unit) (lines : A → list string) fs l i o :
  (∀ x i o, x ∈ l →
     body x (World fs i o) = (Return tt, World fs i (o ++ lines x))) →
  for_each l body (World fs i o)
  = (Return tt, World fs i (o ++ concat (lines <$> l))).
Proof.
  revert o. induction l as [|x l IH]; intros o Hbody.
  - simpl. by rewrite (right_id_L [] _).
  - cbn [for_each]. eapply run_bind.
    + apply Hbody. by left.
    + rewrite IH by (intros; apply Hbody; by right).
      rewrite fmap_cons. simpl. by rewrite (assoc_L (++)).
Qed.

Lemma for_each_some_lines (body : A → M unit) (P : A → string → Prop) fs l i o :
  (∀ x i o, x ∈ l →
     ∃ r out, body x (World fs i o) = (r, World fs i (o ++ out))
              ∧ ∀ line, line ∈ out → P x line) →
  ∃ r out, for_each l body (World fs i o) = (r, World fs i (o ++ out))
           ∧ ∀ line, line ∈ out → ∃ x, x ∈ l ∧ P x line.
Proof.
  revert o. induction l as [|x l IH]; intros o Hbody.
  - exists (Return tt), []. split; [by rewrite (right_id_L [] _)|].
    intros line Hl. by apply elem_of_nil in Hl.
  - destruct (Hbody x i o) as (r & out & Hx & Hout); [by left|].
    destruct r as [[]|e].
    + destruct (IH (o ++ out)) as (r' & out' & Hl & Hout').
      { intros; apply Hbody; by right. }
      exists r', (out ++ out'). split.
      * cbn [for_each]. eapply run_bind; [done|].
        by rewrite Hl, (assoc_L (++)).
      * intros line [Hin|Hin]%elem_of_app.
        -- exists x. split; [by left|auto].
        -- destruct (Hout' line Hin) as (y & Hy & HP).
           exists y. split; [by right|done].
    + exists (Raise e), out. split.
      * cbn [for_each]. by eapply run_bind_raise.
      * intros line Hin. exists x. split; [by left|auto].
Qed.

End loops.

(** ** Running [list_tenants] *)

Section list_tenants.
Implicit Types (fs : gmap (list string) entry) (w : world) (n : string).

Lemma run_read_text p text w :
  stat (files w) p = Some (File text) → read_text p w = (Return text, w).
Proof. intros Hp. unfold read_text. eapply run_bind; [done|]. simpl. by rewrite Hp. Qed.

Lemma run_read_text_dir p w :
  stat (files w) p = Some Dir → read_text p w = (Raise OSError, w).
Proof. intros Hp. unfold read_text. eapply run_bind; [done|]. simpl. by rewrite Hp. Qed.

(** One round of the loop, whatever the entry is. *)
Lemma list_entry_lines fs n i o :
  fs !! ["gitops"; "tenants"; n; "deployment.yaml"] ≠ Some Dir →
  list_entry ["gitops"; "tenants"; n] (World fs i o)
  = (Return tt, World fs i (o ++ entry_lines fs ["gitops"; "tenants"; n])).
Proof.
  intros Hr. unfold list_entry. eapply run_bind; [apply run_is_dir|].
  unfold entry_lines. cbn [files stdin stdout].
  destruct (_ && _); [|simpl; by rewrite (right_id_L [] _)].
  cbn [when]. eapply run_bind; [apply run_print|]. cbn [files stdin stdout].
  eapply run_bind; [apply run_path_exists|]. cbn [files stdin stdout].
  change (join ["gitops"; "tenants"; n] "deployment.yaml")
    with ["gitops"; "tenants"; n; "deployment.yaml"] in *.
  cbn [stat].
  destruct (fs !! ["gitops"; "tenants"; n; "deployment.yaml"]) as [[text|]|] eqn:Hd.
  - rewrite bool_decide_eq_true_2 by eauto. cbn [when].
    eapply run_bind; [by apply run_read_text|].
    rewrite run_print. cbn [files stdin stdout].
    by rewrite <- (assoc_L (++)).
  - done.
  - rewrite bool_decide_eq_false_2 by (by intros [??]). done.
Qed.

Lemma list_entry_some_lines fs n i o :
  ∃ r out,
  list_entry ["gitops"; "tenants"; n] (World fs i o)
  = (r, World fs i (o ++ out))
  ∧ ∀ line, line ∈ out → line = bullet n ∨ ∃ t, line = tier_line t.
Proof.
  destruct (decide (fs !! ["gitops"; "tenants"; n; "deployment.yaml"] = Some Dir))
    as [Hd|Hd].
  - destruct (bool_decide (fs !! ["gitops"; "tenants"; n] = Some Dir)
              && negb (startswith "." n)) eqn:Hc.
    + exists (Raise OSError), [bullet n]. split.
      * unfold list_entry. eapply run_bind; [apply run_is_dir|]. cbn [files stat].
        change (FS.name ["gitops"; "tenants"; n]) with n. rewrite Hc. cbn [when].
        eapply run_bind; [apply run_print|]. cbn [files stdin stdout].
        eapply run_bind; [apply run_path_exists|]. cbn [files stdin stdout].
        change (join ["gitops"; "tenants"; n] "deployment.yaml")
          with ["gitops"; "tenants"; n; "deployment.yaml"].
        cbn [stat]. rewrite Hd, bool_decide_eq_true_2 by eauto. cbn [when].
        eapply run_bind_raise. by apply run_read_text_dir.
      * intros line ->%list_elem_of_singleton. by left.
    + exists (Return tt), []. split.
      * unfold list_entry. eapply run_bind; [apply run_is_dir|]. cbn [files stat].
        change (FS.name ["gitops"; "tenants"; n]) with n. rewrite Hc.
        simpl. by rewrite (right_id_L [] _).
      * intros line Hl. by apply elem_of_nil in Hl.
  - exists (Return tt), (entry_lines fs ["gitops"; "tenants"; n]). split.
    + by apply list_entry_lines.
    + unfold entry_lines. change (FS.name ["gitops"; "tenants"; n]) with n.
      destruct (_ && _); [|intros line Hl; by apply elem_of_nil in Hl].
      intros line [->|Hl]%elem_of_cons; [by left|].
      destruct (fs !! _) as [[text|]|]; try by apply elem_of_nil in Hl.
      apply list_elem_of_singleton in Hl as ->. right. eauto.
Qed.

Lemma run_list_tenants w :
  files w !! ["gitops"; "tenants"] = Some Dir → manifests_readable (files w) →
  list_tenants w
  = (Return tt,
     World (files w) (stdin w)
       (stdout w ++ header ::
          concat (entry_lines (files w)
                    <$> sorted (listdir (files w) ["gitops"; "tenants"])))).
Proof.
  intros Ht Hr. destruct w as [fs i o]. cbn [files stdin stdout] in *.
  unfold list_tenants. eapply run_bind; [apply run_print|].
  change (Path "gitops/tenants") with ["gitops"; "tenants"].
  eapply run_bind; [apply run_path_exists|]. cbn [files stdin stdout stat].
  rewrite Ht, bool_decide_eq_true_2 by eauto. cbn [negb].
  eapply run_bind.
  { unfold iterdir. eapply run_bind; [done|]. cbn [files stat]. by rewrite Ht. }
  rewrite for_each_lines with (lines := entry_lines fs).
  - by rewrite <- (assoc_L (++)).
  - intros x i' o' Hx. apply elem_of_sorted, elem_of_listdir in Hx as (n & -> & _).
    apply list_entry_lines, Hr.
Qed.

Lemma run_list_tenants_any w :
  ∃ r out,
    list_tenants w = (r, World (files w) (stdin w) (stdout w ++ header :: out))
    ∧ ∀ line, line ∈ out →
        line = no_tenants
        ∨ ∃ n, is_Some (files w !! ["gitops"; "tenants"; n])
               ∧ (line = bullet n ∨ ∃ t, line = tier_line t).
Proof.
  destruct w as [fs i o]. cbn [files stdin stdout].
  unfold list_tenants.
  change (Path "gitops/tenants") with ["gitops"; "tenants"].
  destruct (fs !! ["gitops"; "tenants"]) as [[text|]|] eqn:Ht.
  - exists (Raise OSError), []. split.
    + eapply run_bind; [apply run_print|].
      eapply run_bind; [apply run_path_exists|]. cbn [files stdin stdout stat].
      rewrite Ht, bool_decide_eq_true_2 by eauto. cbn [negb].
      eapply run_bind_raise. unfold iterdir. eapply run_bind; [done|].
      cbn [files stat]. by rewrite Ht.
    + intros line Hl. by apply elem_of_nil in Hl.
  - destruct (for_each_some_lines
      list_entry
      (λ x line, ∃ n, x = ["gitops"; "tenants"; n]
                      ∧ (line = bullet n ∨ ∃ t, line = tier_line t))
      fs (sorted (listdir fs ["gitops"; "tenants"])) i (o ++ [header]))
      as (r & out & Hrun & Hout).
    { intros x i' o' Hx.
      apply elem_of_sorted, elem_of_listdir in Hx as (n & -> & _).
      destruct (list_entry_some_lines fs n i' o') as (r & out & Hrun & Hout).
      exists r, out. split; [done|]. intros line Hl. exists n. auto. }
    exists r, out. split.
    + eapply run_bind; [apply run_print|].
      eapply run_bind; [apply run_path_exists|]. cbn [files stdin stdout stat].
      rewrite Ht, bool_decide_eq_true_2 by eauto. cbn [negb].
      eapply run_bind.
      { unfold iterdir. eapply run_bind; [done|]. cbn [files stat]. by rewrite Ht. }
      etrans; [exact Hrun|]. by rewrite <- (assoc_L (++)).
    + intros line Hl. right.
      destruct (Hout line Hl) as (x & Hx & n & -> & Hline).
      apply elem_of_sorted, elem_of_listdir in Hx as (n' & Heq & Hsome).
      exists n. split; [|done]. done.
  - exists (Return tt), [no_tenants]. split.
    + eapply run_bind; [apply run_print|].
      eapply run_bind; [apply run_path_exists|]. cbn [files stdin stdout stat].
      rewrite Ht, bool_decide_eq_false_2 by (by intros [??]). cbn [negb].
      rewrite run_print. cbn [files stdin stdout].
      by rewrite <- (assoc_L (++)).
    + intros line ->%list_elem_of_singleton. by left.
Qed.

End list_tenants.

(** ** Running [delete_tenant] *)

Section delete_tenant.
Implicit Types (fs : gmap (list string) entry) (w : world) (name line : string).

Lemma tenant_dir_cons name :
  ∃ rest, tenant_dir name = "gitops" :: "tenants" :: rest.
Proof.
  eexists. unfold tenant_dir, Path.
  change (split_on "/" ("gitops/tenants/" +:+ name))
    with ("gitops" :: "tenants" :: split_on "/" name).
  by rewrite !filter_cons_True by done.
Qed.

Lemma argocd_file_cons name :
  ∃ rest, argocd_file name = "gitops" :: "argocd" :: rest.
Proof.
  eexists. unfold argocd_file, Path.
  change (split_on "/" ("gitops/argocd/application-" +:+ name +:+ ".yaml"))
    with ("gitops" :: "argocd" :: split_on "/" ("application-" +:+ name +:+ ".yaml")).
  by rewrite !filter_cons_True by done.
Qed.

Lemma tenant_dir_not_above_argocd_file name :
  ¬ tenant_dir name `prefix_of` argocd_file name.
Proof.
  destruct (tenant_dir_cons name) as [t ->].
  destruct (argocd_file_cons name) as [a ->].
  intros [k Hk]. simplify_eq.
Qed.

Lemma stat_tenant_dir fs name : stat fs (tenant_dir name) = fs !! tenant_dir name.
Proof. by destruct (tenant_dir_cons name) as [t ->]. Qed.

Lemma stat_argocd_file fs name : stat fs (argocd_file name) = fs !! argocd_file name.
Proof. by destruct (argocd_file_cons name) as [t ->]. Qed.

Lemma run_input prompt line rest w :
  stdin w = line :: rest →
  input prompt w = (Return line, World (files w) rest (stdout w ++ [prompt])).
Proof.
  intros Hin. unfold input. eapply run_bind; [done|].
  unfold read_line. cbn [files stdin stdout]. by rewrite Hin.
Qed.

Lemma run_delete_absent name w :
  stat (files w) (tenant_dir name) = None →
  delete_tenant name w
  = (Return tt,
     World (files w) (stdin w) (stdout w ++ [deleting_line name; not_found_line name])).
Proof.
  intros Hn. unfold delete_tenant.
  change (Path ("gitops/tenants/" +:+ name)) with (tenant_dir name).
  eapply run_bind; [apply run_print|].
  eapply run_bind; [apply run_path_exists|]. cbn [files stdin stdout].
  rewrite Hn, bool_decide_eq_false_2 by (by intros [??]). cbn [negb].
  rewrite run_print. cbn [files stdin stdout].
  by rewrite <- (assoc_L (++)).
Qed.

Lemma run_delete_cancelled name line rest w :
  is_Some (stat (files w) (tenant_dir name)) →
  stdin w = line :: rest → lower line ≠ "yes" →
  ∃ out, delete_tenant name w
    = (Return tt, World (files w) rest (stdout w ++ out ++ [cancelled_line])).
Proof.
  intros Hs Hin Hno. eexists [_; _; _; _; _]. unfold delete_tenant.
  change (Path ("gitops/tenants/" +:+ name)) with (tenant_dir name).
  eapply run_bind; [apply run_print|].
  eapply run_bind; [apply run_path_exists|]. cbn [files stdin stdout].
  rewrite bool_decide_eq_true_2 by done. cbn [negb].
  do 3 (eapply run_bind; [apply run_print|]; cbn [files stdin stdout]).
  eapply run_bind; [by apply run_input|]. cbn [files stdin stdout].
  rewrite bool_decide_eq_false_2 by done. cbn [negb].
  rewrite run_print. cbn [files stdin stdout].
  by rewrite <- !(assoc_L (++)).
Qed.

Lemma run_delete_confirmed name line rest w :
  files w !! tenant_dir name = Some Dir →
  files w !! argocd_file name ≠ Some Dir →
  stdin w = line :: rest → lower line = "yes" →
  ∃ out, delete_tenant name w
    = (Return tt, World (deleted name (files w)) rest (stdout w ++ out)).
Proof.
  intros Hd Ha Hin Hyes. destruct w as [fs i o]. cbn [files stdin stdout] in *.
  assert (is_Some (stat fs (tenant_dir name))) as Hs
    by (rewrite stat_tenant_dir; eauto).
  unfold delete_tenant, deleted.
  change (Path ("gitops/tenants/" +:+ name)) with (tenant_dir name).
  change (Path ("gitops/argocd/application-" +:+ name +:+ ".yaml"))
    with (argocd_file name).
  set (kept := filter (λ kv : list string * entry, ¬ tenant_dir name `prefix_of` kv.1) fs).
  assert (kept !! argocd_file name = fs !! argocd_file name) as Hk.
  { unfold kept. destruct (fs !! argocd_file name) as [e|] eqn:He.
    - apply map_lookup_filter_Some. split; [done|].
      apply tenant_dir_not_above_argocd_file.
    - apply map_lookup_filter_None. by left. }
  assert (∀ o', rmtree (tenant_dir name) (World fs rest o')
                = (Return tt, World kept rest o')) as Hrm.
  { intros o'. unfold rmtree. eapply run_bind; [done|]. cbn [files stdin stdout].
    by rewrite stat_tenant_dir, Hd. }
  destruct (fs !! argocd_file name) as [[text|]|] eqn:He; [|done|].
  - eexists [_; _; _; _; _; _; _; _; _; _; _].
    eapply run_bind; [apply run_print|].
    eapply run_bind; [apply run_path_exists|]. cbn [files stdin stdout].
    rewrite bool_decide_eq_true_2 by done. cbn [negb].
    do 3 (eapply run_bind; [apply run_print|]; cbn [files stdin stdout]).
    eapply run_bind; [by apply run_input|]. cbn [files stdin stdout].
    rewrite bool_decide_eq_true_2 by done. cbn [negb].
    eapply run_bind.
    { eapply run_bind; [apply run_path_exists|]. cbn [files stdin stdout].
      rewrite bool_decide_eq_true_2 by done. cbn [when].
      eapply run_bind; [apply Hrm|apply run_print]. }
    cbn [files stdin stdout].
    eapply run_bind.
    { eapply run_bind; [apply run_path_exists|]. cbn [files stdin stdout].
      rewrite stat_argocd_file, Hk, bool_decide_eq_true_2 by eauto. cbn [when].
      eapply run_bind; [|apply run_print].
      unfold unlink. eapply run_bind; [done|]. cbn [files stdin stdout].
      by rewrite Hk. }
    cbn [files stdin stdout].
    do 3 (eapply run_bind; [apply run_print|]; cbn [files stdin stdout]).
    rewrite run_print. cbn [files stdin stdout].
    by rewrite <- !(assoc_L (++)).
  - eexists [_; _; _; _; _; _; _; _; _; _].
    eapply run_bind; [apply run_print|].
    eapply run_bind; [apply run_path_exists|]. cbn [files stdin stdout].
    rewrite bool_decide_eq_true_2 by done. cbn [negb].
    do 3 (eapply run_bind; [apply run_print|]; cbn [files stdin stdout]).
    eapply run_bind; [by apply run_input|]. cbn [files stdin stdout].
    rewrite bool_decide_eq_true_2 by done. cbn [negb].
    eapply run_bind.
    { eapply run_bind; [apply run_path_exists|]. cbn [files stdin stdout].
      rewrite bool_decide_eq_true_2 by done. cbn [when].
      eapply run_bind; [apply Hrm|apply run_print]. }
    cbn [files stdin stdout].
    eapply run_bind.
    { eapply run_bind; [apply run_path_exists|]. cbn [files stdin stdout].
      rewrite stat_argocd_file, Hk, bool_decide_eq_false_2 by (by intros [??]).
      done. }
    cbn [files stdin stdout].
    do 3 (eapply run_bind; [apply run_print|]; cbn [files stdin stdout]).
    rewrite run_print. cbn [files stdin stdout].
    rewrite (delete_id kept) by done.
    by rewrite <- !(assoc_L (++)).
Qed.

End delete_tenant.

(** ** What was printed *)

Section output.
Implicit Types (w : world) (n m t : string) (out : list string).

Lemma output_of_run {A} (m : M A) w r fs i out :
  m w = (r, World fs i (stdout w ++ out)) → output_of m w = out.
Proof.
  intros Hm. unfold output_of. rewrite Hm. cbn [snd stdout].
  by rewrite drop_app_length.
Qed.

Lemma append_cancel_r (a b : string) c :
  a +:+ String c "" = b +:+ String c "" → a = b.
Proof.
  revert b. induction a as [|x a IH]; intros [|y b] H; try done.
  - rewrite append_cons in H. simpl in H. injection H as _ H. by destruct b.
  - rewrite append_cons in H. simpl in H. injection H as _ H. by destruct a.
  - rewrite !append_cons in H. injection H as -> H. f_equal. by apply IH.
Qed.

Lemma append_cancel_l (a x y : string) : a +:+ x = a +:+ y → x = y.
Proof.
  induction a as [|c a IH]; [done|].
  rewrite !append_cons. intros H. injection H as H. by apply IH.
Qed.

Lemma bullet_inj n m : bullet n = bullet m → n = m.
Proof.
  unfold bullet. intros H.
  apply append_cancel_r in H. by simplify_eq.
Qed.

Lemma bullet_not_tier_line n t : bullet n ≠ tier_line t.
Proof. unfold bullet, tier_line. intros H. apply append_cancel_r in H. done. Qed.

Lemma bullet_not_header n : bullet n ≠ header.
Proof. done. Qed.

Lemma bullet_not_no_tenants n : bullet n ≠ no_tenants.
Proof. done. Qed.

End output.

(** ** The tree after a confirmed [delete_tenant] *)

Section deleted.
Implicit Types (fs : gmap (list string) entry) (name : string) (p : list string).

Lemma deleted_below name fs p :
  tenant_dir name `prefix_of` p → deleted name fs !! p = None.
Proof.
  intros Hp. unfold deleted.
  destruct (decide (argocd_file name = p)) as [->|];
    [by rewrite lookup_delete_eq|].
  rewrite lookup_delete_ne by done.
  apply map_lookup_filter_None. right. intros e _ Hn. by apply Hn.
Qed.

Lemma deleted_application name fs : deleted name fs !! argocd_file name = None.
Proof. unfold deleted. by rewrite lookup_delete_eq. Qed.

Lemma deleted_other name fs p :
  ¬ tenant_dir name `prefix_of` p → p ≠ argocd_file name →
  deleted name fs !! p = fs !! p.
Proof.
  intros Hp Ha. unfold deleted. rewrite lookup_delete_ne by done.
  destruct (fs !! p) as [e|] eqn:He.
  - by apply map_lookup_filter_Some.
  - apply map_lookup_filter_None. by left.
Qed.

End deleted.

(** ** Each tenant is named once *)

Section named_once.
Implicit Types (fs : gmap (list string) entry) (n t : string)
  (l : list (list string)) (out : list string).

Lemma NoDup_omap_child_of p (ks : list (list string)) :
  NoDup ks → NoDup (omap (child_of p) ks).
Proof.
  induction 1 as [|k ks Hk Hks IH]; [constructor|].
  cbn [omap list_omap]. destruct (child_of p k) as [m|] eqn:Hm; [|done].
  constructor; [|done].
  intros (k' & Hk' & Hm')%list_elem_of_omap.
  apply child_of_Some in Hm, Hm'. by subst.
Qed.

Lemma NoDup_listdir fs p : NoDup (listdir fs p).
Proof.
  unfold listdir. apply NoDup_fmap_2.
  - intros a b Hab. by apply app_inv_head in Hab; simplify_eq.
  - apply NoDup_omap_child_of, NoDup_fst_map_to_list.
Qed.

Lemma NoDup_sorted l : NoDup l → NoDup (sorted l).
Proof. unfold sorted. by rewrite merge_sort_Permutation. Qed.

Lemma occurrences_app line out out' :
  occurrences line (out ++ out') = occurrences line out + occurrences line out'.
Proof. unfold occurrences. by rewrite filter_app, length_app. Qed.

Lemma occurrences_cons line s out :
  occurrences line (s :: out)
  = (if decide (s = line) then 1 else 0) + occurrences line out.
Proof.
  unfold occurrences. rewrite filter_cons. by destruct (decide (s = line)).
Qed.

Lemma occurrences_entry fs n x :
  occurrences (bullet n) (entry_lines fs x)
  = if decide (entry_lines fs x ≠ [] ∧ FS.name x = n) then 1 else 0.
Proof.
  unfold entry_lines. destruct (_ && _).
  - rewrite occurrences_cons.
    assert (occurrences (bullet n)
              match fs !! join x "deployment.yaml" with
              | Some (File content) => [tier_line (tier_of_text content)]
              | _ => []
              end = 0) as ->.
    { destruct (fs !! _) as [[c|]|]; [|done..].
      rewrite occurrences_cons, decide_False; [done|].
      intros H. by apply (bullet_not_tier_line n (tier_of_text c)). }
    destruct (decide (bullet (FS.name x) = bullet n)) as [Hb|Hb].
    + apply bullet_inj in Hb. by rewrite decide_True.
    + rewrite decide_False; [done|]. intros [_ Hn]. by rewrite Hn in Hb.
  - rewrite decide_False; [done|]. by intros [? _].
Qed.

Lemma occurrences_listing fs n l :
  NoDup l → (∀ x, x ∈ l → ∃ m, x = ["gitops"; "tenants"; m]) →
  occurrences (bullet n) (concat (entry_lines fs <$> l)) ≤ 1.
Proof.
  induction 1 as [|x l Hx Hl IH]; intros Hshape; [cbn; lia|].
  rewrite fmap_cons. cbn [concat]. rewrite occurrences_app, occurrences_entry.
  assert (occurrences (bullet n) (concat (entry_lines fs <$> l)) ≤ 1) as IH'.
  { apply IH. intros y Hy. apply Hshape. by right. }
  destruct (decide _) as [[_ Hn]|]; [|lia].
  assert (occurrences (bullet n) (concat (entry_lines fs <$> l)) = 0) as ->; [|lia].
  destruct (Hshape x) as [m ->]; [by left|].
  change (FS.name ["gitops"; "tenants"; m]) with m in Hn. subst m.
  clear IH IH' Hl. induction l as [|y l IHl]; [done|].
  rewrite fmap_cons. cbn [concat]. rewrite occurrences_app, occurrences_entry.
  apply not_elem_of_cons in Hx as [Hxy Hx].
  rewrite IHl; [|done|].
  2:{ intros z Hz. apply Hshape.
      apply elem_of_cons in Hz as [->|Hz]; [by left|by do 2 right]. }
  rewrite decide_False; [done|]. intros [_ Hy].
  destruct (Hshape y) as [m ->]; [by right; left|].
  change (FS.name ["gitops"; "tenants"; m]) with m in Hy. by subst m.
Qed.

Lemma once_splits_once line out pre post pre' post' :
  occurrences line out ≤ 1 →
  out = pre ++ line :: post → out = pre' ++ line :: post' →
  pre = pre' ∧ post = post'.
Proof.
  intros Hocc -> . revert pre' Hocc.
  induction pre as [|a pre IH]; intros [|b pre'] Hocc Heq;
    cbn [app] in *; simplify_eq.
  - done.
  - rewrite occurrences_cons, decide_True, occurrences_app, occurrences_cons,
      decide_True in Hocc by done. lia.
  - rewrite occurrences_cons, decide_True, occurrences_app, occurrences_cons,
      decide_True in Hocc by done. lia.
  - destruct (IH pre') as [-> ->]; [|done|done].
    rewrite occurrences_cons in Hocc. lia.
Qed.

(** The tier printed for a name in the complete listing is the only one. *)
Lemma listing_tier_unique fs n t t' :
  reports (header :: concat (entry_lines fs
             <$> sorted (listdir fs ["gitops"; "tenants"]))) n t →
  reports (header :: concat (entry_lines fs
             <$> sorted (listdir fs ["gitops"; "tenants"]))) n t' →
  t = t'.
Proof.
  intros (pre & post & H) (pre' & post' & H').
  assert (occurrences (bullet n)
            (header :: concat (entry_lines fs
               <$> sorted (listdir fs ["gitops"; "tenants"]))) ≤ 1) as Hocc.
  { rewrite occurrences_cons, decide_False
      by (intros Hh; by apply (bullet_not_header n)).
    apply occurrences_listing; [apply NoDup_sorted, NoDup_listdir|].
    intros x (m & -> & _)%elem_of_sorted%elem_of_listdir. by exists m. }
  destruct (once_splits_once _ _ _ _ _ _ Hocc H H') as [_ Heq].
  injection Heq as Heq _. unfold tier_line in Heq.
  apply append_cancel_r in Heq. by apply append_cancel_l in Heq.
Qed.

End named_once.

(** ** The confirmations [delete_tenant] accepts *)

Lemma lower_char_y c : lower_char c = "y"%char → c = "y"%char ∨ c = "Y"%char.
Proof.
  destruct c as [[] [] [] [] [] [] [] []]; vm_compute; intros H;
    first [discriminate H | by left | by right].
Qed.

Lemma lower_char_e c : lower_char c = "e"%char → c = "e"%char ∨ c = "E"%char.
Proof.
  destruct c as [[] [] [] [] [] [] [] []]; vm_compute; intros H;
    first [discriminate H | by left | by right].
Qed.

Lemma lower_char_s c : lower_char c = "s"%char → c = "s"%char ∨ c = "S"%char.
Proof.
  destruct c as [[] [] [] [] [] [] [] []]; vm_compute; intros H;
    first [discriminate H | by left | by right].
Qed.

(** [yes] in any letter case, and nothing else. *)
Lemma lower_yes line :
  lower line = "yes" ↔
  line ∈ ["yes"; "yeS"; "yEs"; "yES"; "Yes"; "YeS"; "YEs"; "YES"].
Proof.
  split.
  - destruct line as [|a [|b [|c [|d line]]]]; try done.
    cbn [lower]. intros H. injection H as Ha Hb Hc.
    apply lower_char_y in Ha as [->| ->];
      apply lower_char_e in Hb as [->| ->];
      apply lower_char_s in Hc as [->| ->];
      rewrite !elem_of_cons; tauto.
  - rewrite !elem_of_cons, elem_of_nil.
    intros [->|[->|[->|[->|[->|[->|[->|[->|[]]]]]]]]]; reflexivity.
Qed.

(** ** Creating a tenant *)

Section create.
Implicit Types (name tier : string) (config : profile) (w : world)
  (fs : gmap (list string) entry).

(** Two profiles of the table render to different deployment manifests. *)
Lemma deployment_text_distinct name tier tier' config config' :
  TIERS !! tier = Some config → TIERS !! tier' = Some config' →
  tier ≠ tier' → deployment_text name config ≠ deployment_text name config'.
Proof.
  intros Ht Ht' Hne H.
  apply TIERS_lookup in Ht as [[-> ->]|[[-> ->]|[-> ->]]];
  apply TIERS_lookup in Ht' as [[-> ->]|[[-> ->]|[-> ->]]]; try done;
  unfold deployment_text in H;
  cbn [replicas small_profile standard_profile large_profile] in H;
  repeat apply append_cancel_l in H; vm_compute in H; discriminate H.
Qed.

Lemma created_manifests name config fs :
  valid_name name = true →
  created name config fs !! manifest name "namespace.yaml"
    = Some (File (create_namespace_yaml name))
  ∧ created name config fs !! manifest name "deployment.yaml"
    = Some (File (deployment_text name config))
  ∧ created name config fs !! manifest name "service.yaml"
    = Some (File (create_service_yaml name))
  ∧ created name config fs !! manifest name "configmap.yaml"
    = Some (File (create_configmap_yaml name))
  ∧ created name config fs !! argocd_file name
    = Some (File (create_argocd_application_yaml name)).
Proof.
  intros Hv.
  repeat split; apply created_manifest; rewrite manifests_valid by done;
    rewrite ?(manifest_valid name _ Hv), ?(argocd_file_valid name Hv) by done;
    by look.
Qed.

End create.

(** * The claims *)

(** ** The tier table *)

(** C9: the table has the three tiers [small], [standard] and [large] and
    no other; in each profile the memory request does not exceed the
    memory limit and the cpu request does not exceed the cpu limit, the
    quantities read as numbers. *)
Theorem tier_table_three_tiers_within_limits :
  dom TIERS = {["small"; "standard"; "large"]}
  ∧ map_Forall (λ _ config,
      within (memory_request config) (memory_limit config)
      ∧ within (cpu_request config) (cpu_limit config)) TIERS.
Proof.
  split.
  - unfold TIERS. rewrite !dom_insert_L, dom_empty_L. set_solver.
  - intros tier config Ht.
    apply TIERS_lookup in Ht as [[-> ->]|[[-> ->]|[-> ->]]];
      (split; eexists _, _; (split; [vm_compute; reflexivity|]);
       (split; [vm_compute; reflexivity|]); vm_compute; discriminate).
Qed.

(** ** The renderers *)

(** C4: the five renderers are functions of the tenant name (and the tier)
    alone.  The deployment renderer gives a text for every name and every
    tier of the table, the other four for every name; each text holds the
    name as it was given. *)
Theorem renderers_total_and_verbatim (tenant_name tier : string) :
  is_Some (TIERS !! tier) →
  (∃ text, create_deployment_yaml tenant_name tier = Some text
           ∧ contains tenant_name text = true)
  ∧ contains tenant_name (create_namespace_yaml tenant_name) = true
  ∧ contains tenant_name (create_service_yaml tenant_name) = true
  ∧ contains tenant_name (create_configmap_yaml tenant_name) = true
  ∧ contains tenant_name (create_argocd_application_yaml tenant_name) = true.
Proof.
  intros [config Ht]. split.
  - exists (deployment_text tenant_name config). split.
    + unfold create_deployment_yaml. by rewrite Ht.
    + apply contains_pasted.
  - repeat split; apply contains_pasted.
Qed.

Lemma renderers_total_and_verbatim_witness :
  (∃ text, create_deployment_yaml "../a b" "small" = Some text
           ∧ contains "../a b" text = true)
  ∧ contains "../a b" (create_namespace_yaml "../a b") = true
  ∧ contains "../a b" (create_service_yaml "../a b") = true
  ∧ contains "../a b" (create_configmap_yaml "../a b") = true
  ∧ contains "../a b" (create_argocd_application_yaml "../a b") = true.
Proof.
  apply (renderers_total_and_verbatim "../a b" "small").
  eexists. vm_compute. reflexivity.
Defined.

Lemma readable_empty : manifests_readable ∅.
Proof. intros n. by rewrite lookup_empty. Qed.

(** C7: in a tree where nothing stands in the way, [create_tenant] with a
    valid name and a tier of the table returns twice in a row; the second
    call leaves the tree exactly as the first left it, with the five
    manifests holding what the renderers give. *)
Theorem create_tenant_idempotent (name tier : string) (w : world) :
  valid_name name = true → is_Some (TIERS !! tier) →
  can_create (files w) name = true →
  ∃ w1 w2 text,
    create_tenant name tier w = (Return tt, w1)
    ∧ create_tenant name tier w1 = (Return tt, w2)
    ∧ files w2 = files w1
    ∧ create_deployment_yaml name tier = Some text
    ∧ files w1 !! manifest name "namespace.yaml"
      = Some (File (create_namespace_yaml name))
    ∧ files w1 !! manifest name "deployment.yaml" = Some (File text)
    ∧ files w1 !! manifest name "service.yaml"
      = Some (File (create_service_yaml name))
    ∧ files w1 !! manifest name "configmap.yaml"
      = Some (File (create_configmap_yaml name))
    ∧ files w1 !! argocd_file name
      = Some (File (create_argocd_application_yaml name)).
Proof.
  intros Hv [config Ht] Hc.
  destruct (create_tenant_files name tier config w Hv Ht Hc) as [out1 H1].
  set (w1 := World (created name config (files w)) (stdin w) (stdout w ++ out1)) in *.
  destruct (create_tenant_files name tier config w1 Hv Ht) as [out2 H2].
  { apply can_create_created, Hv. }
  exists w1, (World (created name config (files w1)) (stdin w1) (stdout w1 ++ out2)),
    (deployment_text name config).
  split; [done|]. split; [done|].
  split; [apply created_overwrite|].
  split; [unfold create_deployment_yaml; by rewrite Ht|].
  by apply created_manifests.
Qed.

Lemma create_tenant_idempotent_witness :
  ∃ w1 w2 text,
    create_tenant "acme" "standard" empty_dir = (Return tt, w1)
    ∧ create_tenant "acme" "standard" w1 = (Return tt, w2)
    ∧ files w2 = files w1
    ∧ create_deployment_yaml "acme" "standard" = Some text
    ∧ files w1 !! manifest "acme" "namespace.yaml"
      = Some (File (create_namespace_yaml "acme"))
    ∧ files w1 !! manifest "acme" "deployment.yaml" = Some (File text)
    ∧ files w1 !! manifest "acme" "service.yaml"
      = Some (File (create_service_yaml "acme"))
    ∧ files w1 !! manifest "acme" "configmap.yaml"
      = Some (File (create_configmap_yaml "acme"))
    ∧ files w1 !! argocd_file "acme"
      = Some (File (create_argocd_application_yaml "acme")).
Proof.
  apply (create_tenant_idempotent "acme" "standard" empty_dir).
  - reflexivity.
  - eexists. vm_compute. reflexivity.
  - vm_compute. reflexivity.
Defined.

(** C8: creating a tenant with one tier and then again with another tier
    of the table leaves the deployment manifest the renderer gives for the
    second tier, which is not the one of the first; the whole tree is the
    one a single [create_tenant] with the second tier leaves. *)
Theorem create_tenant_overwrites_tier (name tierA tierB : string)
    (configB : profile) (w : world) :
  valid_name name = true →
  is_Some (TIERS !! tierA) → TIERS !! tierB = Some configB → tierA ≠ tierB →
  can_create (files w) name = true →
  ∃ w1 w2 wB,
    create_tenant name tierA w = (Return tt, w1)
    ∧ create_tenant name tierB w1 = (Return tt, w2)
    ∧ files w2 !! manifest name "deployment.yaml"
      = Some (File (deployment_text name configB))
    ∧ files w2 !! manifest name "deployment.yaml"
      ≠ files w1 !! manifest name "deployment.yaml"
    ∧ create_tenant name tierB w = (Return tt, wB)
    ∧ files w2 = files wB.
Proof.
  intros Hv [configA HA] HB Hne Hc.
  destruct (create_tenant_files name tierA configA w Hv HA Hc) as [out1 H1].
  set (w1 := World (created name configA (files w)) (stdin w) (stdout w ++ out1)) in *.
  destruct (create_tenant_files name tierB configB w1 Hv HB) as [out2 H2].
  { apply can_create_created, Hv. }
  destruct (create_tenant_files name tierB configB w Hv HB Hc) as [outB H3].
  eexists _, _, _. split; [exact H1|]. split; [exact H2|]. cbn [files].
  destruct (created_manifests name configB (files w1) Hv) as (_ & HdB & _).
  destruct (created_manifests name configA (files w) Hv) as (_ & HdA & _).
  split; [done|]. split.
  - subst w1. cbn [files] in *. rewrite HdB, HdA. intros Heq.
    apply (deployment_text_distinct name tierA tierB configA configB HA HB Hne).
    congruence.
  - split; [exact H3|]. apply created_overwrite.
Qed.

Lemma create_tenant_overwrites_tier_witness :
  ∃ w1 w2 wB,
    create_tenant "acme" "small" empty_dir = (Return tt, w1)
    ∧ create_tenant "acme" "large" w1 = (Return tt, w2)
    ∧ files w2 !! manifest "acme" "deployment.yaml"
      = Some (File (deployment_text "acme" large_profile))
    ∧ files w2 !! manifest "acme" "deployment.yaml"
      ≠ files w1 !! manifest "acme" "deployment.yaml"
    ∧ create_tenant "acme" "large" empty_dir = (Return tt, wB)
    ∧ files w2 = files wB.
Proof.
  apply (create_tenant_overwrites_tier "acme" "small" "large" large_profile empty_dir).
  - reflexivity.
  - eexists. vm_compute. reflexivity.
  - vm_compute. reflexivity.
  - discriminate.
  - vm_compute. reflexivity.
Defined.

(** ** Listing after creating *)

Section round_trip.
Implicit Types (name tier n : string) (config : profile) (w : world)
  (fs : gmap (list string) entry).

(** The lines of one entry inside the lines of all. *)
Lemma entry_lines_in_listing fs n :
  is_Some (fs !! ["gitops"; "tenants"; n]) →
  ∃ before after,
    concat (entry_lines fs <$> sorted (listdir fs ["gitops"; "tenants"]))
    = concat (entry_lines fs <$> before)
      ++ entry_lines fs ["gitops"; "tenants"; n]
      ++ concat (entry_lines fs <$> after).
Proof.
  intros Hn.
  assert (["gitops"; "tenants"; n] ∈ sorted (listdir fs ["gitops"; "tenants"])) as Hin.
  { apply elem_of_sorted, elem_of_listdir. by exists n. }
  apply list_elem_of_split in Hin as (before & after & ->).
  exists before, after. by rewrite fmap_app, fmap_cons, concat_app.
Qed.

Lemma entry_lines_shape fs (x : list string) :
  entry_lines fs x = [] ∨ ∃ rest, entry_lines fs x = bullet (FS.name x) :: rest.
Proof. unfold entry_lines. destruct (_ && _); eauto. Qed.

Lemma entry_lines_start fs (l : list (list string)) :
  concat (entry_lines fs <$> l) = []
  ∨ ∃ m rest, concat (entry_lines fs <$> l) = bullet m :: rest.
Proof.
  induction l as [|x l IH]; [by left|].
  rewrite fmap_cons. cbn [concat].
  destruct (entry_lines_shape fs x) as [->|[rest ->]]; [exact IH|].
  right. by eexists _, _.
Qed.

Lemma list_after_create name tier config w :
  valid_name name = true → startswith "." name = false →
  TIERS !! tier = Some config →
  can_create (files w) name = true → manifests_readable (files w) →
  ∃ w1 w2,
    create_tenant name tier w = (Return tt, w1)
    ∧ list_tenants w1 = (Return tt, w2)
    ∧ reports (output_of list_tenants w1) name
        (tier_of_text (deployment_text name config))
    ∧ ∀ t, reports (output_of list_tenants w1) name t →
           t = tier_of_text (deployment_text name config).
Proof.
  intros Hv Hvis Ht Hc Hr.
  destruct (create_tenant_files name tier config w Hv Ht Hc) as [out1 H1].
  set (fs1 := created name config (files w)) in *.
  set (w1 := World fs1 (stdin w) (stdout w ++ out1)) in *.
  assert (fs1 !! ["gitops"; "tenants"] = Some Dir) as Htd.
  { apply created_dir; [done|]. rewrite tenant_dirs_valid by done. among. }
  assert (fs1 !! ["gitops"; "tenants"; name] = Some Dir) as Hnd.
  { apply created_dir; [done|]. rewrite tenant_dirs_valid by done. among. }
  assert (manifests_readable fs1) as Hr1 by by apply readable_created.
  pose proof (run_list_tenants w1 Htd Hr1) as H2.
  eexists w1, _. split; [done|]. split; [exact H2|].
  rewrite (output_of_run _ _ _ _ _ _ H2). subst w1. cbn [files].
  match goal with |- ?R ∧ _ => assert R as Hrep end;
    [|split; [done|]; intros t Ht'; by apply (listing_tier_unique fs1 name)].
  destruct (entry_lines_in_listing fs1 name) as (before & after & ->); [eauto|].
  exists (header :: concat (entry_lines fs1 <$> before)),
    (concat (entry_lines fs1 <$> after)).
  cbn [app]. do 2 f_equal.
  unfold entry_lines. cbn [stat]. rewrite Hnd, bool_decide_eq_true_2 by done.
  change (FS.name ["gitops"; "tenants"; name]) with name.
  rewrite Hvis. cbn [negb andb].
  change (join ["gitops"; "tenants"; name] "deployment.yaml")
    with ["gitops"; "tenants"; name; "deployment.yaml"].
  destruct (created_manifests name config (files w) Hv) as (_ & Hd & _).
  rewrite (manifest_valid name _ Hv) in Hd by done.
  fold fs1 in Hd. by rewrite Hd.
Qed.

End round_trip.

(** C1, as the claim states it, fails for the tier [large]: the tenant
    named [replicas: 1] is created with three replicas and listed as
    [small]. *)
Lemma large_tenant_listed_as_small :
  let w1 := (create_tenant "replicas: 1" "large" empty_dir).2 in
  valid_name "replicas: 1" = true
  ∧ (create_tenant "replicas: 1" "large" empty_dir).1 = Return tt
  ∧ output_of list_tenants w1
    = [header; bullet "replicas: 1"; tier_line "small"]
  ∧ ¬ reports (output_of list_tenants w1) "replicas: 1" "large".
Proof.
  cbv zeta. split; [reflexivity|]. split; [vm_compute; reflexivity|].
  assert (output_of list_tenants (create_tenant "replicas: 1" "large" empty_dir).2
          = [header; bullet "replicas: 1"; tier_line "small"]) as ->
    by (vm_compute; reflexivity).
  split; [done|].
  intros (pre & post & H).
  destruct pre as [|? [|? [|? pre]]]; simplify_eq.
  by destruct pre.
Qed.

(** C1 (as amended): for a valid tenant name that does not start with a
    dot and a tier of the table, in a tree where nothing stands in the way,
    [create_tenant] and then [list_tenants] both return and the listing
    names the tenant with one tier.  That tier is [small] for the tier
    [small]; for [large] it is [small] when [replicas: 1] occurs in the
    name and [large] otherwise; for [standard] it is [small] when
    [replicas: 1] occurs in the name, otherwise [large] when [replicas: 3]
    occurs in it, otherwise [standard]. *)
Theorem create_then_list_tier (name tier : string) (w : world) :
  valid_name name = true → startswith "." name = false →
  is_Some (TIERS !! tier) →
  can_create (files w) name = true → manifests_readable (files w) →
  ∃ w1 w2 seen,
    create_tenant name tier w = (Return tt, w1)
    ∧ list_tenants w1 = (Return tt, w2)
    ∧ reports (output_of list_tenants w1) name seen
    ∧ (∀ t, reports (output_of list_tenants w1) name t → t = seen)
    ∧ (tier = "small" → seen = "small")
    ∧ (tier = "large" →
         seen = if contains "replicas: 1" name then "small" else "large")
    ∧ (tier = "standard" →
         seen = if contains "replicas: 1" name then "small"
                else if contains "replicas: 3" name then "large"
                else "standard").
Proof.
  intros Hv Hvis [config Ht] Hc Hr.
  destruct (list_after_create name tier config w Hv Hvis Ht Hc Hr)
    as (w1 & w2 & H1 & H2 & Hrep & Honly).
  exists w1, w2, (tier_of_text (deployment_text name config)).
  split; [done|]. split; [done|]. split; [done|]. split; [done|].
  apply TIERS_lookup in Ht as [[-> ->]|[[-> ->]|[-> ->]]].
  - rewrite tier_of_small_text. by repeat split.
  - rewrite tier_of_standard_text. by repeat split.
  - rewrite tier_of_large_text. by repeat split.
Qed.

Lemma create_then_list_tier_witness :
  ∃ w1 w2 seen,
    create_tenant "acme" "large" empty_dir = (Return tt, w1)
    ∧ list_tenants w1 = (Return tt, w2)
    ∧ reports (output_of list_tenants w1) "acme" seen
    ∧ (∀ t, reports (output_of list_tenants w1) "acme" t → t = seen)
    ∧ ("large" = "small" → seen = "small")
    ∧ ("large" = "large" →
         seen = if contains "replicas: 1" "acme" then "small" else "large")
    ∧ ("large" = "standard" →
         seen = if contains "replicas: 1" "acme" then "small"
                else if contains "replicas: 3" "acme" then "large"
                else "standard").
Proof.
  apply (create_then_list_tier "acme" "large" empty_dir).
  - reflexivity.
  - reflexivity.
  - eexists. vm_compute. reflexivity.
  - vm_compute. reflexivity.
  - apply readable_empty.
Defined.

(** C10: a valid tenant name that contains [replicas: 1], created with
    the tier [standard], is listed with the tier [small]; [replicas: 1]
    itself is such a name. *)
Theorem marker_in_name_listed_as_small (name : string) (w : world) :
  valid_name name = true → startswith "." name = false →
  contains "replicas: 1" name = true →
  can_create (files w) name = true → manifests_readable (files w) →
  ∃ w1 w2,
    create_tenant name "standard" w = (Return tt, w1)
    ∧ list_tenants w1 = (Return tt, w2)
    ∧ reports (output_of list_tenants w1) name "small"
    ∧ ∀ t, reports (output_of list_tenants w1) name t → t = "small".
Proof.
  intros Hv Hvis Hm Hc Hr.
  destruct (list_after_create name "standard" standard_profile w Hv Hvis)
    as (w1 & w2 & H1 & H2 & Hrep & Honly);
    [by apply TIERS_lookup; auto|done|done|].
  rewrite tier_of_standard_text, Hm in Hrep, Honly. eauto 10.
Qed.

Lemma marker_in_name_listed_as_small_witness :
  ∃ w1 w2,
    create_tenant "replicas: 1" "standard" empty_dir = (Return tt, w1)
    ∧ list_tenants w1 = (Return tt, w2)
    ∧ reports (output_of list_tenants w1) "replicas: 1" "small"
    ∧ ∀ t, reports (output_of list_tenants w1) "replicas: 1" t → t = "small".
Proof.
  apply (marker_in_name_listed_as_small "replicas: 1" empty_dir).
  - reflexivity.
  - reflexivity.
  - reflexivity.
  - vm_compute. reflexivity.
  - apply readable_empty.
Defined.

(** ** The tier [list_tenants] gives *)

(** C3, as the claim states it, fails where the deployment manifest is
    absent: the tenant is named and no tier is printed for it. *)
Lemma tenant_without_manifest_has_no_tier :
  files bare_tenant !! ["gitops"; "tenants"; "acme"; "deployment.yaml"] = None
  ∧ list_tenants bare_tenant
    = (Return tt, World (files bare_tenant) [] [header; bullet "acme"])
  ∧ ¬ reports (output_of list_tenants bare_tenant) "acme" "standard".
Proof.
  split; [vm_compute; reflexivity|]. split; [vm_compute; reflexivity|].
  assert (output_of list_tenants bare_tenant = [header; bullet "acme"]) as ->
    by (vm_compute; reflexivity).
  intros (pre & post & H).
  destruct pre as [|? [|? pre]]; simplify_eq.
  by destruct pre.
Qed.

(** C3 (as amended): [list_tenants] returns when the tenants directory is
    there and no deployment manifest is a directory.  For an entry that is
    a directory and does not start with a dot it prints the name; when the
    deployment manifest is a file the tier follows: [small] if
    [replicas: 1] occurs in its text, otherwise [large] if [replicas: 3]
    occurs, otherwise [standard]; when there is no deployment manifest no
    tier follows. *)
Theorem list_tenants_derives_tier (n : string) (w : world) :
  files w !! ["gitops"; "tenants"] = Some Dir →
  manifests_readable (files w) →
  files w !! ["gitops"; "tenants"; n] = Some Dir →
  startswith "." n = false →
  ∃ w', list_tenants w = (Return tt, w') ∧ files w' = files w
    ∧ match files w !! ["gitops"; "tenants"; n; "deployment.yaml"] with
      | Some (File content) =>
          ∃ t, reports (output_of list_tenants w) n t
            ∧ (∀ t', reports (output_of list_tenants w) n t' → t' = t)
            ∧ (contains "replicas: 1" content = true → t = "small")
            ∧ (contains "replicas: 1" content = false →
               contains "replicas: 3" content = true → t = "large")
            ∧ (contains "replicas: 1" content = false →
               contains "replicas: 3" content = false → t = "standard")
      | _ => reports_untiered (output_of list_tenants w) n
      end.
Proof.
  intros Ht Hr Hn Hvis.
  pose proof (run_list_tenants w Ht Hr) as Hrun.
  eexists. split; [exact Hrun|]. split; [done|].
  rewrite (output_of_run _ _ _ _ _ _ Hrun).
  pose proof (listing_tier_unique (files w) n) as Honly.
  destruct (entry_lines_in_listing (files w) n) as (before & after & Heq); [eauto|].
  rewrite Heq in *. clear Heq.
  assert (entry_lines (files w) ["gitops"; "tenants"; n]
          = bullet n ::
            match files w !! ["gitops"; "tenants"; n; "deployment.yaml"] with
            | Some (File content) => [tier_line (tier_of_text content)]
            | _ => []
            end) as Hel.
  { unfold entry_lines. cbn [stat]. rewrite Hn, bool_decide_eq_true_2 by done.
    change (FS.name ["gitops"; "tenants"; n]) with n. by rewrite Hvis. }
  rewrite Hel in *. clear Hel.
  destruct (files w !! ["gitops"; "tenants"; n; "deployment.yaml"])
    as [[content|]|] eqn:Hd.
  - exists (tier_of_text content).
    assert (reports
              (header :: concat (entry_lines (files w) <$> before)
                 ++ (bullet n :: [tier_line (tier_of_text content)])
                 ++ concat (entry_lines (files w) <$> after))
              n (tier_of_text content)) as Hrep.
    { by exists (header :: concat (entry_lines (files w) <$> before)),
        (concat (entry_lines (files w) <$> after)). }
    split; [done|]. split; [intros t' Ht'; by apply Honly|].
    unfold tier_of_text. repeat split.
      * by intros ->.
      * by intros -> ->.
      * by intros -> ->.
  - by destruct (Hr n).
  - exists (header :: concat (entry_lines (files w) <$> before)),
      (concat (entry_lines (files w) <$> after)).
    split; [done|].
    destruct (entry_lines_start (files w) after) as [->|(m & rest & ->)]; eauto.
Qed.

Lemma list_tenants_derives_tier_witness :
  ∃ w', list_tenants (World acme_files [] []) = (Return tt, w')
    ∧ files w' = acme_files
    ∧ match acme_files !! ["gitops"; "tenants"; "acme"; "deployment.yaml"] with
      | Some (File content) =>
          ∃ t, reports (output_of list_tenants (World acme_files [] [])) "acme" t
            ∧ (∀ t', reports (output_of list_tenants (World acme_files [] [])) "acme" t'
                     → t' = t)
            ∧ (contains "replicas: 1" content = true → t = "small")
            ∧ (contains "replicas: 1" content = false →
               contains "replicas: 3" content = true → t = "large")
            ∧ (contains "replicas: 1" content = false →
               contains "replicas: 3" content = false → t = "standard")
      | _ => reports_untiered (output_of list_tenants (World acme_files [] [])) "acme"
      end.
Proof.
  apply (list_tenants_derives_tier "acme" (World acme_files [] [])).
  - vm_compute. reflexivity.
  - apply readable_created; [reflexivity|apply readable_empty].
  - vm_compute. reflexivity.
  - reflexivity.
Defined.

(** ** Deleting a tenant *)

(** C5: for a tenant name that is one valid file name and whose directory
    does not exist, [delete_tenant] prints the not-found line and returns;
    it reads no confirmation and leaves the tree as it was, whether or not
    the ArgoCD application file of that name exists. *)
Theorem delete_absent_not_found (name : string) (w : world) :
  valid_name name = true →
  stat (files w) (tenant_dir name) = None →
  delete_tenant name w
  = (Return tt,
     World (files w) (stdin w)
       (stdout w ++ [deleting_line name; not_found_line name])).
Proof. intros _. apply run_delete_absent. Qed.

Lemma delete_absent_not_found_witness :
  valid_name "ghost" = true
  ∧ stat (files stray_application) (tenant_dir "ghost") = None
  ∧ is_file (files stray_application) (argocd_file "ghost") = true
  ∧ delete_tenant "ghost" stray_application
    = (Return tt,
       World (files stray_application) ["yes"]
         [deleting_line "ghost"; not_found_line "ghost"]).
Proof.
  split; [reflexivity|].
  split; [vm_compute; reflexivity|]. split; [vm_compute; reflexivity|].
  apply (delete_absent_not_found "ghost" stray_application).
  - reflexivity.
  - vm_compute; reflexivity.
Defined.

(** C2, as the claim states it, fails: the confirmation [YES] is not the
    token [yes], and [delete_tenant] removes the tenant. *)
Lemma delete_proceeds_on_uppercase_yes :
  let w := World acme_files ["YES"] [] in
  files w !! tenant_dir "acme" = Some Dir
  ∧ "YES" ≠ "yes"
  ∧ (delete_tenant "acme" w).1 = Return tt
  ∧ files (delete_tenant "acme" w).2 !! tenant_dir "acme" = None
  ∧ files (delete_tenant "acme" w).2 ≠ files w.
Proof.
  cbv zeta. split; [vm_compute; reflexivity|]. split; [done|].
  split; [vm_compute; reflexivity|].
  assert (files (delete_tenant "acme" (World acme_files ["YES"] [])).2
          !! tenant_dir "acme" = None) as Hgone by (vm_compute; reflexivity).
  split; [done|]. intros Heq. rewrite Heq in Hgone. cbn [files] in Hgone.
  vm_compute in Hgone. discriminate Hgone.
Qed.

(** C2 (as amended): for an existing tenant, any confirmation that is not
    [yes] once lower-cased cancels [delete_tenant]: the line is read, the
    cancellation is printed last and the tree is left as it was. *)
Theorem delete_cancelled_unless_yes (name line : string) (rest : list string)
    (w : world) :
  is_Some (stat (files w) (tenant_dir name)) →
  stdin w = line :: rest → lower line ≠ "yes" →
  ∃ out, delete_tenant name w
    = (Return tt, World (files w) rest (stdout w ++ out ++ [cancelled_line])).
Proof. apply run_delete_cancelled. Qed.

Lemma delete_cancelled_unless_yes_witness :
  is_Some (stat acme_files (tenant_dir "acme"))
  ∧ lower "y" ≠ "yes"
  ∧ ∃ out, delete_tenant "acme" (World acme_files ["y"; "yes"] [])
      = (Return tt, World acme_files ["yes"] ([] ++ out ++ [cancelled_line])).
Proof.
  split; [by eexists; vm_compute|]. split; [done|].
  apply (delete_cancelled_unless_yes "acme" "y" ["yes"] (World acme_files ["y"; "yes"] [])).
  - by eexists; vm_compute.
  - reflexivity.
  - done.
Defined.

(** C6: for an existing tenant and a confirmation that is [yes] in any
    letter case, [delete_tenant] returns with the tenant directory and
    everything below it removed and the ArgoCD application file gone,
    whether or not that file was there; nothing else changes, and
    [list_tenants] afterwards does not name the tenant. *)
Theorem delete_confirmed_removes_tenant (name line : string)
    (rest : list string) (w : world) :
  valid_name name = true →
  files w !! tenant_dir name = Some Dir →
  files w !! argocd_file name ≠ Some Dir →
  stdin w = line :: rest → lower line = "yes" →
  ∃ w', delete_tenant name w = (Return tt, w')
    ∧ (∀ p, tenant_dir name `prefix_of` p → files w' !! p = None)
    ∧ files w' !! argocd_file name = None
    ∧ (∀ p, ¬ tenant_dir name `prefix_of` p → p ≠ argocd_file name →
            files w' !! p = files w !! p)
    ∧ bullet name ∉ output_of list_tenants w'.
Proof.
  intros Hv Hd Ha Hin Hyes.
  destruct (run_delete_confirmed name line rest w Hd Ha Hin Hyes) as [out Hrun].
  eexists. split; [exact Hrun|]. cbn [files].
  split; [intros p; apply deleted_below|].
  split; [apply deleted_application|].
  split; [intros p; apply deleted_other|].
  set (w' := World _ _ _).
  destruct (run_list_tenants_any w') as (r & lines & Hlist & Hlines).
  rewrite (output_of_run _ _ _ _ _ _ Hlist).
  intros [Hh|Hin']%elem_of_cons; [by apply bullet_not_header in Hh|].
  destruct (Hlines _ Hin') as [Hn|(n & [e He] & [Hb|[t Ht]])].
  - by apply bullet_not_no_tenants in Hn.
  - apply bullet_inj in Hb as <-. subst w'. cbn [files] in He.
    rewrite <- (tenant_dir_valid name Hv) in He.
    by rewrite deleted_below in He.
  - by apply bullet_not_tier_line in Ht.
Qed.

Lemma delete_confirmed_removes_tenant_witness :
  ∃ w', delete_tenant "acme" (World acme_files ["Yes"] []) = (Return tt, w')
    ∧ (∀ p, tenant_dir "acme" `prefix_of` p → files w' !! p = None)
    ∧ files w' !! argocd_file "acme" = None
    ∧ (∀ p, ¬ tenant_dir "acme" `prefix_of` p → p ≠ argocd_file "acme" →
            files w' !! p = acme_files !! p)
    ∧ bullet "acme" ∉ output_of list_tenants w'.
Proof.
  apply (delete_confirmed_removes_tenant "acme" "Yes" [] (World acme_files ["Yes"] [])).
  - reflexivity.
  - vm_compute; reflexivity.
  - vm_compute; discriminate.
  - reflexivity.
  - reflexivity.
Defined.

(** * Further properties of the three operations *)

(** ** When [create_tenant] returns *)

Section returns.
Implicit Types (name tier : string) (config : profile) (w : world)
  (fs : gmap (list string) entry).

Lemma bind_returns {A B} (m : M A) (f : A → M B) w b w' :
  (m ≫= f) w = (Return b, w') →
  ∃ a w1, m w = (Return a, w1) ∧ f a w1 = (Return b, w').
Proof.
  unfold mbind, M_bind. destruct (m w) as [[a|e] w1]; [eauto|done].
Qed.

Lemma mkdirs_returns fs done todo fs' :
  mkdirs fs done todo = Some fs' →
  ∀ d, d ∈ dirs_of done todo → is_file fs d = false.
Proof.
  revert fs done. induction todo as [|c todo IH]; intros fs dn Hm d Hd.
  - by apply elem_of_nil in Hd.
  - cbn [mkdirs dirs_of] in *. unfold is_file.
    destruct (fs !! (dn ++ [c])) as [[t|]|] eqn:Hc; [done| |].
    + apply elem_of_cons in Hd as [->|Hd]; [by rewrite Hc|].
      by apply (IH _ _ Hm).
    + apply elem_of_cons in Hd as [->|Hd]; [by rewrite Hc|].
      specialize (IH _ _ Hm d Hd). unfold is_file in IH.
      destruct (decide (d = dn ++ [c])) as [->|Hne]; [by rewrite Hc|].
      by rewrite lookup_insert_ne in IH.
Qed.

Lemma mkdir_returns p w a w1 :
  mkdir p w = (Return a, w1) →
  (∀ d, d ∈ dirs_of [] p → is_file (files w) d = false)
  ∧ w1 = World (dir_map (dirs_of [] p) ∪ files w) (stdin w) (stdout w).
Proof.
  intros Hm.
  assert (∀ d, d ∈ dirs_of [] p → is_file (files w) d = false) as Hclear.
  { unfold mkdir in Hm. apply bind_returns in Hm as (fs & w0 & Hg & Hm).
    injection Hg as <- <-.
    destruct (mkdirs (files w) [] p) as [fs'|] eqn:Hfs; [|done].
    by eapply mkdirs_returns. }
  split; [done|]. rewrite run_mkdir in Hm by done. by injection Hm.
Qed.

Lemma write_text_returns p text w a w1 :
  write_text p text w = (Return a, w1) →
  (p ≠ [] ∧ stat (files w) (parent p) = Some Dir ∧ files w !! p ≠ Some Dir)
  ∧ w1 = World (<[p := File text]> (files w)) (stdin w) (stdout w).
Proof.
  intros Hm.
  assert (p ≠ [] ∧ stat (files w) (parent p) = Some Dir
          ∧ files w !! p ≠ Some Dir) as (? & ? & ?).
  { unfold write_text in Hm. apply bind_returns in Hm as (fs & w0 & Hg & Hm).
    injection Hg as <- <-. by destruct (decide _). }
  split; [done|]. rewrite run_write_text in Hm by done. by injection Hm.
Qed.

Lemma print_returns s w a w1 :
  print s w = (Return a, w1) →
  w1 = World (files w) (stdin w) (stdout w ++ [s +:+ "
"]).
Proof. rewrite run_print. by intros [= _ <-]. Qed.

(** [create_tenant] returns only for a tier of the table and in a tree
    where nothing stands in the way. *)
Lemma create_tenant_returns name tier w w1 :
  valid_name name = true →
  create_tenant name tier w = (Return tt, w1) →
  is_Some (TIERS !! tier) ∧ can_create (files w) name = true.
Proof.
  intros Hv Hrun. destruct w as [fs i o].
  pose proof (tenant_dir_valid name Hv) as HT.
  pose proof (argocd_file_valid name Hv) as HA.
  pose proof (application_name_single name Hv) as HAN.
  unfold create_tenant in Hrun.
  change (Path ("gitops/tenants/" +:+ name)) with (tenant_dir name) in Hrun.
  rewrite HT in Hrun. unfold join in Hrun. rewrite HAN in Hrun.
  change (Path "namespace.yaml") with ["namespace.yaml"] in Hrun.
  change (Path "deployment.yaml") with ["deployment.yaml"] in Hrun.
  change (Path "service.yaml") with ["service.yaml"] in Hrun.
  change (Path "configmap.yaml") with ["configmap.yaml"] in Hrun.
  change (Path "gitops/argocd") with ["gitops"; "argocd"] in Hrun.
  cbn [app] in Hrun.
  apply bind_returns in Hrun as (? & w0 & ->%print_returns & Hrun).
  apply bind_returns in Hrun as (? & wa & [Hdirs ->]%mkdir_returns & Hrun).
  apply bind_returns in Hrun as (? & wb & [(_ & _ & Hns) ->]%write_text_returns & Hrun).
  apply bind_returns in Hrun as (text & wc & Hget & Hrun).
  unfold create_deployment_yaml in Hget.
  destruct (TIERS !! tier) as [config|] eqn:Ht; [|done].
  cbn [mbind option_bind] in Hget. rewrite run_getitem in Hget.
  injection Hget as <- <-.
  apply bind_returns in Hrun as (? & wd & [(_ & _ & Hdep) ->]%write_text_returns & Hrun).
  apply bind_returns in Hrun as (? & we & [(_ & _ & Hsvc) ->]%write_text_returns & Hrun).
  apply bind_returns in Hrun as (? & wf & [(_ & _ & Hcm) ->]%write_text_returns & Hrun).
  apply bind_returns in Hrun as (? & wg & ->%print_returns & Hrun).
  apply bind_returns in Hrun as (? & wh & [Hdirs' ->]%mkdir_returns & Hrun).
  apply bind_returns in Hrun as (? & wi & [(_ & _ & Haf) ->]%write_text_returns & _).
  cbn [files stdin stdout dirs_of app] in *.
  split; [done|]. unfold can_create.
  unfold manifest, join. rewrite HT, HA.
  change (Path "namespace.yaml") with ["namespace.yaml"].
  change (Path "deployment.yaml") with ["deployment.yaml"].
  change (Path "service.yaml") with ["service.yaml"].
  change (Path "configmap.yaml") with ["configmap.yaml"].
  cbn [app forallb]. unfold is_directory.
  rewrite !andb_true_iff, !negb_true_iff, !bool_decide_eq_false.
  repeat split.
  - apply Hdirs. among.
  - apply Hdirs. among.
  - apply Hdirs. among.
  - specialize (Hdirs' ["gitops"; "argocd"]). unfold is_file in Hdirs'.
    revert Hdirs'. look. intros Hd. apply Hd. among.
  - revert Hns. by look.
  - revert Hdep. by look.
  - revert Hsvc. by look.
  - revert Hcm. by look.
  - revert Haf. by look.
Qed.

End returns.

(** ** What an operation may change *)

Section footprints.
Context {A B : Type}.
Implicit Types (S : list string → Prop) (w : world) (p q : list string).

Lemma touches_mono S S' (m : M A) :
  (∀ q, S q → S' q) → touches_only S m → touches_only S' m.
Proof. intros HS Hm w q Hq. apply Hm. auto. Qed.

Lemma touches_nothing S (m : M A) :
  (∀ w, files (m w).2 = files w) → touches_only S m.
Proof. intros Hm w q _. by rewrite Hm. Qed.

Lemma touches_bind S (m : M A) (f : A → M B) :
  touches_only S m → (∀ a, touches_only S (f a)) → touches_only S (m ≫= f).
Proof.
  intros Hm Hf w q Hq. specialize (Hm w q Hq).
  unfold mbind, M_bind. destruct (m w) as [[a|e] w1]; [|done].
  cbn [snd] in Hm. by rewrite (Hf a w1 q Hq).
Qed.

End footprints.

Section footprints_of_calls.
Implicit Types (S : list string → Prop) (w : world) (p q : list string)
  (fs : gmap (list string) entry).

Lemma touches_mret {A} S (a : A) : touches_only S (mret a).
Proof. by apply touches_nothing. Qed.

Lemma touches_print S s : touches_only S (print s).
Proof. by apply touches_nothing. Qed.

Lemma touches_getitem {A} S (o : option A) : touches_only S (getitem o).
Proof. apply touches_nothing. by destruct o. Qed.

Lemma touches_path_exists S p : touches_only S (path_exists p).
Proof. by apply touches_nothing. Qed.

Lemma touches_is_dir S p : touches_only S (is_dir p).
Proof. by apply touches_nothing. Qed.

Lemma touches_read_text S p : touches_only S (read_text p).
Proof.
  apply touches_nothing. intros w. unfold read_text, mbind, M_bind. simpl.
  by destruct (stat (files w) p) as [[t|]|].
Qed.

Lemma touches_iterdir S p : touches_only S (iterdir p).
Proof.
  apply touches_nothing. intros w. unfold iterdir, mbind, M_bind. simpl.
  by destruct (stat (files w) p) as [[t|]|].
Qed.

Lemma touches_input S prompt : touches_only S (input prompt).
Proof.
  apply touches_nothing. intros w. unfold input, read_line, mbind, M_bind.
  simpl. by destruct (stdin w).
Qed.

Lemma touches_when S (b : bool) (m : M unit) :
  touches_only S m → touches_only S (when b m).
Proof. destruct b; [done|]. intros _. apply touches_mret. Qed.

Lemma touches_for_each {A} S (l : list A) (body : A → M unit) :
  (∀ x, touches_only S (body x)) → touches_only S (for_each l body).
Proof.
  intros Hbody. induction l as [|x l IH]; [apply touches_mret|].
  cbn [for_each]. apply touches_bind; [apply Hbody|]. by intros _.
Qed.

Lemma mkdirs_elsewhere fs done todo fs' q :
  mkdirs fs done todo = Some fs' → q ∉ dirs_of done todo → fs' !! q = fs !! q.
Proof.
  revert fs done. induction todo as [|c todo IH]; intros fs dn Hm Hq.
  - by injection Hm as <-.
  - cbn [mkdirs dirs_of] in *. apply not_elem_of_cons in Hq as [Hne Hq].
    destruct (fs !! (dn ++ [c])) as [[t|]|]; [done|by eapply IH|].
    rewrite (IH _ _ Hm Hq). by rewrite lookup_insert_ne.
Qed.

Lemma touches_mkdir p : touches_only (λ q, q ∈ dirs_of [] p) (mkdir p).
Proof.
  intros w q Hq. unfold mkdir, mbind, M_bind. simpl.
  destruct (mkdirs (files w) [] p) as [fs'|] eqn:Hm; [|done].
  simpl. by eapply mkdirs_elsewhere.
Qed.

Lemma touches_write_text p text : touches_only (λ q, q = p) (write_text p text).
Proof.
  intros w q Hq. unfold write_text, mbind, M_bind. simpl.
  destruct (decide _); [|done]. simpl. by rewrite lookup_insert_ne.
Qed.

Lemma touches_rmtree p : touches_only (λ q, p `prefix_of` q) (rmtree p).
Proof.
  intros w q Hq. unfold rmtree, mbind, M_bind. simpl.
  destruct (stat (files w) p) as [[t|]|]; try done. simpl.
  destruct (files w !! q) as [e|] eqn:He.
  - by apply map_lookup_filter_Some.
  - apply map_lookup_filter_None. by left.
Qed.

Lemma touches_unlink p : touches_only (λ q, q = p) (unlink p).
Proof.
  intros w q Hq. unfold unlink, mbind, M_bind. simpl.
  destruct (files w !! p) as [[t|]|]; try done. simpl.
  by rewrite lookup_delete_ne.
Qed.

End footprints_of_calls.

(** Splitting a sequence of calls into its calls. *)
Ltac footprint_step :=
  lazymatch goal with
  | |- touches_only _ (mbind _ _) => apply touches_bind; [|intros ?]
  | |- touches_only _ (when _ _) => apply touches_when
  | |- touches_only _ (for_each _ _) => apply touches_for_each; intros ?
  | |- touches_only _ (print _) => apply touches_print
  | |- touches_only _ (mret _) => apply touches_mret
  | |- touches_only _ (getitem _) => apply touches_getitem
  | |- touches_only _ (path_exists _) => apply touches_path_exists
  | |- touches_only _ (is_dir _) => apply touches_is_dir
  | |- touches_only _ (read_text _) => apply touches_read_text
  | |- touches_only _ (iterdir _) => apply touches_iterdir
  | |- touches_only _ (input _) => apply touches_input
  | |- touches_only _ (if ?b then _ else _) => destruct b
  | |- touches_only _ (mkdir _) =>
      eapply touches_mono; [|apply touches_mkdir]
  | |- touches_only _ (write_text _ _) =>
      eapply touches_mono; [|apply touches_write_text]
  | |- touches_only _ (rmtree _) =>
      eapply touches_mono; [|apply touches_rmtree]
  | |- touches_only _ (unlink _) =>
      eapply touches_mono; [|apply touches_unlink]
  end.

Ltac footprint := repeat footprint_step.

Section footprints_of_operations.
Implicit Types (name tier : string) (w : world) (q : list string).

Lemma create_tenant_footprint name tier :
  touches_only (λ q, q ∈ create_footprint name) (create_tenant name tier).
Proof.
  unfold create_tenant, create_footprint, manifest.
  change (Path ("gitops/tenants/" +:+ name)) with (tenant_dir name).
  change (Path "gitops/argocd") with ["gitops"; "argocd"].
  footprint; intros q Hq; cbn beta in *; subst;
    rewrite ?elem_of_app, ?elem_of_cons; tauto.
Qed.

Lemma delete_tenant_footprint name :
  touches_only (λ q, tenant_dir name `prefix_of` q ∨ q = argocd_file name)
    (delete_tenant name).
Proof.
  unfold delete_tenant.
  change (Path ("gitops/tenants/" +:+ name)) with (tenant_dir name).
  change (Path ("gitops/argocd/application-" +:+ name +:+ ".yaml"))
    with (argocd_file name).
  footprint; intros q Hq; tauto.
Qed.

Lemma list_tenants_footprint : touches_only (λ _, False) list_tenants.
Proof. unfold list_tenants, list_entry. footprint. Qed.

End footprints_of_operations.

(** ** One tenant beside another *)

Section isolation.
Implicit Types (name other tier : string) (w : world) (q : list string).

Lemma append_empty_r (a : string) : a +:+ "" = a.
Proof. induction a as [|x a IH]; [done|]. by rewrite append_cons, IH. Qed.

Lemma append_cancel_suffix (a b s : string) : a +:+ s = b +:+ s → a = b.
Proof.
  revert a b. induction s as [|c s IH]; intros a b H.
  - by rewrite !append_empty_r in H.
  - apply (append_cancel_r a b c), IH.
    by rewrite <- !app_assoc_string.
Qed.

Lemma create_footprint_valid name :
  valid_name name = true →
  create_footprint name =
  [["gitops"]; ["gitops"; "tenants"]; ["gitops"; "tenants"; name];
   ["gitops"; "tenants"; name; "namespace.yaml"];
   ["gitops"; "tenants"; name; "deployment.yaml"];
   ["gitops"; "tenants"; name; "service.yaml"];
   ["gitops"; "tenants"; name; "configmap.yaml"];
   ["gitops"]; ["gitops"; "argocd"];
   ["gitops"; "argocd"; "application-" +:+ name +:+ ".yaml"]].
Proof.
  intros Hv. unfold create_footprint, join.
  rewrite !(manifest_valid name _ Hv), (tenant_dir_valid name Hv),
    (application_name_single name Hv) by done.
  done.
Qed.

Lemma other_tenant_outside_footprint name other q :
  valid_name name = true → valid_name other = true → other ≠ name →
  tenant_dir other `prefix_of` q ∨ q = argocd_file other →
  q ∉ create_footprint name.
Proof.
  intros Hv Hv' Hne Hq. rewrite create_footprint_valid by done.
  rewrite (tenant_dir_valid other Hv'), (argocd_file_valid other Hv') in Hq.
  rewrite !elem_of_cons, elem_of_nil.
  destruct Hq as [[k ->]| ->]; cbn [app]; intros H; decompose [or] H;
    clear H; simplify_eq.
  match goal with E : _ +:+ _ = _ +:+ _ |- _ =>
    by apply append_cancel_suffix in E end.
Qed.

Lemma other_tenant_outside_delete name other q :
  valid_name name = true → valid_name other = true → other ≠ name →
  tenant_dir other `prefix_of` q ∨ q = argocd_file other →
  ¬ (tenant_dir name `prefix_of` q ∨ q = argocd_file name).
Proof.
  intros Hv Hv' Hne Hq.
  rewrite (tenant_dir_valid other Hv'), (argocd_file_valid other Hv') in Hq.
  rewrite (tenant_dir_valid name Hv), (argocd_file_valid name Hv).
  destruct Hq as [[k ->]| ->]; intros [[k' H]|H]; cbn [app] in H;
    simplify_eq.
  match goal with E : _ +:+ _ = _ +:+ _ |- _ =>
    apply append_cancel_suffix in E; by subst end.
Qed.

End isolation.

(** X1: [create_tenant], however it ends and whatever the tier, changes
    nothing below the directory of another tenant and leaves the ArgoCD
    application file of another tenant as it is. *)
Theorem create_tenant_isolated (name other tier : string) (w : world)
    (q : list string) :
  valid_name name = true → valid_name other = true → other ≠ name →
  tenant_dir other `prefix_of` q ∨ q = argocd_file other →
  files (create_tenant name tier w).2 !! q = files w !! q.
Proof.
  intros Hv Hv' Hne Hq. apply create_tenant_footprint.
  by apply (other_tenant_outside_footprint name other).
Qed.

Lemma create_tenant_isolated_witness :
  files (create_tenant "globex" "large" (World acme_files [] [])).2
    !! manifest "acme" "deployment.yaml"
  = acme_files !! manifest "acme" "deployment.yaml"
  ∧ acme_files !! manifest "acme" "deployment.yaml"
    = Some (File (deployment_text "acme" small_profile)).
Proof.
  split; [|vm_compute; reflexivity].
  apply (create_tenant_isolated "globex" "acme" "large" (World acme_files [] [])).
  - reflexivity.
  - reflexivity.
  - discriminate.
  - left. exists ["deployment.yaml"]. vm_compute. reflexivity.
Defined.

(** X2: [delete_tenant], whatever is answered and however it ends, changes
    nothing below the directory of another tenant and leaves the ArgoCD
    application file of another tenant as it is. *)
Theorem delete_tenant_isolated (name other : string) (w : world)
    (q : list string) :
  valid_name name = true → valid_name other = true → other ≠ name →
  tenant_dir other `prefix_of` q ∨ q = argocd_file other →
  files (delete_tenant name w).2 !! q = files w !! q.
Proof.
  intros Hv Hv' Hne Hq. apply delete_tenant_footprint.
  by apply (other_tenant_outside_delete name other).
Qed.

Lemma delete_tenant_isolated_witness :
  files (delete_tenant "globex" acme_and_globex).2 !! argocd_file "acme"
  = files acme_and_globex !! argocd_file "acme"
  ∧ files (delete_tenant "globex" acme_and_globex).2 !! tenant_dir "globex" = None.
Proof.
  split; [|vm_compute; reflexivity].
  apply (delete_tenant_isolated "globex" "acme" acme_and_globex).
  - reflexivity.
  - reflexivity.
  - discriminate.
  - right. reflexivity.
Defined.

(** X3: [list_tenants] only reads: however it ends, the tree is the one it
    started in and no line of the input is consumed. *)
Theorem list_tenants_reads_only (w : world) :
  files (list_tenants w).2 = files w ∧ stdin (list_tenants w).2 = stdin w.
Proof.
  destruct (run_list_tenants_any w) as (r & out & -> & _). done.
Qed.

(** ** Where [create_tenant] stops *)

(** X4: for a valid tenant name [create_tenant] returns only when the
    tier is in the table and nothing stands in the way: no regular file
    where a directory is needed and no directory where a manifest is
    written.  When it has returned, the tree is the five manifests over the
    four directories over what was there, and no input was read. *)
Theorem create_tenant_returns_only_unobstructed (name tier : string)
    (w w1 : world) :
  valid_name name = true →
  create_tenant name tier w = (Return tt, w1) →
  ∃ config,
    TIERS !! tier = Some config
    ∧ can_create (files w) name = true
    ∧ files w1 = created name config (files w)
    ∧ stdin w1 = stdin w.
Proof.
  intros Hv H1.
  destruct (create_tenant_returns name tier w w1 Hv H1) as [[config Ht] Hc].
  destruct (create_tenant_files name tier config w Hv Ht Hc) as [out H1'].
  exists config. split; [done|]. split; [done|].
  rewrite H1 in H1'. by injection H1' as ->.
Qed.

Lemma create_tenant_returns_only_unobstructed_witness :
  ∃ config,
    TIERS !! "small" = Some config
    ∧ can_create (files (World acme_files ["yes"] [])) "globex" = true
    ∧ files (create_tenant "globex" "small" (World acme_files ["yes"] [])).2
      = created "globex" config (files (World acme_files ["yes"] []))
    ∧ stdin (create_tenant "globex" "small" (World acme_files ["yes"] [])).2
      = stdin (World acme_files ["yes"] []).
Proof.
  apply (create_tenant_returns_only_unobstructed "globex" "small"
           (World acme_files ["yes"] [])).
  - reflexivity.
  - destruct (create_tenant_files "globex" "small" small_profile
                (World acme_files ["yes"] [])) as [out Hrun]; [reflexivity..|].
    by rewrite Hrun.
Defined.

Section stops.
Implicit Types (name tier : string) (config : profile) (w : world)
  (fs : gmap (list string) entry).

Lemma can_write_manifests_spec fs name :
  valid_name name = true → can_write_manifests fs name = true →
  (is_file fs ["gitops"] = false
   ∧ is_file fs ["gitops"; "tenants"] = false
   ∧ is_file fs ["gitops"; "tenants"; name] = false)
  ∧ fs !! ["gitops"; "tenants"; name; "namespace.yaml"] ≠ Some Dir
  ∧ fs !! ["gitops"; "tenants"; name; "deployment.yaml"] ≠ Some Dir
  ∧ fs !! ["gitops"; "tenants"; name; "service.yaml"] ≠ Some Dir
  ∧ fs !! ["gitops"; "tenants"; name; "configmap.yaml"] ≠ Some Dir.
Proof.
  intros Hv. unfold can_write_manifests.
  rewrite !(manifest_valid name _ Hv), (tenant_dir_valid name Hv) by done.
  cbn [forallb]. unfold is_directory.
  rewrite !andb_true_iff, !negb_true_iff, !bool_decide_eq_false. tauto.
Qed.

Lemma can_create_writes fs name :
  can_create fs name = true → can_write_manifests fs name = true.
Proof.
  unfold can_create, can_write_manifests. cbn [forallb].
  rewrite !andb_true_iff. tauto.
Qed.

End stops.

Ltac step_print :=
  eapply run_bind; [apply run_print|]; cbn [files stdin stdout].

Ltac step_write :=
  eapply run_bind;
    [apply run_write_text; cbn [files parent length Nat.sub take stat];
       [done|by look|by look]|];
  cbn [files stdin stdout].

(** X5: with a tier that is not in the table [create_tenant] raises
    [KeyError] when it renders the deployment manifest: the tenant directory
    is made and [namespace.yaml] is written by then, and nothing else is. *)
Theorem create_tenant_unknown_tier (name tier : string) (w : world) :
  valid_name name = true → TIERS !! tier = None →
  can_write_manifests (files w) name = true →
  ∃ out, create_tenant name tier w
    = (Raise KeyError,
       World (<[manifest name "namespace.yaml" := File (create_namespace_yaml name)]>
                (dir_map (dirs_of [] (tenant_dir name)) ∪ files w))
         (stdin w) (stdout w ++ out)).
Proof.
  intros Hv Ht Hc. destruct w as [fs i o]. cbn [files stdin stdout] in *.
  apply can_write_manifests_spec in Hc
    as ((Hg & Hgt & HgT) & Hns & _); [|done].
  rewrite (manifest_valid name _ Hv), (tenant_dir_valid name Hv) by done.
  eexists [_]. unfold create_tenant.
  change (Path ("gitops/tenants/" +:+ name)) with (tenant_dir name).
  rewrite (tenant_dir_valid name Hv). unfold join.
  change (Path "namespace.yaml") with ["namespace.yaml"]. cbn [app].
  step_print.
  eapply run_bind.
  { apply run_mkdir. cbn [files dirs_of app]. intros d Hd.
    repeat (apply elem_of_cons in Hd as [->|Hd]); try done.
    by apply elem_of_nil in Hd. }
  cbn [files stdin stdout dirs_of app].
  step_write.
  eapply run_bind_raise.
  unfold create_deployment_yaml. by rewrite Ht.
Qed.

Lemma create_tenant_unknown_tier_witness :
  ∃ out, create_tenant "acme" "huge" empty_dir
    = (Raise KeyError,
       World (<[manifest "acme" "namespace.yaml" := File (create_namespace_yaml "acme")]>
                (dir_map (dirs_of [] (tenant_dir "acme")) ∪ ∅))
         [] ([] ++ out)).
Proof.
  apply (create_tenant_unknown_tier "acme" "huge" empty_dir).
  - reflexivity.
  - vm_compute. reflexivity.
  - vm_compute. reflexivity.
Defined.

(** X6: when a regular file sits where the ArgoCD directory is needed,
    [create_tenant] raises [OSError] after the four manifests of the tenant
    are written; they stay, and no application file is written. *)
Theorem create_tenant_stops_at_argocd (name tier : string) (config : profile)
    (w : world) :
  valid_name name = true → TIERS !! tier = Some config →
  can_write_manifests (files w) name = true →
  is_file (files w) ["gitops"; "argocd"] = true →
  ∃ w', create_tenant name tier w = (Raise OSError, w')
    ∧ files w' !! manifest name "namespace.yaml"
      = Some (File (create_namespace_yaml name))
    ∧ files w' !! manifest name "deployment.yaml"
      = Some (File (deployment_text name config))
    ∧ files w' !! manifest name "service.yaml"
      = Some (File (create_service_yaml name))
    ∧ files w' !! manifest name "configmap.yaml"
      = Some (File (create_configmap_yaml name))
    ∧ files w' !! argocd_file name = files w !! argocd_file name.
Proof.
  intros Hv Ht Hc Ha. destruct w as [fs i o]. cbn [files stdin stdout] in *.
  apply can_write_manifests_spec in Hc
    as ((Hg & Hgt & HgT) & Hns & Hdep & Hsvc & Hcm); [|done].
  rewrite !(manifest_valid name _ Hv), (argocd_file_valid name Hv) by done.
  eexists. split.
  - unfold create_tenant.
    change (Path ("gitops/tenants/" +:+ name)) with (tenant_dir name).
    rewrite (tenant_dir_valid name Hv). unfold join.
    change (Path "namespace.yaml") with ["namespace.yaml"].
    change (Path "deployment.yaml") with ["deployment.yaml"].
    change (Path "service.yaml") with ["service.yaml"].
    change (Path "configmap.yaml") with ["configmap.yaml"].
    change (Path "gitops/argocd") with ["gitops"; "argocd"].
    cbn [app].
    step_print.
    eapply run_bind.
    { apply run_mkdir. cbn [files dirs_of app]. intros d Hd.
      repeat (apply elem_of_cons in Hd as [->|Hd]); try done.
      by apply elem_of_nil in Hd. }
    cbn [files stdin stdout dirs_of app].
    step_write.
    unfold create_deployment_yaml. rewrite Ht. cbn [mbind option_bind].
    eapply run_bind; [apply run_getitem|].
    step_write. step_write. step_write. step_print.
    eapply run_bind_raise.
    unfold mkdir. eapply run_bind; [done|]. cbn [files mkdirs app].
    unfold is_file in Ha.
    destruct (fs !! ["gitops"; "argocd"]) as [[t|]|] eqn:Hf; try done.
    look. rewrite Hf. done.
  - cbn [files]. repeat split; look; done.
Qed.

Lemma create_tenant_stops_at_argocd_witness :
  ∃ w', create_tenant "acme" "small" argocd_blocked = (Raise OSError, w')
    ∧ files w' !! manifest "acme" "namespace.yaml"
      = Some (File (create_namespace_yaml "acme"))
    ∧ files w' !! manifest "acme" "deployment.yaml"
      = Some (File (deployment_text "acme" small_profile))
    ∧ files w' !! manifest "acme" "service.yaml"
      = Some (File (create_service_yaml "acme"))
    ∧ files w' !! manifest "acme" "configmap.yaml"
      = Some (File (create_configmap_yaml "acme"))
    ∧ files w' !! argocd_file "acme" = files argocd_blocked !! argocd_file "acme".
Proof.
  apply (create_tenant_stops_at_argocd "acme" "small" small_profile argocd_blocked).
  - reflexivity.
  - vm_compute. reflexivity.
  - vm_compute. reflexivity.
  - vm_compute. reflexivity.
Defined.

(** ** Where [delete_tenant] stops *)

Ltac step_exists :=
  eapply run_bind; [apply run_path_exists|]; cbn [files stdin stdout].

(** X7: when the tenant is there and the input has ended,
    [delete_tenant] raises [EOFError] at the confirmation; the tree is as it
    was. *)
Theorem delete_tenant_end_of_input (name : string) (w : world) :
  is_Some (stat (files w) (tenant_dir name)) → stdin w = [] →
  ∃ out, delete_tenant name w
    = (Raise EOFError, World (files w) [] (stdout w ++ out)).
Proof.
  intros Hs Hin. destruct w as [fs i o]. cbn [files stdin stdout] in *. subst i.
  eexists [_; _; _; _; _]. unfold delete_tenant.
  change (Path ("gitops/tenants/" +:+ name)) with (tenant_dir name).
  step_print. step_exists.
  rewrite bool_decide_eq_true_2 by done. cbn [negb].
  do 3 step_print.
  eapply run_bind_raise. unfold input. eapply run_bind; [done|].
  unfold read_line. cbn [files stdin stdout].
  by rewrite <- !(assoc_L (++)).
Qed.

Lemma delete_tenant_end_of_input_witness :
  ∃ out, delete_tenant "acme" (World acme_files [] [])
    = (Raise EOFError, World acme_files [] ([] ++ out)).
Proof.
  apply (delete_tenant_end_of_input "acme" (World acme_files [] [])).
  - eexists. vm_compute. reflexivity.
  - reflexivity.
Defined.

(** X8: when a directory sits where the ArgoCD application file is
    expected, a confirmed [delete_tenant] removes the tenant directory with
    everything below it and then raises [OSError]; the removal is not undone
    and the directory at the application path stays. *)
Theorem delete_tenant_stops_at_application (name line : string)
    (rest : list string) (w : world) :
  valid_name name = true →
  files w !! tenant_dir name = Some Dir →
  files w !! argocd_file name = Some Dir →
  stdin w = line :: rest → lower line = "yes" →
  ∃ w', delete_tenant name w = (Raise OSError, w')
    ∧ (∀ p, tenant_dir name `prefix_of` p → files w' !! p = None)
    ∧ files w' !! argocd_file name = Some Dir
    ∧ (∀ p, ¬ tenant_dir name `prefix_of` p → files w' !! p = files w !! p).
Proof.
  intros _ Hd Ha Hin Hyes. destruct w as [fs i o]. cbn [files stdin stdout] in *.
  assert (is_Some (stat fs (tenant_dir name))) as Hs
    by (rewrite stat_tenant_dir; eauto).
  set (kept := filter (λ kv : list string * entry, ¬ tenant_dir name `prefix_of` kv.1) fs).
  assert (∀ p, ¬ tenant_dir name `prefix_of` p → kept !! p = fs !! p) as Hk.
  { intros p Hp. unfold kept. destruct (fs !! p) as [e|] eqn:He.
    - by apply map_lookup_filter_Some.
    - apply map_lookup_filter_None. by left. }
  exists (World kept rest
            (o ++ [deleting_line name; ("  This will delete:" +:+ "
"); (("   - gitops/tenants/" +:+ name +:+ "/") +:+ "
"); (("   - gitops/argocd/application-" +:+ name +:+ ".yaml") +:+ "
"); "
  Are you sure? (yes/no): "; ("  ✅ Deleted tenant directory" +:+ "
")])).
  split; [|cbn [files]; split; [|split; [|done]]].
  - unfold delete_tenant.
    change (Path ("gitops/tenants/" +:+ name)) with (tenant_dir name).
    change (Path ("gitops/argocd/application-" +:+ name +:+ ".yaml"))
      with (argocd_file name).
    step_print. step_exists.
    rewrite bool_decide_eq_true_2 by done. cbn [negb].
    do 3 step_print.
    eapply run_bind; [by apply run_input|]. cbn [files stdin stdout].
    rewrite bool_decide_eq_true_2 by done. cbn [negb].
    eapply run_bind.
    { step_exists. rewrite bool_decide_eq_true_2 by done. cbn [when].
      eapply run_bind; [|apply run_print].
      unfold rmtree. eapply run_bind; [done|]. cbn [files stdin stdout].
      by rewrite stat_tenant_dir, Hd. }
    cbn [files stdin stdout]. fold kept.
    eapply run_bind_raise. step_exists.
    rewrite stat_argocd_file, Hk, Ha, bool_decide_eq_true_2
      by (eauto using tenant_dir_not_above_argocd_file).
    cbn [when]. eapply run_bind_raise.
    unfold unlink. eapply run_bind; [done|]. cbn [files stdin stdout].
    rewrite Hk, Ha by apply tenant_dir_not_above_argocd_file.
    by rewrite <- !(assoc_L (++)).
  - intros p Hp. apply map_lookup_filter_None. right. intros e _ Hn. by apply Hn.
  - by rewrite Hk by apply tenant_dir_not_above_argocd_file.
Qed.

Lemma delete_tenant_stops_at_application_witness :
  ∃ w', delete_tenant "acme" application_is_directory = (Raise OSError, w')
    ∧ (∀ p, tenant_dir "acme" `prefix_of` p → files w' !! p = None)
    ∧ files w' !! argocd_file "acme" = Some Dir
    ∧ (∀ p, ¬ tenant_dir "acme" `prefix_of` p →
            files w' !! p = files application_is_directory !! p).
Proof.
  apply (delete_tenant_stops_at_application "acme" "yes" [] application_is_directory).
  - reflexivity.
  - vm_compute. reflexivity.
  - vm_compute. reflexivity.
  - reflexivity.
  - reflexivity.
Defined.

(** X9: when a regular file sits where the tenant directory is expected,
    [delete_tenant] takes the tenant for existing, reads the confirmation
    and, confirmed, raises [OSError]; the tree is as it was. *)
Theorem delete_tenant_on_regular_file (name line text : string)
    (rest : list string) (w : world) :
  files w !! tenant_dir name = Some (File text) →
  stdin w = line :: rest → lower line = "yes" →
  ∃ out, delete_tenant name w
    = (Raise OSError, World (files w) rest (stdout w ++ out)).
Proof.
  intros Hd Hin Hyes. destruct w as [fs i o]. cbn [files stdin stdout] in *.
  assert (is_Some (stat fs (tenant_dir name))) as Hs
    by (rewrite stat_tenant_dir; eauto).
  eexists [_; _; _; _; _]. unfold delete_tenant.
  change (Path ("gitops/tenants/" +:+ name)) with (tenant_dir name).
  step_print. step_exists.
  rewrite bool_decide_eq_true_2 by done. cbn [negb].
  do 3 step_print.
  eapply run_bind; [by apply run_input|]. cbn [files stdin stdout].
  rewrite bool_decide_eq_true_2 by done. cbn [negb].
  eapply run_bind_raise. step_exists.
  rewrite bool_decide_eq_true_2 by done. cbn [when].
  eapply run_bind_raise.
  unfold rmtree. eapply run_bind; [done|]. cbn [files stdin stdout].
  rewrite stat_tenant_dir, Hd. by rewrite <- !(assoc_L (++)).
Qed.

Lemma delete_tenant_on_regular_file_witness :
  ∃ out, delete_tenant "acme" tenant_is_file
    = (Raise OSError, World (files tenant_is_file) [] ([] ++ out)).
Proof.
  apply (delete_tenant_on_regular_file "acme" "yes" "not a directory" [] tenant_is_file).
  - vm_compute. reflexivity.
  - reflexivity.
  - reflexivity.
Defined.

(** X10: after a confirmed [delete_tenant] a second [delete_tenant] of
    the same name finds nothing: it prints the not-found line, reads no
    input and changes nothing. *)
Theorem delete_tenant_twice (name line : string) (rest : list string)
    (w : world) :
  valid_name name = true →
  files w !! tenant_dir name = Some Dir →
  files w !! argocd_file name ≠ Some Dir →
  stdin w = line :: rest → lower line = "yes" →
  ∃ w', delete_tenant name w = (Return tt, w')
    ∧ delete_tenant name w'
      = (Return tt,
         World (files w') rest
           (stdout w' ++ [deleting_line name; not_found_line name])).
Proof.
  intros _ Hd Ha Hin Hyes.
  destruct (run_delete_confirmed name line rest w Hd Ha Hin Hyes) as [out Hrun].
  eexists. split; [exact Hrun|].
  apply run_delete_absent. cbn [files].
  rewrite stat_tenant_dir. by apply deleted_below.
Qed.

Lemma delete_tenant_twice_witness :
  ∃ w', delete_tenant "acme" (World acme_files ["YES"; "yes"] []) = (Return tt, w')
    ∧ delete_tenant "acme" w'
      = (Return tt,
         World (files w') ["yes"]
           (stdout w' ++ [deleting_line "acme"; not_found_line "acme"])).
Proof.
  apply (delete_tenant_twice "acme" "YES" ["yes"] (World acme_files ["YES"; "yes"] [])).
  - reflexivity.
  - vm_compute. reflexivity.
  - vm_compute. discriminate.
  - reflexivity.
  - reflexivity.
Defined.

(** X11: for an existing tenant [delete_tenant] removes it exactly when
    the confirmation is one of the eight spellings of [yes] in upper and
    lower case letters; with any other line, the empty line and [y]
    included, the tree is left as it was. *)
Theorem delete_tenant_accepts_exactly (name line : string)
    (rest : list string) (w : world) :
  valid_name name = true →
  files w !! tenant_dir name = Some Dir →
  files w !! argocd_file name ≠ Some Dir →
  stdin w = line :: rest →
  delete_tenant name w
  = (Return tt, (delete_tenant name w).2)
  ∧ files (delete_tenant name w).2
    = if decide (line ∈ yes_spellings) then deleted name (files w) else files w.
Proof.
  intros _ Hd Ha Hin. destruct (decide (line ∈ yes_spellings)) as [Hy|Hn].
  - apply lower_yes in Hy.
    destruct (run_delete_confirmed name line rest w Hd Ha Hin Hy) as [out ->].
    done.
  - assert (lower line ≠ "yes") as Hno by (by rewrite lower_yes).
    destruct (run_delete_cancelled name line rest w) as [out ->]; [|done..].
    rewrite stat_tenant_dir; eauto.
Qed.

Lemma delete_tenant_accepts_exactly_witness :
  delete_tenant "acme" (World acme_files ["y"] [])
  = (Return tt, (delete_tenant "acme" (World acme_files ["y"] [])).2)
  ∧ files (delete_tenant "acme" (World acme_files ["y"] [])).2
    = if decide ("y" ∈ yes_spellings) then deleted "acme" acme_files
      else acme_files.
Proof.
  apply (delete_tenant_accepts_exactly "acme" "y" [] (World acme_files ["y"] [])).
  - reflexivity.
  - vm_compute. reflexivity.
  - vm_compute. discriminate.
  - reflexivity.
Defined.

(** ** What [list_tenants] names, and where it stops *)

Section names.
Implicit Types (n : string) (w : world) (fs : gmap (list string) entry).

Lemma list_entry_skipped fs (x : list string) i o :
  bool_decide (stat fs x = Some Dir) && negb (startswith "." (FS.name x)) = false →
  list_entry x (World fs i o) = (Return tt, World fs i o).
Proof.
  intros Hc. unfold list_entry. eapply run_bind; [apply run_is_dir|].
  cbn [files]. by rewrite Hc.
Qed.

Lemma list_entry_unreadable fs n i o :
  visible_tenant fs n →
  fs !! ["gitops"; "tenants"; n; "deployment.yaml"] = Some Dir →
  list_entry ["gitops"; "tenants"; n] (World fs i o)
  = (Raise OSError, World fs i (o ++ [bullet n])).
Proof.
  intros [Hn Hvis] Hd.
  unfold list_entry. eapply run_bind; [apply run_is_dir|]. cbn [files stat].
  change (FS.name ["gitops"; "tenants"; n]) with n.
  rewrite Hn, Hvis, bool_decide_eq_true_2 by done. cbn [negb andb when].
  eapply run_bind; [apply run_print|]. cbn [files stdin stdout].
  eapply run_bind; [apply run_path_exists|]. cbn [files stdin stdout].
  change (join ["gitops"; "tenants"; n] "deployment.yaml")
    with ["gitops"; "tenants"; n; "deployment.yaml"].
  cbn [stat]. rewrite Hd, bool_decide_eq_true_2 by eauto. cbn [when].
  eapply run_bind_raise. by apply run_read_text_dir.
Qed.

(** One entry is either gone through or stops the listing with [OSError]. *)
Lemma list_entry_outcome fs n i o :
  ∃ r out,
    list_entry ["gitops"; "tenants"; n] (World fs i o) = (r, World fs i (o ++ out))
    ∧ (r = Return tt ∨ r = Raise OSError).
Proof.
  destruct (decide (fs !! ["gitops"; "tenants"; n; "deployment.yaml"] = Some Dir))
    as [Hd|Hd].
  - destruct (bool_decide (stat fs ["gitops"; "tenants"; n] = Some Dir)
              && negb (startswith "." (FS.name ["gitops"; "tenants"; n]))) eqn:Hc.
    + apply andb_true_iff in Hc as [Hn%bool_decide_eq_true Hvis%negb_true_iff].
      exists (Raise OSError), [bullet n]. split; [|by right].
      by apply list_entry_unreadable.
    + exists (Return tt), []. split; [|by left].
      rewrite (right_id_L [] _). by apply list_entry_skipped.
  - exists (Return tt), (entry_lines fs ["gitops"; "tenants"; n]).
    split; [|by left]. by apply list_entry_lines.
Qed.

Lemma for_each_skips {A} (body : A → M unit) fs (l : list A) i o :
  (∀ x, x ∈ l → body x (World fs i o) = (Return tt, World fs i o)) →
  for_each l body (World fs i o) = (Return tt, World fs i o).
Proof.
  induction l as [|x l IH]; intros Hb; [done|].
  cbn [for_each]. eapply run_bind; [apply Hb, list_elem_of_here|].
  apply IH. intros y Hy. apply Hb. by right.
Qed.

(** A loop stops with the exception of the first body that raises. *)
Lemma for_each_raises {A} (body : A → M unit) fs (l : list A) x0 e i o :
  (∀ x i o, x ∈ l →
     ∃ r out, body x (World fs i o) = (r, World fs i (o ++ out))
              ∧ (r = Return tt ∨ r = Raise e)) →
  x0 ∈ l →
  (∀ i o, ∃ out, body x0 (World fs i o) = (Raise e, World fs i (o ++ out))) →
  ∃ out, for_each l body (World fs i o) = (Raise e, World fs i (o ++ out)).
Proof.
  revert o. induction l as [|x l IH]; intros o Hb Hin Hx0.
  - by apply elem_of_nil in Hin.
  - destruct (Hb x i o) as (r & out & Hx & [->| ->]); [by left| |].
    + apply elem_of_cons in Hin as [->|Hin].
      { destruct (Hx0 i o) as [out' Hr]. congruence. }
      destruct (IH (o ++ out)) as [out' Hrest]; [|done|done|].
      { intros y i' o' Hy. apply Hb. by right. }
      exists (out ++ out'). cbn [for_each].
      eapply run_bind; [exact Hx|]. by rewrite (assoc_L (++)).
    + exists out. cbn [for_each]. by eapply run_bind_raise.
Qed.

(** [list_tenants] when every manifest it reads can be read. *)
Lemma run_list_tenants_visible w :
  files w !! ["gitops"; "tenants"] = Some Dir →
  (∀ n, visible_tenant (files w) n →
        files w !! ["gitops"; "tenants"; n; "deployment.yaml"] ≠ Some Dir) →
  list_tenants w
  = (Return tt,
     World (files w) (stdin w)
       (stdout w ++ header ::
          concat (entry_lines (files w)
                    <$> sorted (listdir (files w) ["gitops"; "tenants"])))).
Proof.
  intros Ht Hr. destruct w as [fs i o]. cbn [files stdin stdout] in *.
  unfold list_tenants. eapply run_bind; [apply run_print|].
  change (Path "gitops/tenants") with ["gitops"; "tenants"].
  eapply run_bind; [apply run_path_exists|]. cbn [files stdin stdout stat].
  rewrite Ht, bool_decide_eq_true_2 by eauto. cbn [negb].
  eapply run_bind.
  { unfold iterdir. eapply run_bind; [done|]. cbn [files stat]. by rewrite Ht. }
  rewrite for_each_lines with (lines := entry_lines fs).
  - by rewrite <- (assoc_L (++)).
  - intros x i' o' Hx. apply elem_of_sorted, elem_of_listdir in Hx as (n & -> & _).
    change (["gitops"; "tenants"] ++ [n]) with ["gitops"; "tenants"; n].
    destruct (bool_decide (stat fs ["gitops"; "tenants"; n] = Some Dir)
              && negb (startswith "." (FS.name ["gitops"; "tenants"; n]))) eqn:Hc.
    + apply andb_true_iff in Hc as [Hn%bool_decide_eq_true Hvis%negb_true_iff].
      apply list_entry_lines, Hr. by split.
    + unfold entry_lines. rewrite Hc, (right_id_L [] _).
      by apply list_entry_skipped.
Qed.

Lemma elem_of_concat {A} (x : A) (ls : list (list A)) :
  x ∈ concat ls ↔ ∃ l, x ∈ l ∧ l ∈ ls.
Proof.
  induction ls as [|l ls IH]; cbn [concat].
  - split; [by intros ?%elem_of_nil|]. by intros (l & _ & ?%elem_of_nil).
  - rewrite elem_of_app, IH. split.
    + intros [Hx|(l' & Hx & Hl)]; [exists l|exists l']; split; try done.
      * apply list_elem_of_here.
      * by right.
    + intros (l' & Hx & [->|Hl]%elem_of_cons); [by left|]. right. eauto.
Qed.

(** The names in the lines of a listing. *)
Lemma bullet_in_listing fs n :
  bullet n ∈ concat (entry_lines fs <$> sorted (listdir fs ["gitops"; "tenants"]))
  ↔ visible_tenant fs n.
Proof.
  split.
  - intros (lines & Hn & Hl)%elem_of_concat.
    apply list_elem_of_fmap in Hl as (x & -> & Hx).
    apply elem_of_sorted, elem_of_listdir in Hx as (m & -> & _).
    change (["gitops"; "tenants"] ++ [m]) with ["gitops"; "tenants"; m] in Hn.
    unfold entry_lines in Hn.
    change (FS.name ["gitops"; "tenants"; m]) with m in Hn.
    destruct (bool_decide _ && _) eqn:Hc; [|by apply elem_of_nil in Hn].
    apply andb_true_iff in Hc as [Hm%bool_decide_eq_true Hvis%negb_true_iff].
    apply elem_of_cons in Hn as [->%bullet_inj|Hn]; [by split|].
    destruct (fs !! _) as [[text|]|]; try by apply elem_of_nil in Hn.
    apply list_elem_of_singleton in Hn. by apply bullet_not_tier_line in Hn.
  - intros [Hn Hvis].
    destruct (entry_lines_in_listing fs n) as (before & after & ->); [eauto|].
    apply elem_of_app. right. apply elem_of_app. left.
    unfold entry_lines. cbn [stat].
    change (FS.name ["gitops"; "tenants"; n]) with n.
    rewrite Hn, Hvis, bool_decide_eq_true_2 by done. cbn [negb andb].
    apply list_elem_of_here.
Qed.

Lemma bullet_in_output w n :
  files w !! ["gitops"; "tenants"] = Some Dir →
  (∀ n, visible_tenant (files w) n →
        files w !! ["gitops"; "tenants"; n; "deployment.yaml"] ≠ Some Dir) →
  bullet n ∈ output_of list_tenants w ↔ visible_tenant (files w) n.
Proof.
  intros Ht Hr. pose proof (run_list_tenants_visible w Ht Hr) as Hrun.
  rewrite (output_of_run _ _ _ _ _ _ Hrun), <- bullet_in_listing.
  rewrite elem_of_cons. split; [|by right].
  intros [Hh|Hin]; [by apply bullet_not_header in Hh|done].
Qed.

Lemma run_list_tenants_absent w :
  files w !! ["gitops"; "tenants"] = None →
  list_tenants w
  = (Return tt, World (files w) (stdin w) (stdout w ++ [header; no_tenants])).
Proof.
  intros Ht. destruct w as [fs i o]. cbn [files stdin stdout] in *.
  unfold list_tenants. eapply run_bind; [apply run_print|].
  change (Path "gitops/tenants") with ["gitops"; "tenants"].
  eapply run_bind; [apply run_path_exists|]. cbn [files stdin stdout stat].
  rewrite Ht, bool_decide_eq_false_2 by (by intros [??]). cbn [negb].
  rewrite run_print. cbn [files stdin stdout].
  by rewrite <- (assoc_L (++)).
Qed.

End names.

(** X12: with a tenants directory and readable manifests, [list_tenants]
    names exactly the entries of that directory that are directories and
    whose name does not start with a dot: regular files and hidden
    directories are passed over, and nothing else is named. *)
Theorem list_tenants_names_visible_directories (n : string) (w : world) :
  files w !! ["gitops"; "tenants"] = Some Dir →
  manifests_readable (files w) →
  bullet n ∈ output_of list_tenants w
  ↔ files w !! ["gitops"; "tenants"; n] = Some Dir ∧ startswith "." n = false.
Proof.
  intros Ht Hr. apply bullet_in_output; [done|]. intros m _. apply Hr.
Qed.

Lemma list_tenants_names_visible_directories_witness :
  (bullet "acme" ∈ output_of list_tenants mixed_entries
   ↔ files mixed_entries !! ["gitops"; "tenants"; "acme"] = Some Dir
     ∧ startswith "." "acme" = false)
  ∧ (bullet ".git" ∈ output_of list_tenants mixed_entries
   ↔ files mixed_entries !! ["gitops"; "tenants"; ".git"] = Some Dir
     ∧ startswith "." ".git" = false).
Proof.
  assert (manifests_readable (files mixed_entries)) as Hr.
  { intros n. cbn [files mixed_entries]. look.
    apply readable_created; [reflexivity|apply readable_empty]. }
  split.
  - apply (list_tenants_names_visible_directories "acme" mixed_entries);
      [vm_compute; reflexivity|exact Hr].
  - apply (list_tenants_names_visible_directories ".git" mixed_entries);
      [vm_compute; reflexivity|exact Hr].
Defined.

(** X13: without a tenants directory [list_tenants] prints its header and
    the line [No tenants found], and returns. *)
Theorem list_tenants_without_directory (w : world) :
  files w !! ["gitops"; "tenants"] = None →
  list_tenants w
  = (Return tt, World (files w) (stdin w) (stdout w ++ [header; no_tenants])).
Proof. apply run_list_tenants_absent. Qed.

Lemma list_tenants_without_directory_witness :
  list_tenants empty_dir
  = (Return tt, World (files empty_dir) (stdin empty_dir)
                  (stdout empty_dir ++ [header; no_tenants])).
Proof.
  apply (list_tenants_without_directory empty_dir). reflexivity.
Defined.

(** X14: with a tenants directory in which no entry is a directory with
    a name not starting with a dot, [list_tenants] prints its header and
    nothing else; the line [No tenants found] is for a missing tenants
    directory only. *)
Theorem list_tenants_nothing_visible (w : world) :
  files w !! ["gitops"; "tenants"] = Some Dir →
  (∀ n, files w !! ["gitops"; "tenants"; n] = Some Dir → startswith "." n = true) →
  list_tenants w
  = (Return tt, World (files w) (stdin w) (stdout w ++ [header])).
Proof.
  intros Ht Hnone. destruct w as [fs i o]. cbn [files stdin stdout] in *.
  unfold list_tenants. eapply run_bind; [apply run_print|].
  change (Path "gitops/tenants") with ["gitops"; "tenants"].
  eapply run_bind; [apply run_path_exists|]. cbn [files stdin stdout stat].
  rewrite Ht, bool_decide_eq_true_2 by eauto. cbn [negb].
  eapply run_bind.
  { unfold iterdir. eapply run_bind; [done|]. cbn [files stat]. by rewrite Ht. }
  apply for_each_skips.
  intros x Hx. apply elem_of_sorted, elem_of_listdir in Hx as (n & -> & _).
  change (["gitops"; "tenants"] ++ [n]) with ["gitops"; "tenants"; n].
  apply list_entry_skipped. cbn [stat].
  change (FS.name ["gitops"; "tenants"; n]) with n.
  destruct (decide (fs !! ["gitops"; "tenants"; n] = Some Dir)) as [Hn|Hn].
  - by rewrite (Hnone n Hn), andb_false_r.
  - by rewrite bool_decide_eq_false_2.
Qed.

Lemma list_tenants_nothing_visible_witness :
  list_tenants nothing_visible
  = (Return tt, World (files nothing_visible) (stdin nothing_visible)
                  (stdout nothing_visible ++ [header])).
Proof.
  apply (list_tenants_nothing_visible nothing_visible).
  - vm_compute. reflexivity.
  - intros n. cbn [files nothing_visible].
    destruct (decide (n = ".git")) as [->|Hgit]; [done|].
    rewrite lookup_insert_ne by congruence.
    destruct (decide (n = "README.md")) as [->|Hreadme].
    + by rewrite lookup_insert_eq.
    + rewrite lookup_insert_ne by congruence.
      unfold gitops_dirs. rewrite dir_map_lookup, decide_False; [done|].
      rewrite !elem_of_cons, elem_of_nil. intros H. decompose [or] H; congruence.
Defined.

(** X15: a regular file where the tenants directory should be makes
    [list_tenants] raise [OSError] after its header. *)
Theorem list_tenants_on_regular_file (text : string) (w : world) :
  files w !! ["gitops"; "tenants"] = Some (File text) →
  list_tenants w = (Raise OSError, World (files w) (stdin w) (stdout w ++ [header])).
Proof.
  intros Ht. destruct w as [fs i o]. cbn [files stdin stdout] in *.
  unfold list_tenants. eapply run_bind; [apply run_print|].
  change (Path "gitops/tenants") with ["gitops"; "tenants"].
  eapply run_bind; [apply run_path_exists|]. cbn [files stdin stdout stat].
  rewrite Ht, bool_decide_eq_true_2 by eauto. cbn [negb].
  eapply run_bind_raise.
  unfold iterdir. eapply run_bind; [done|]. cbn [files stat]. by rewrite Ht.
Qed.

Lemma list_tenants_on_regular_file_witness :
  list_tenants tenants_is_file
  = (Raise OSError, World (files tenants_is_file) (stdin tenants_is_file)
                      (stdout tenants_is_file ++ [header])).
Proof.
  apply (list_tenants_on_regular_file "not a directory" tenants_is_file).
  reflexivity.
Defined.

(** X16: with a tenants directory, [list_tenants] returns only when no
    directory sits at the deployment manifest of an entry it names; when it
    has returned, it has printed its header and then the lines of the
    entries of the tenants directory in their order, and nothing else, and
    the tree and the input are as they were. *)
Theorem list_tenants_returns_only_readable (w w' : world) :
  files w !! ["gitops"; "tenants"] = Some Dir →
  list_tenants w = (Return tt, w') →
  (∀ n, files w !! ["gitops"; "tenants"; n] = Some Dir →
        startswith "." n = false →
        files w !! ["gitops"; "tenants"; n; "deployment.yaml"] ≠ Some Dir)
  ∧ w' = World (files w) (stdin w)
           (stdout w ++ header ::
              concat (entry_lines (files w)
                        <$> sorted (listdir (files w) ["gitops"; "tenants"]))).
Proof.
  intros Ht Hret.
  assert (∀ n, visible_tenant (files w) n →
               files w !! ["gitops"; "tenants"; n; "deployment.yaml"] ≠ Some Dir)
    as Hr.
  { intros n Hn Hd.
    destruct w as [fs i o]. cbn [files stdin stdout] in *.
    enough (∃ out, list_tenants (World fs i o)
                   = (Raise OSError, World fs i (o ++ out))) as [out Hraise]
      by congruence.
    clear Hret. unfold list_tenants.
    change (Path "gitops/tenants") with ["gitops"; "tenants"].
    destruct (for_each_raises list_entry fs
                (sorted (listdir fs ["gitops"; "tenants"]))
                ["gitops"; "tenants"; n] OSError i
                (o ++ [header])) as [out Hloop].
    - intros x i' o' Hx.
      apply elem_of_sorted, elem_of_listdir in Hx as (m & -> & _).
      apply list_entry_outcome.
    - apply elem_of_sorted, elem_of_listdir. exists n. split; [done|].
      destruct Hn as [Hn _]. eauto.
    - intros i' o'. eexists. by apply list_entry_unreadable.
    - exists (header :: out).
      eapply run_bind; [apply run_print|]. cbn [files stdin stdout].
      eapply run_bind; [apply run_path_exists|]. cbn [files stdin stdout stat].
      rewrite Ht, bool_decide_eq_true_2 by eauto. cbn [negb].
      eapply run_bind.
      { unfold iterdir. eapply run_bind; [done|]. cbn [files stat]. by rewrite Ht. }
      etrans; [exact Hloop|]. by rewrite <- (assoc_L (++)). }
  split.
  - intros n Hn Hvis. apply Hr. by split.
  - pose proof (run_list_tenants_visible w Ht Hr) as Hrun. congruence.
Qed.

Lemma list_tenants_returns_only_readable_witness :
  (∀ n, files mixed_entries !! ["gitops"; "tenants"; n] = Some Dir →
        startswith "." n = false →
        files mixed_entries !! ["gitops"; "tenants"; n; "deployment.yaml"]
        ≠ Some Dir)
  ∧ (list_tenants mixed_entries).2
    = World (files mixed_entries) (stdin mixed_entries)
        (stdout mixed_entries ++ header ::
           concat (entry_lines (files mixed_entries)
                     <$> sorted (listdir (files mixed_entries)
                                   ["gitops"; "tenants"]))).
Proof.
  apply (list_tenants_returns_only_readable mixed_entries).
  - vm_compute. reflexivity.
  - rewrite (run_list_tenants mixed_entries); [done|vm_compute; reflexivity|].
    intros n. cbn [files mixed_entries]. look.
    apply readable_created; [reflexivity|apply readable_empty].
Defined.

(** X17: a directory at the deployment manifest of an entry that
    [list_tenants] names makes it raise [OSError]; the tree is as it was. *)
Theorem list_tenants_unreadable_manifest (n : string) (w : world) :
  files w !! ["gitops"; "tenants"] = Some Dir →
  files w !! ["gitops"; "tenants"; n] = Some Dir →
  startswith "." n = false →
  files w !! ["gitops"; "tenants"; n; "deployment.yaml"] = Some Dir →
  ∃ out, list_tenants w
    = (Raise OSError, World (files w) (stdin w) (stdout w ++ header :: out)).
Proof.
  intros Ht Hn Hvis Hd.
  destruct w as [fs i o]. cbn [files stdin stdout] in *.
  unfold list_tenants.
  change (Path "gitops/tenants") with ["gitops"; "tenants"].
  destruct (for_each_raises list_entry fs
              (sorted (listdir fs ["gitops"; "tenants"]))
              ["gitops"; "tenants"; n] OSError i
              (o ++ [header])) as [out Hloop].
  - intros x i' o' Hx.
    apply elem_of_sorted, elem_of_listdir in Hx as (m & -> & _).
    apply list_entry_outcome.
  - apply elem_of_sorted, elem_of_listdir. exists n. split; [done|]. eauto.
  - intros i' o'. eexists. by apply list_entry_unreadable.
  - exists out.
    eapply run_bind; [apply run_print|]. cbn [files stdin stdout].
    eapply run_bind; [apply run_path_exists|]. cbn [files stdin stdout stat].
    rewrite Ht, bool_decide_eq_true_2 by eauto. cbn [negb].
    eapply run_bind.
    { unfold iterdir. eapply run_bind; [done|]. cbn [files stat]. by rewrite Ht. }
    etrans; [exact Hloop|]. by rewrite <- (assoc_L (++)).
Qed.

Lemma list_tenants_unreadable_manifest_witness :
  ∃ out, list_tenants manifest_is_directory
    = (Raise OSError,
       World (files manifest_is_directory) (stdin manifest_is_directory)
         (stdout manifest_is_directory ++ header :: out)).
Proof.
  apply (list_tenants_unreadable_manifest "acme" manifest_is_directory);
    vm_compute; reflexivity.
Defined.

(** ** The order of a listing *)

Section order.
Implicit Types (n : string) (w : world) (fs : gmap (list string) entry)
  (l : list (list string)).

Lemma path_leb_total (p q : list string) :
  path_leb p q = true ∨ path_leb q p = true.
Proof.
  revert q. induction p as [|a p IH]; intros [|b q]; cbn [path_leb]; auto.
  rewrite (String.compare_antisym b a).
  destruct (String.compare a b); cbn [CompOpp]; auto.
Qed.

Lemma path_le_total : Total path_le.
Proof. intros p q. apply path_leb_total. Qed.

Lemma path_le_tenants a b :
  path_le ["gitops"; "tenants"; a] ["gitops"; "tenants"; b] → a ≠ b →
  String.ltb a b = true.
Proof.
  unfold path_le, String.ltb.
  change (path_leb ["gitops"; "tenants"; a] ["gitops"; "tenants"; b])
    with (match String.compare a b with Lt | Eq => true | Gt => false end).
  destruct (String.compare a b) eqn:Hc; try done.
  intros _ []. by apply String.compare_eq_iff.
Qed.

Lemma names_of_entries l :
  (∀ x, x ∈ l → ∃ n, x = ["gitops"; "tenants"; n]) →
  (λ n, ["gitops"; "tenants"; n]) <$> (FS.name <$> l) = l.
Proof.
  induction l as [|x l IH]; intros Hl; [done|].
  rewrite !fmap_cons, IH by (intros y Hy; apply Hl; by right).
  destruct (Hl x) as [n ->]; [by left|]. done.
Qed.

Lemma sorted_names l :
  (∀ x, x ∈ l → ∃ n, x = ["gitops"; "tenants"; n]) →
  NoDup l → Sorted path_le l →
  Sorted (λ a b, String.ltb a b = true) (FS.name <$> l).
Proof.
  induction l as [|x l IH]; intros Hl Hnd Hs; [constructor|].
  apply NoDup_cons in Hnd as [Hx Hnd]. apply Sorted_inv in Hs as [Hs Hhd].
  rewrite fmap_cons. constructor.
  - apply IH; [|done|done]. intros y Hy. apply Hl. by right.
  - destruct l as [|y l]; [constructor|]. rewrite fmap_cons. constructor.
    apply HdRel_inv in Hhd.
    destruct (Hl x) as [a ->]; [by left|].
    destruct (Hl y) as [b ->]; [right; by left|].
    change (String.ltb a b = true).
    apply path_le_tenants; [done|]. intros ->. apply Hx. by left.
Qed.

Lemma Sorted_sorted l : Sorted path_le (sorted l).
Proof. apply (@Sorted_merge_sort _ path_le _ path_le_total). Qed.

Lemma entries_of_tenants fs x :
  x ∈ sorted (listdir fs ["gitops"; "tenants"]) →
  ∃ n, x = ["gitops"; "tenants"; n].
Proof. intros (n & -> & _)%elem_of_sorted%elem_of_listdir. by exists n. Qed.

End order.

(** X18: with a tenants directory and readable manifests, [list_tenants]
    goes through the entries of the tenants directory once each, in strictly
    ascending order of their names compared byte by byte, whatever the order
    in which they were created. *)
Theorem list_tenants_in_name_order (w : world) :
  files w !! ["gitops"; "tenants"] = Some Dir →
  manifests_readable (files w) →
  ∃ names,
    Sorted (λ a b, String.ltb a b = true) names
    ∧ (∀ n, n ∈ names ↔ is_Some (files w !! ["gitops"; "tenants"; n]))
    ∧ output_of list_tenants w
      = header :: concat ((λ n, entry_lines (files w) ["gitops"; "tenants"; n])
                            <$> names).
Proof.
  intros Ht Hr. pose proof (run_list_tenants w Ht Hr) as Hrun.
  set (l := sorted (listdir (files w) ["gitops"; "tenants"])) in *.
  assert (∀ x, x ∈ l → ∃ n, x = ["gitops"; "tenants"; n]) as Hl
    by apply entries_of_tenants.
  exists (FS.name <$> l). split; [|split].
  - apply sorted_names; [done| |].
    + apply NoDup_sorted, NoDup_listdir.
    + apply Sorted_sorted.
  - intros n. split.
    + intros (x & -> & Hx)%list_elem_of_fmap.
      apply elem_of_sorted, elem_of_listdir in Hx as (m & -> & Hm).
      by rewrite name_snoc.
    + intros Hn. apply list_elem_of_fmap. exists ["gitops"; "tenants"; n].
      split; [done|]. apply elem_of_sorted, elem_of_listdir. by exists n.
  - rewrite (output_of_run _ _ _ _ _ _ Hrun). f_equal.
    rewrite <- (names_of_entries l Hl) at 1.
    by rewrite <- list_fmap_compose.
Qed.

Lemma list_tenants_in_name_order_witness :
  ∃ names,
    Sorted (λ a b, String.ltb a b = true) names
    ∧ (∀ n, n ∈ names ↔ is_Some (files three_tenants !! ["gitops"; "tenants"; n]))
    ∧ output_of list_tenants three_tenants
      = header :: concat ((λ n, entry_lines (files three_tenants)
                                  ["gitops"; "tenants"; n]) <$> names).
Proof.
  apply (list_tenants_in_name_order three_tenants).
  - vm_compute. reflexivity.
  - cbn [files three_tenants].
    repeat (apply readable_created; [reflexivity|]). apply readable_empty.
Defined.

(** ** Entries sit in directories *)

Section keeping.
Context {A B : Type}.
Implicit Types (I : gmap (list string) entry → Prop) (w : world).

Lemma keeps_nothing I (m : M A) :
  (∀ w, files (m w).2 = files w) → keeps I m.
Proof. intros Hm w Hw. by rewrite Hm. Qed.

Lemma keeps_bind I (m : M A) (f : A → M B) :
  keeps I m → (∀ a, keeps I (f a)) → keeps I (m ≫= f).
Proof.
  intros Hm Hf w Hw. specialize (Hm w Hw).
  unfold mbind, M_bind. destruct (m w) as [[a|e] w1]; [|done].
  cbn [snd] in Hm. by apply Hf.
Qed.

End keeping.

Section keeping_calls.
Implicit Types (I : gmap (list string) entry → Prop) (w : world)
  (p q : list string) (fs : gmap (list string) entry).

Lemma keeps_print I s : keeps I (print s).
Proof. by apply keeps_nothing. Qed.

Lemma keeps_getitem {A} I (o : option A) : keeps I (getitem o).
Proof. apply keeps_nothing. by destruct o. Qed.

Lemma stat_insert_dir fs p q :
  stat fs q = Some Dir → stat (<[p := Dir]> fs) q = Some Dir.
Proof.
  destruct q as [|c q]; [done|]. cbn [stat]. intros Hq.
  destruct (decide (p = c :: q)) as [->|Hne].
  - by rewrite lookup_insert_eq.
  - by rewrite lookup_insert_ne.
Qed.

Lemma well_formed_insert_dir fs p :
  well_formed fs → stat fs (parent p) = Some Dir →
  well_formed (<[p := Dir]> fs).
Proof.
  intros Hwf Hp q Hq. apply stat_insert_dir.
  destruct (decide (p = q)) as [<-|Hne]; [done|].
  rewrite lookup_insert_ne in Hq by done. by apply Hwf.
Qed.

Lemma mkdirs_well_formed fs done todo fs' :
  well_formed fs → stat fs done = Some Dir →
  mkdirs fs done todo = Some fs' → well_formed fs'.
Proof.
  revert fs done. induction todo as [|c todo IH]; intros fs dn Hwf Hdn Hm.
  - by injection Hm as <-.
  - cbn [mkdirs] in Hm.
    destruct (fs !! (dn ++ [c])) as [[t|]|] eqn:Hd; [done| |].
    + apply (IH fs (dn ++ [c])); [done| |done].
      destruct dn; exact Hd.
    + apply (IH (<[dn ++ [c] := Dir]> fs) (dn ++ [c])); [| |done].
      * apply well_formed_insert_dir; [done|]. by rewrite parent_snoc.
      * assert (stat (<[dn ++ [c] := Dir]> fs) (dn ++ [c])
                = <[dn ++ [c] := Dir]> fs !! (dn ++ [c])) as -> by by destruct dn.
        by rewrite lookup_insert_eq.
Qed.

Lemma keeps_mkdir p : keeps well_formed (mkdir p).
Proof.
  intros w Hwf. unfold mkdir, mbind, M_bind. simpl.
  destruct (mkdirs (files w) [] p) as [fs'|] eqn:Hm; [|done].
  simpl. exact (mkdirs_well_formed (files w) [] p fs' Hwf eq_refl Hm).
Qed.

Lemma keeps_write_text p text : keeps well_formed (write_text p text).
Proof.
  intros w Hwf. unfold write_text, mbind, M_bind. simpl.
  destruct (decide _) as [(Hp & Hpar & Hnd)|]; [|done]. simpl.
  assert (∀ q, stat (files w) q = Some Dir →
               stat (<[p := File text]> (files w)) q = Some Dir) as Hstat.
  { intros [|c q]; [done|]. cbn [stat]. intros Hq.
    rewrite lookup_insert_ne; [done|]. by intros ->. }
  intros q Hq. apply Hstat.
  destruct (decide (p = q)) as [<-|Hne]; [done|].
  rewrite lookup_insert_ne in Hq by done. by apply Hwf.
Qed.

End keeping_calls.

Ltac keeping_step :=
  lazymatch goal with
  | |- keeps _ (mbind _ _) => apply keeps_bind; [|intros ?]
  | |- keeps _ (print _) => apply keeps_print
  | |- keeps _ (getitem _) => apply keeps_getitem
  | |- keeps _ (mkdir _) => apply keeps_mkdir
  | |- keeps _ (write_text _ _) => apply keeps_write_text
  end.

Ltac keeping := repeat keeping_step.

Section well_formed_trees.
Implicit Types (name tier : string) (w : world).

Lemma create_tenant_keeps name tier : keeps well_formed (create_tenant name tier).
Proof. unfold create_tenant. keeping. Qed.

Lemma well_formed_empty : well_formed ∅.
Proof. intros p [e He]. by rewrite lookup_empty in He. Qed.

End well_formed_trees.

(** ** The operations one after another *)

Section compositions.
Implicit Types (name tier m : string) (config : profile) (w : world)
  (fs : gmap (list string) entry) (q : list string).

Lemma manifests_where name config q e :
  valid_name name = true → manifests name config !! q = Some e →
  tenant_dir name `prefix_of` q ∨ q = argocd_file name.
Proof.
  intros Hv. rewrite (manifests_valid name config Hv), (tenant_dir_valid name Hv),
    (argocd_file_valid name Hv).
  intros Hq.
  repeat match type of Hq with
  | <[?k := _]> _ !! q = Some _ =>
      destruct (decide (k = q)) as [<-|Hne];
      [first [by right | left; by eexists [_]]
      |rewrite lookup_insert_ne in Hq by done; clear Hne]
  end.
  by rewrite lookup_empty in Hq.
Qed.

Lemma created_entry name config fs m :
  valid_name name = true →
  created name config fs !! ["gitops"; "tenants"; m]
  = if decide (m = name) then Some Dir else fs !! ["gitops"; "tenants"; m].
Proof.
  intros Hv. rewrite created_lookup.
  destruct (manifests name config !! ["gitops"; "tenants"; m]) as [e|] eqn:He.
  { exfalso. rewrite (manifests_valid name config Hv) in He.
    repeat (rewrite lookup_insert_ne in He by congruence).
    by rewrite lookup_empty in He. }
  rewrite (tenant_dirs_valid name Hv).
  destruct (decide (m = name)) as [->|Hne].
  - rewrite decide_True; [done|]. among.
  - rewrite decide_False; [done|]. not_among.
Qed.

Lemma deleted_lookup_Some name fs q e :
  deleted name fs !! q = Some e → fs !! q = Some e.
Proof.
  unfold deleted. intros [_ Hq]%lookup_delete_Some.
  by apply map_lookup_filter_Some in Hq as [Hq _].
Qed.

Lemma deleted_entry name fs m :
  valid_name name = true →
  deleted name fs !! ["gitops"; "tenants"; m]
  = if decide (m = name) then None else fs !! ["gitops"; "tenants"; m].
Proof.
  intros Hv. destruct (decide (m = name)) as [->|Hne].
  - apply deleted_below. by rewrite (tenant_dir_valid name Hv).
  - apply deleted_other.
    + rewrite (tenant_dir_valid name Hv). intros [k Hk]. cbn [app] in Hk.
      by simplify_eq.
    + rewrite (argocd_file_valid name Hv). congruence.
Qed.

Lemma deleted_tenants_dir name fs :
  valid_name name = true →
  deleted name fs !! ["gitops"; "tenants"] = fs !! ["gitops"; "tenants"].
Proof.
  intros Hv. apply deleted_other.
  - rewrite (tenant_dir_valid name Hv). intros [k Hk]. cbn [app] in Hk.
    by simplify_eq.
  - rewrite (argocd_file_valid name Hv). congruence.
Qed.

Lemma readable_deleted name fs :
  manifests_readable fs → manifests_readable (deleted name fs).
Proof. intros Hr n Hd. apply (Hr n). by eapply deleted_lookup_Some. Qed.

Lemma can_create_tenants_dir fs name text :
  can_create fs name = true → fs !! ["gitops"; "tenants"] ≠ Some (File text).
Proof.
  intros Hc Ht. unfold can_create in Hc.
  apply andb_true_iff in Hc as [Hd _]. cbn [forallb] in Hd.
  apply andb_true_iff in Hd as [_ Hd]. apply andb_true_iff in Hd as [Hd _].
  unfold is_file in Hd. by rewrite Ht in Hd.
Qed.

(** What a create and a confirmed delete of the same name leave of a tree
    that had nothing of the tenant. *)
Lemma deleted_created name config fs :
  valid_name name = true →
  (∀ q, tenant_dir name `prefix_of` q → fs !! q = None) →
  fs !! argocd_file name = None →
  deleted name (created name config fs) = dir_map shared_dirs ∪ fs.
Proof.
  intros Hv Hbelow Happ. apply map_eq. intros q.
  rewrite lookup_with_dirs.
  destruct (decide (tenant_dir name `prefix_of` q)) as [Hpre|Hpre].
  { rewrite deleted_below, Hbelow by done.
    rewrite decide_False; [done|].
    rewrite (tenant_dir_valid name Hv) in Hpre. destruct Hpre as [k ->].
    unfold shared_dirs. cbn [app]. not_among. }
  destruct (decide (q = argocd_file name)) as [->|Hq].
  { rewrite deleted_application, Happ.
    rewrite decide_False; [done|].
    rewrite (argocd_file_valid name Hv). unfold shared_dirs. not_among. }
  rewrite deleted_other, created_lookup by done.
  destruct (manifests name config !! q) as [e|] eqn:He.
  { by destruct (manifests_where name config q e Hv He). }
  rewrite (tenant_dirs_valid name Hv).
  assert (q ≠ ["gitops"; "tenants"; name]) as Hne.
  { intros ->. apply Hpre. by rewrite (tenant_dir_valid name Hv). }
  unfold shared_dirs.
  destruct (decide (q ∈ [["gitops"]; ["gitops"; "tenants"]; ["gitops"; "argocd"]]))
    as [Hin|Hin].
  - rewrite decide_True; [done|]. revert Hin. rewrite !elem_of_cons. tauto.
  - rewrite decide_False; [done|]. revert Hin.
    rewrite !elem_of_cons, !elem_of_nil. tauto.
Qed.

Lemma created_beside name other config fs q :
  valid_name name = true → valid_name other = true → other ≠ name →
  tenant_dir other `prefix_of` q →
  created name config fs !! q = fs !! q.
Proof.
  intros Hv Hv' Hne Hq.
  pose proof (other_tenant_outside_delete name other q Hv Hv' Hne (or_introl Hq))
    as Hout.
  apply created_other.
  - destruct (manifests name config !! q) as [e|] eqn:He; [|done].
    destruct Hout. by apply (manifests_where name config q e).
  - rewrite (tenant_dirs_valid name Hv).
    rewrite (tenant_dir_valid other Hv') in Hq. destruct Hq as [k ->].
    cbn [app]. not_among.
Qed.

End compositions.

(** X20: after [create_tenant] has returned, [list_tenants] names the
    tenants it named before and the new one, when its name does not start
    with a dot; nothing else is named and none is dropped. *)
Theorem create_tenant_adds_to_listing (name tier m : string) (w w1 : world) :
  valid_name name = true →
  well_formed (files w) → manifests_readable (files w) →
  create_tenant name tier w = (Return tt, w1) →
  bullet m ∈ output_of list_tenants w1
  ↔ (m = name ∧ startswith "." name = false)
    ∨ bullet m ∈ output_of list_tenants w.
Proof.
  intros Hv Hwf Hr Hc.
  destruct (create_tenant_returns name tier w w1 Hv Hc) as [[config Ht] Hcan].
  destruct (create_tenant_files name tier config w Hv Ht Hcan) as [out H1].
  assert (w1 = World (created name config (files w)) (stdin w) (stdout w ++ out))
    as -> by congruence.
  rewrite bullet_in_output; cbn [files].
  2:{ apply created_dir; [done|]. rewrite tenant_dirs_valid by done. among. }
  2:{ intros n _. by apply readable_created. }
  unfold visible_tenant. rewrite (created_entry name config (files w) m Hv).
  destruct (files w !! ["gitops"; "tenants"]) as [[text|]|] eqn:Htd.
  - by destruct (can_create_tenants_dir (files w) name text).
  - rewrite (bullet_in_output w) by (try done; intros n _; apply Hr).
    unfold visible_tenant.
    destruct (decide (m = name)) as [->|Hne]; tauto.
  - rewrite (output_of_run _ _ _ _ _ _ (run_list_tenants_absent w Htd)).
    assert (files w !! ["gitops"; "tenants"; m] ≠ Some Dir) as Hm.
    { intros Hm. pose proof (Hwf ["gitops"; "tenants"; m] (mk_is_Some _ _ Hm)) as Hp.
      change (parent ["gitops"; "tenants"; m]) with ["gitops"; "tenants"] in Hp.
      cbn [stat] in Hp. congruence. }
    rewrite !elem_of_cons, elem_of_nil.
    pose proof (bullet_not_header m). pose proof (bullet_not_no_tenants m).
    destruct (decide (m = name)) as [->|Hne]; tauto.
Qed.

Lemma create_tenant_adds_to_listing_witness :
  bullet "acme" ∈ output_of list_tenants
                    (create_tenant "globex" "large" (World acme_files [] [])).2
  ↔ ("acme" = "globex" ∧ startswith "." "globex" = false)
    ∨ bullet "acme" ∈ output_of list_tenants (World acme_files [] []).
Proof.
  apply (create_tenant_adds_to_listing "globex" "large" "acme"
           (World acme_files [] [])).
  - reflexivity.
  - cbn [files].
    destruct (create_tenant_files "acme" "small" small_profile empty_dir)
      as [out Hrun]; [reflexivity..|].
    pose proof (create_tenant_keeps "acme" "small" empty_dir well_formed_empty)
      as Hwf.
    by rewrite Hrun in Hwf.
  - cbn [files]. apply readable_created; [reflexivity|apply readable_empty].
  - destruct (create_tenant_files "globex" "large" large_profile
                (World acme_files [] [])) as [out Hrun]; [reflexivity..|].
    by rewrite Hrun.
Defined.

(** X21: after a confirmed [delete_tenant], [list_tenants] names the
    tenants it named before except the deleted one; the others all
    stay. *)
Theorem delete_tenant_removes_from_listing (name line m : string)
    (rest : list string) (w : world) :
  valid_name name = true →
  files w !! ["gitops"; "tenants"] = Some Dir →
  files w !! tenant_dir name = Some Dir →
  files w !! argocd_file name ≠ Some Dir →
  manifests_readable (files w) →
  stdin w = line :: rest → lower line = "yes" →
  bullet m ∈ output_of list_tenants (delete_tenant name w).2
  ↔ m ≠ name ∧ bullet m ∈ output_of list_tenants w.
Proof.
  intros Hv Htd Hd Ha Hr Hin Hyes.
  destruct (run_delete_confirmed name line rest w Hd Ha Hin Hyes) as [out ->].
  cbn [snd].
  rewrite (bullet_in_output w) by (try done; intros n _; apply Hr).
  rewrite bullet_in_output; cbn [files].
  2:{ by rewrite deleted_tenants_dir. }
  2:{ intros n _. by apply readable_deleted. }
  unfold visible_tenant. rewrite (deleted_entry name (files w) m Hv).
  destruct (decide (m = name)) as [->|Hne]; [|tauto].
  split; [by intros [? _]|by intros [? _]].
Qed.

Lemma delete_tenant_removes_from_listing_witness :
  bullet "acme" ∈ output_of list_tenants (delete_tenant "globex" acme_and_globex).2
  ↔ "acme" ≠ "globex" ∧ bullet "acme" ∈ output_of list_tenants acme_and_globex.
Proof.
  apply (delete_tenant_removes_from_listing "globex" "yes" "acme" []
           acme_and_globex).
  - reflexivity.
  - vm_compute. reflexivity.
  - vm_compute. reflexivity.
  - vm_compute. discriminate.
  - cbn [files acme_and_globex].
    repeat (apply readable_created; [reflexivity|]). apply readable_empty.
  - reflexivity.
  - reflexivity.
Defined.

(** X22: [create_tenant] followed by a confirmed [delete_tenant] of the
    same name, in a tree that had nothing of that tenant, gives back the
    tree as it was, with the directories [gitops], [gitops/tenants] and
    [gitops/argocd] in it: the delete takes away all that the create wrote
    and no more. *)
Theorem create_then_delete_restores (name tier line : string)
    (rest : list string) (w w1 : world) :
  valid_name name = true →
  create_tenant name tier w = (Return tt, w1) →
  (∀ q, tenant_dir name `prefix_of` q → files w !! q = None) →
  files w !! argocd_file name = None →
  stdin w = line :: rest → lower line = "yes" →
  ∃ w2, delete_tenant name w1 = (Return tt, w2)
    ∧ files w2 = dir_map shared_dirs ∪ files w.
Proof.
  intros Hv Hc Hbelow Happ Hin Hyes.
  destruct (create_tenant_returns name tier w w1 Hv Hc) as [[config Ht] Hcan].
  destruct (create_tenant_files name tier config w Hv Ht Hcan) as [out H1].
  assert (w1 = World (created name config (files w)) (stdin w) (stdout w ++ out))
    as -> by congruence.
  destruct (created_manifests name config (files w) Hv) as (_ & _ & _ & _ & Hfile).
  destruct (run_delete_confirmed name line rest
              (World (created name config (files w)) (stdin w) (stdout w ++ out)))
    as [out' Hrun]; cbn [files stdin]; try done.
  - apply created_dir; [done|]. rewrite tenant_dirs_valid, tenant_dir_valid by done.
    among.
  - by rewrite Hfile.
  - eexists. split; [exact Hrun|]. cbn [files]. by apply deleted_created.
Qed.

Lemma create_then_delete_restores_witness :
  ∃ w2, delete_tenant "globex"
          (create_tenant "globex" "large" (World acme_files ["yes"] [])).2
        = (Return tt, w2)
    ∧ files w2 = dir_map shared_dirs ∪ files (World acme_files ["yes"] []).
Proof.
  apply (create_then_delete_restores "globex" "large" "yes" []
           (World acme_files ["yes"] [])).
  - reflexivity.
  - destruct (create_tenant_files "globex" "large" large_profile
                (World acme_files ["yes"] [])) as [out Hrun]; [reflexivity..|].
    by rewrite Hrun.
  - intros q Hq. cbn [files]. unfold acme_files.
    by rewrite (created_beside "acme" "globex").
  - vm_compute. reflexivity.
  - reflexivity.
  - reflexivity.
Defined.
